(** * compte_weak_scaling.py: the FLASH log deconstruction, embedded in Rocq

    A shallow embedding of [src/compte_weak_scaling.py]: the pattern
    extractors (the regular expressions the script uses, run on the text
    of a line), the parameter scan [compute_sim_parameters], and the
    region pass [deconstruct_log_file] with its two trackers.

    Conventions of the embedding.
    - A log file is the list of the strings that successive calls of
      [fp.readline()] return before the empty string of end-of-file.
    - A line is a text of ASCII characters.  For such a text [\d] is
      the ten digits and [int] and [float] read them, whatever the
      ASCII-compatible encoding the file is opened with; what the script
      does with other characters depends on that encoding and is not
      modelled.  A
      property that depends on the class of a character is stated for
      ASCII text ([is_ascii]).
    - Python objects live in a heap ([list obj]); a Python variable or
      attribute that holds an object holds its location.  Dictionaries
      ([self.blocks], [self.fileIOs]) are [gmap Z loc].
    - An uncaught Python exception is the [Raise] outcome of [result].
    - A finite float is modelled by the exact rational that the
      operation which made it approximates ([FNum]): the rounding of an
      operation is not modelled, its exceptions and its overflow to
      [inf] are.  [np.std] is a square root and stays symbolic
      ([FSqrt]).
    - [int] is the one of Python 3.11 with its default limit of 4300
      digits for the conversion of a text. *)

From Stdlib Require Import ZArith QArith Qreduction String Ascii List Lia Bool.
From stdpp Require Import base option list gmap strings sorting.

Import ListNotations.
Local Open Scope Z_scope.

(** ** Exceptions and the error monad *)

Inductive exn : Type :=
| IndexError
| ValueError
| TypeError
| ZeroDivisionError
| OverflowError
| UnboundLocalError
| AttributeError.

Inductive result (A : Type) : Type :=
| OK (a : A)
| Raise (e : exn).

Arguments OK {A} a.
Arguments Raise {A} e.

#[global] Instance result_ret : MRet result := fun A a => OK a.
#[global] Instance result_bind : MBind result := fun A B k r =>
  match r with
  | OK a => k a
  | Raise e => Raise e
  end.

#[global] Instance result_fmap : FMap result := fun A B f r =>
  match r with
  | OK a => OK (f a)
  | Raise e => Raise e
  end.

(** ** Regular expressions

    The fragment of [re] the script uses: a sequence of atoms, each a
    character class taken once or one-or-more times (greedy, with
    backtracking, as [re] does). *)

Module Re.

Inductive cls : Type :=
| Lit (c : ascii)   (* a literal character *)
| Digit             (* \d *)
| NonDigit          (* \D *)
| AnyChar.          (* .  : anything but a newline *)

Inductive atom : Type :=
| One (c : cls)
| Plus (c : cls).   (* c+ *)

Definition regex : Type := list atom.

Definition is_digit (a : ascii) : bool :=
  let n := nat_of_ascii a in (48 <=? n)%nat && (n <=? 57)%nat.

Definition cls_matches (c : cls) (a : ascii) : bool :=
  match c with
  | Lit b => Ascii.eqb a b
  | Digit => is_digit a
  | NonDigit => negb (is_digit a)
  | AnyChar => negb (Ascii.eqb a "010"%char)
  end.

(** After one character of [c+] has been taken: take more first
    (greedy), and give characters back until the rest [k] matches.
    The result is the number of characters consumed. *)
Fixpoint plus_loop (c : cls) (k : string -> option nat) (s : string) : option nat :=
  match s with
  | String a s' =>
      if cls_matches c a then
        match plus_loop c k s' with
        | Some n => Some (S n)
        | None => k s
        end
      else k s
  | EmptyString => k s
  end.

Fixpoint match_here (re : regex) (s : string) : option nat :=
  match re with
  | [] => Some O
  | One c :: re' =>
      match s with
      | String a s' => if cls_matches c a then S <$> match_here re' s' else None
      | EmptyString => None
      end
  | Plus c :: re' =>
      match s with
      | String a s' => if cls_matches c a then S <$> plus_loop c (match_here re') s' else None
      | EmptyString => None
      end
  end.

Fixpoint take (n : nat) (s : string) : string :=
  match n, s with
  | S n', String a s' => String a (take n' s')
  | _, _ => EmptyString
  end.

Fixpoint drop (n : nat) (s : string) : string :=
  match n, s with
  | S n', String _ s' => drop n' s'
  | _, _ => s
  end.

(** [re.search(re, s)]: the leftmost match, as (matched text, rest). *)
Fixpoint search (re : regex) (s : string) : option (string * string) :=
  match match_here re s with
  | Some n => Some (take n s, drop n s)
  | None =>
      match s with
      | String _ s' => search re s'
      | EmptyString => None
      end
  end.

(** [re.findall(re, s)]: the successive non-overlapping matches.  The
    scan resumes after each match; every pattern of the script takes at
    least one character, so the length of the text bounds the number
    of resumptions. *)
Fixpoint findall_from (fuel : nat) (re : regex) (s : string) : list string :=
  match fuel with
  | O => []
  | S fuel' =>
      match search re s with
      | Some (m, rest) => m :: findall_from fuel' re rest
      | None => []
      end
  end.

Definition findall (re : regex) (s : string) : list string :=
  findall_from (S (String.length s)) re s.

(** A pattern without metacharacters. *)
Fixpoint lit (s : string) : regex :=
  match s with
  | EmptyString => []
  | String a s' => One (Lit a) :: lit s'
  end.

Definition found (re : regex) (s : string) : bool :=
  match search re s with Some _ => true | None => false end.

End Re.

(** The patterns of the script. *)
Definition re_digits : Re.regex := [Re.Plus Re.Digit].                      (* \d+ *)
Definition re_step : Re.regex := Re.lit "n=" ++ [Re.Plus Re.Digit].         (* n=\d+ *)
Definition re_time : Re.regex :=                                            (* \d+\:\d+\:\d+\.\d+ *)
  [Re.Plus Re.Digit; Re.One (Re.Lit ":"); Re.Plus Re.Digit; Re.One (Re.Lit ":");
   Re.Plus Re.Digit; Re.One (Re.Lit "."); Re.Plus Re.Digit].
Definition re_date : Re.regex :=                                            (* \d+-\d+-\d+ *)
  [Re.Plus Re.Digit; Re.One (Re.Lit "-"); Re.Plus Re.Digit; Re.One (Re.Lit "-");
   Re.Plus Re.Digit].
Definition re_dt : Re.regex :=                                              (* dt=\d+.\d+\D+\d+ *)
  Re.lit "dt=" ++ [Re.Plus Re.Digit; Re.One Re.AnyChar; Re.Plus Re.Digit;
                   Re.Plus Re.NonDigit; Re.Plus Re.Digit].

(** ** Numbers

    [pyfloat] stands for a Python [float] or a [numpy.float64].  [FNum q]
    is a finite float, the result of an operation whose exact value is
    the rational [q] (kept in lowest terms); [FSqrt neg q] is the square
    root of [q], negated when [neg]. *)

Inductive pyfloat : Type :=
| FNum (q : Q)
| FSqrt (neg : bool) (q : Q)
| FNan
| FInf (neg : bool).

Definition Qzero (q : Q) : bool := (Qnum q =? 0).
Definition Qneg (q : Q) : bool := (Qnum q <? 0).

(** The largest double is [2^1024 - 2^971].  A number is rounded to the
    nearest double, ties to even, so what reaches [2^1024 - 2^970] in
    magnitude has no finite double. *)
Definition double_overflow : Z := 2 ^ 1024 - 2 ^ 970.

(** An int that [float(n)] converts: beyond, the conversion of an int
    operand is [OverflowError]. *)
Definition fits_double (n : Z) : bool := Z.abs n <? double_overflow.

(** [x / n] for a Python float [x] and an int [n]: the int is converted
    first, then a zero divisor is refused. *)
Definition float_truediv (x : pyfloat) (n : Z) : result pyfloat :=
  if fits_double n then
    if n =? 0 then Raise ZeroDivisionError
    else OK match x with
            | FNum q => FNum (Qred (q / inject_Z n))
            | FSqrt neg q => FSqrt (xorb neg (n <? 0)) (Qred (q / inject_Z (n * n)))
            | FNan => FNan
            | FInf neg => FInf (xorb neg (n <? 0))
            end
  else Raise OverflowError.

(** [a / b] for two ints: the quotient is computed exactly and rounded
    once; it is [OverflowError] when it has no finite double. *)
Definition int_truediv (a b : Z) : result pyfloat :=
  if b =? 0 then Raise ZeroDivisionError
  else if Z.abs a <? double_overflow * Z.abs b
       then OK (FNum (Qred (inject_Z a / inject_Z b)))
       else Raise OverflowError.

(** The quotient of a [numpy.float64] [x] by a float of value [n]: a
    division by zero is a warning and gives [inf] or [nan]. *)
Definition np_quotient (x : pyfloat) (n : Z) : pyfloat :=
  if n =? 0 then
    match x with
    | FNum q => if Qzero q then FNan else FInf (Qneg q)
    | FSqrt neg q => if Qzero q then FNan else FInf neg
    | FNan => FNan
    | FInf neg => FInf neg
    end
  else
    match x with
    | FNum q => FNum (Qred (q / inject_Z n))
    | FSqrt neg q => FSqrt (xorb neg (n <? 0)) (Qred (q / inject_Z (n * n)))
    | FNan => FNan
    | FInf neg => FInf (xorb neg (n <? 0))
    end.

(** [x / n] for a [numpy.float64] [x] and a Python int [n]: the int is
    converted to a float, which is [OverflowError] beyond the doubles,
    also when [x] is [nan]. *)
Definition np_truediv (x : pyfloat) (n : Z) : result pyfloat :=
  if fits_double n then OK (np_quotient x n) else Raise OverflowError.

Definition Qsum (l : list Q) : Q := foldr Qplus 0%Q l.

(** [np.mean] and [np.std] of a list of finite floats; both are [nan]
    on the empty list.  The value kept is the exact mean (variance) of
    the list: what numpy returns differs from it by the rounding of its
    sums and quotient. *)
Definition np_mean (l : list Q) : pyfloat :=
  match l with
  | [] => FNan
  | _ => FNum (Qred (Qsum l / inject_Z (Z.of_nat (length l))))
  end.

Definition np_std (l : list Q) : pyfloat :=
  match l with
  | [] => FNan
  | _ =>
      let n := inject_Z (Z.of_nat (length l)) in
      let mu := (Qsum l / n)%Q in
      FSqrt false (Qred (Qsum (map (fun x => (x - mu) * (x - mu))%Q l) / n))
  end.

(** ** Dates and durations

    A [datetime] is its number of microseconds since 0001-01-01
    00:00:00, a [timedelta] a number of microseconds. *)

Definition is_leap (y : Z) : bool :=
  (y mod 4 =? 0) && (negb (y mod 100 =? 0) || (y mod 400 =? 0)).

Definition days_in_month (y m : Z) : Z :=
  if m =? 2 then (if is_leap y then 29 else 28)
  else if (m =? 4) || (m =? 6) || (m =? 9) || (m =? 11) then 30
  else 31.

Definition days_before_year (y : Z) : Z :=
  let y' := y - 1 in y' * 365 + y' / 4 - y' / 100 + y' / 400.

Definition days_before_month (y m : Z) : Z :=
  foldr Z.add 0 (map (days_in_month y) (map Z.of_nat (seq 1 (Z.to_nat (m - 1))))).

Definition ymd2ord (y m d : Z) : Z :=
  days_before_year y + days_before_month y m + d.

Definition us_per_second : Z := 1000000.
Definition us_per_day : Z := 86400 * us_per_second.

Definition datetime_us (y m d hh mm ss us : Z) : Z :=
  (((ymd2ord y m d - 1) * 24 + hh) * 60 + mm) * 60 * us_per_second
  + ss * us_per_second + us.

(** A [timedelta] keeps [-999999999 <= days <= 999999999]. *)
Definition timedelta_in_range (us : Z) : bool :=
  (-999999999 <=? us / us_per_day) && (us / us_per_day <=? 999999999).

Definition timedelta_mul (us n : Z) : result Z :=
  if timedelta_in_range (us * n) then OK (us * n) else Raise OverflowError.

(** [timedelta.total_seconds()] *)
Definition total_seconds_q (us : Z) : Q := Qred (us # 1000000).
Definition total_seconds (us : Z) : pyfloat := FNum (total_seconds_q us).

(** ** Text to numbers *)

Definition digit_val (a : ascii) : Z := Z.of_nat (nat_of_ascii a) - 48.

(** The number that a text of digits writes. *)
Definition int_of_digits (s : string) : Z :=
  fold_left (fun acc a => 10 * acc + digit_val a) (list_ascii_of_string s) 0.

(** [int(s)] for a text of digits: a text of more than
    [sys.get_int_max_str_digits()] digits, leading zeros counted, is
    refused. *)
Definition int_max_str_digits : Z := 4300.

Definition py_int (s : string) : result Z :=
  if int_max_str_digits <? Z.of_nat (String.length s) then Raise ValueError
  else OK (int_of_digits s).

(** A character of ASCII, and a text of such characters. *)
Definition ascii_char (a : ascii) : bool := (nat_of_ascii a <? 128)%nat.

Fixpoint is_ascii (s : string) : bool :=
  match s with
  | String a s' => ascii_char a && is_ascii s'
  | EmptyString => true
  end.

(** The leading digits of a text, and what follows them. *)
Fixpoint span_digits (s : string) : string * string :=
  match s with
  | String a s' =>
      if Re.is_digit a then let '(d, r) := span_digits s' in (String a d, r)
      else (EmptyString, s)
  | EmptyString => (EmptyString, EmptyString)
  end.

Definition expect (c : ascii) (s : string) : option string :=
  match s with
  | String a s' => if Ascii.eqb a c then Some s' else None
  | EmptyString => None
  end.

Definition is_space (a : ascii) : bool :=
  let n := nat_of_ascii a in
  ((9 <=? n)%nat && (n <=? 13)%nat) || ((28 <=? n)%nat && (n <=? 32)%nat).

Fixpoint skip_spaces (s : string) : string :=
  match s with
  | String a s' => if is_space a then skip_spaces s' else s
  | EmptyString => s
  end.

Definition strlen (s : string) : Z := Z.of_nat (String.length s).

(** *** [datetime.strptime(s, '%m-%d-%Y %H:%M:%S.%f')]

    The script calls it on a text [date ++ " " ++ time] whose two parts
    matched [re_date] and [re_time], so every field is a run of digits
    between the separators of the format, and the directive of a field
    has to take the whole run.  A field that its directive refuses, a
    date that does not exist and a second above 59 are all
    [ValueError]. *)

Definition field (s : string) : option (string * string) :=
  let '(d, r) := span_digits s in
  match d with
  | EmptyString => None
  | _ => Some (d, r)
  end.

(** The blank of the format is [\s+]. *)
Definition spaces1 (s : string) : option string :=
  match s with
  | String a s' => if is_space a then Some (skip_spaces s') else None
  | EmptyString => None
  end.

Record strptime_fields : Type := {
  f_month : string; f_day : string; f_year : string;
  f_hour : string; f_minute : string; f_second : string; f_micro : string
}.

Definition split_fields (s : string) : option strptime_fields :=
  '(m, r) ← field s; r ← expect "-" r;
  '(d, r) ← field r; r ← expect "-" r;
  '(y, r) ← field r; r ← spaces1 r;
  '(hh, r) ← field r; r ← expect ":" r;
  '(mm, r) ← field r; r ← expect ":" r;
  '(ss, r) ← field r; r ← expect "." r;
  '(us, r) ← field r;
  match r with
  | EmptyString =>
      Some {| f_month := m; f_day := d; f_year := y; f_hour := hh;
              f_minute := mm; f_second := ss; f_micro := us |}
  | _ => None
  end.

(** One or two digits, the value between [lo] and [hi]:
    [%m] is [1[0-2]|0[1-9]|[1-9]], [%d] is [3[0-1]|[1-2]\d|0[1-9]|[1-9]],
    [%H] is [2[0-3]|[0-1]\d|\d], [%M] is [[0-5]\d|\d] and
    [%S] is [6[0-1]|[0-5]\d|\d]. *)
Definition directive_ok (lo hi : Z) (s : string) : bool :=
  let v := int_of_digits s in
  ((strlen s =? 1) || (strlen s =? 2)) && (lo <=? v) && (v <=? hi).

Definition strptime (s : string) : result Z :=
  match split_fields s with
  | None => Raise ValueError
  | Some f =>
      let y := int_of_digits (f_year f) in
      let m := int_of_digits (f_month f) in
      let d := int_of_digits (f_day f) in
      let ss := int_of_digits (f_second f) in
      if directive_ok 1 12 (f_month f) && directive_ok 1 31 (f_day f)
         && (strlen (f_year f) =? 4)                       (* %Y is \d\d\d\d *)
         && directive_ok 0 23 (f_hour f) && directive_ok 0 59 (f_minute f)
         && directive_ok 0 61 (f_second f)
         && (strlen (f_micro f) <=? 6)                     (* %f is [0-9]{1,6} *)
         && (1 <=? y) && (d <=? days_in_month y m) && (ss <=? 59)
      then OK (datetime_us y m d (int_of_digits (f_hour f))
                 (int_of_digits (f_minute f)) ss
                 (int_of_digits (f_micro f) * 10 ^ (6 - strlen (f_micro f))))
      else Raise ValueError
  end.

(** *** [float(s)]

    Blanks around the text are dropped; then an optional sign and either
    [inf], [infinity] or [nan] in any case, or a decimal number whose
    groups of digits may be cut by single underscores.  A number that
    has no finite double is [inf] with its sign. *)

Definition lower (a : ascii) : ascii :=
  let n := nat_of_ascii a in
  if (65 <=? n)%nat && (n <=? 90)%nat then ascii_of_nat (n + 32) else a.

Fixpoint lower_string (s : string) : string :=
  match s with
  | String a s' => String (lower a) (lower_string s')
  | EmptyString => EmptyString
  end.

Fixpoint rstrip_aux (s : string) : string :=
  match s with
  | String a s' =>
      match rstrip_aux s' with
      | EmptyString => if is_space a then EmptyString else String a EmptyString
      | r => String a r
      end
  | EmptyString => EmptyString
  end.

Definition strip (s : string) : string := rstrip_aux (skip_spaces s).

(** [digit (["_"] digit)*], given that the text starts with a digit. *)
Fixpoint digitpart_tail (s : string) : string * string :=
  match s with
  | String a s' =>
      if Re.is_digit a then
        let '(d, r) := digitpart_tail s' in (String a d, r)
      else if Ascii.eqb a "_" then
        match s' with
        | String b _ =>
            if Re.is_digit b then digitpart_tail s' else (EmptyString, s)
        | EmptyString => (EmptyString, s)
        end
      else (EmptyString, s)
  | EmptyString => (EmptyString, EmptyString)
  end.

Definition digitpart (s : string) : option (string * string) :=
  match s with
  | String a _ => if Re.is_digit a then Some (digitpart_tail s) else None
  | EmptyString => None
  end.

Definition sign (s : string) : bool * string :=
  match s with
  | String "-" s' => (true, s')
  | String "+" s' => (false, s')
  | _ => (false, s)
  end.

(** The mantissa digits, the number of them after the point, and the rest. *)
Definition decimal (s : string) : option (string * Z * string) :=
  match s with
  | String "." s' =>
      '(fr, r) ← digitpart s'; Some (fr, strlen fr, r)
  | _ =>
      '(ip, r) ← digitpart s;
      match r with
      | String "." r' =>
          match digitpart r' with
          | Some (fr, r'') => Some ((ip ++ fr)%string, strlen fr, r'')
          | None => Some (ip, 0, r')
          end
      | _ => Some (ip, 0, r)
      end
  end.

Definition exponent (s : string) : option Z :=
  match s with
  | EmptyString => Some 0
  | String a s' =>
      if Ascii.eqb (lower a) "e" then
        let '(neg, s'') := sign s' in
        '(ds, r) ← digitpart s'';
        match r with
        | EmptyString => Some (if neg then - int_of_digits ds else int_of_digits ds)
        | _ => None
        end
      else None
  end.

Definition scale10 (m e : Z) : Q :=
  if 0 <=? e then inject_Z (m * 10 ^ e) else Qred (m # Z.to_pos (10 ^ (- e))).

Definition py_float (s : string) : result pyfloat :=
  let '(neg, body) := sign (strip s) in
  let word := lower_string body in
  if String.eqb word "inf" || String.eqb word "infinity" then OK (FInf neg)
  else if String.eqb word "nan" then OK FNan
  else
    match decimal body with
    | Some (ds, fl, r) =>
        match exponent r with
        | Some e =>
            let m := int_of_digits ds in
            let q := scale10 (if neg then - m else m) (e - fl) in
            OK (if double_overflow * Z.pos (Qden q) <=? Z.abs (Qnum q)
                then FInf neg else FNum q)
        | None => Raise ValueError
        end
    | None => Raise ValueError
    end.

(** [m.split("=")[1]] for a text [m] that contains ["="]. *)
Fixpoint before_eq (s : string) : string :=
  match s with
  | String a s' => if Ascii.eqb a "=" then EmptyString else String a (before_eq s')
  | EmptyString => EmptyString
  end.

Fixpoint after_eq (s : string) : option string :=
  match s with
  | String a s' => if Ascii.eqb a "=" then Some s' else after_eq s'
  | EmptyString => None
  end.

Definition split_eq_1 (s : string) : result string :=
  match after_eq s with
  | Some r => OK (before_eq r)
  | None => Raise IndexError
  end.

(** [l[0]] *)
Definition first {A : Type} (l : list A) : result A :=
  match l with
  | x :: _ => OK x
  | [] => Raise IndexError
  end.

(** ** Python values and objects *)

Abbreviation loc := nat.

(** What an attribute of the script's objects can hold. *)
Inductive value : Type :=
| VNone
| VInt (z : Z)
| VFloat (x : pyfloat)
| VStr (s : string)
| VDatetime (us : Z)
| VTimedelta (us : Z)
| VRef (l : loc).

Definition seconds_per_hour : Z := 3600.

(** [a - v] for a datetime [a]. *)
Definition datetime_max_us : Z := datetime_us 9999 12 31 23 59 59 999999.

Definition datetime_sub (a : Z) (v : value) : result value :=
  match v with
  | VDatetime b => OK (VTimedelta (a - b))
  | VTimedelta d =>
      if (0 <=? a - d) && (a - d <=? datetime_max_us) then OK (VDatetime (a - d))
      else Raise OverflowError
  | _ => Raise TypeError
  end.

(** [v.total_seconds()] *)
Definition total_seconds_of (v : value) : result pyfloat :=
  match v with
  | VTimedelta us => OK (total_seconds us)
  | _ => Raise AttributeError
  end.

(** [v * n] where [v] is a result of [datetime_sub] and [n] is
    [self.n_cores]: a datetime has no product, and neither has [None]. *)
Definition mul_int (v : value) (n : option Z) : result value :=
  match v, n with
  | VTimedelta us, Some n => VTimedelta <$> timedelta_mul us n
  | _, _ => Raise TypeError
  end.

(** Rounding of [a / b] to the nearest integer, ties to even, as
    [timedelta / int] does. *)
Definition divide_and_round (a b : Z) : Z :=
  let q := a / b in
  let r := 2 * (a mod b) in
  let greater_than_half := if 0 <? b then b <? r else r <? b in
  if greater_than_half || ((r =? b) && (q mod 2 =? 1)) then q + 1 else q.

(** [v / n] where [n] is an int attribute of [self], possibly [None]. *)
Definition py_truediv (v : value) (n : option Z) : result value :=
  match v, n with
  | VFloat x, Some n => VFloat <$> float_truediv x n
  | VInt a, Some n => VFloat <$> int_truediv a n
  | VTimedelta us, Some n =>
      if n =? 0 then Raise ZeroDivisionError
      else OK (VTimedelta (divide_and_round us n))
  | _, _ => Raise TypeError
  end.

Module FileIO.

(** [class FLASHLogFileIO] *)
Record t : Type := mk {
  start_date : value;
  write_id : Z;
  wall_time : value;
  wall_time_norm : value;
  file_type : string;
  core_hours : value;
  open : bool;
  close : bool
}.

Definition init (write_id : Z) : t :=
  {| start_date := VStr ""; write_id := write_id; wall_time := VInt 0;
     wall_time_norm := VInt 0; file_type := ""; core_hours := VInt 0;
     open := false; close := false |}.

Definition empty (e : t) : t :=
  {| start_date := VStr ""; write_id := write_id e; wall_time := VInt 0;
     wall_time_norm := VInt 0; file_type := ""; core_hours := VInt 0;
     open := false; close := false |}.

Definition set_open (b : bool) (e : t) : t :=
  mk (start_date e) (write_id e) (wall_time e) (wall_time_norm e)
     (file_type e) (core_hours e) b (close e).
Definition set_close (b : bool) (e : t) : t :=
  mk (start_date e) (write_id e) (wall_time e) (wall_time_norm e)
     (file_type e) (core_hours e) (open e) b.
Definition set_start_date (v : value) (e : t) : t :=
  mk v (write_id e) (wall_time e) (wall_time_norm e)
     (file_type e) (core_hours e) (open e) (close e).
Definition set_wall_time (v : value) (e : t) : t :=
  mk (start_date e) (write_id e) v (wall_time_norm e)
     (file_type e) (core_hours e) (open e) (close e).
Definition set_wall_time_norm (v : value) (e : t) : t :=
  mk (start_date e) (write_id e) (wall_time e) v
     (file_type e) (core_hours e) (open e) (close e).
Definition set_file_type (s : string) (e : t) : t :=
  mk (start_date e) (write_id e) (wall_time e) (wall_time_norm e)
     s (core_hours e) (open e) (close e).
Definition set_core_hours (v : value) (e : t) : t :=
  mk (start_date e) (write_id e) (wall_time e) (wall_time_norm e)
     (file_type e) v (open e) (close e).

Definition open_file (e : t) : t :=
  let e := set_open true e in
  if close e then set_close false e else e.

Definition close_file (e : t) : t :=
  let e := set_close true e in
  if open e then set_open false e else e.

End FileIO.

Module Block.

(** [class FLASHLogBlock].  [avg_wall_time_norm] and
    [std_wall_time_norm] are not set by [__init__]: they exist once
    [process_block_statistics] has assigned them. *)
Record t : Type := mk {
  block_id : Z;
  core_hours : value;
  wall_time : value;
  avg_wall_time_diff : value;
  std_wall_time_diff : value;
  avg_wall_time_diff_norm : value;
  std_wall_time_diff_norm : value;
  dt : value;
  start_date : value;
  end_date : value;
  start_line : Z;
  end_line : Z;
  n_steps : Z;
  avg_wall_time_norm : option value;
  std_wall_time_norm : option value
}.

Definition init (block_id : Z) : t :=
  {| block_id := block_id; core_hours := VInt 0; wall_time := VInt 0;
     avg_wall_time_diff := VInt 0; std_wall_time_diff := VInt 0;
     avg_wall_time_diff_norm := VInt 0; std_wall_time_diff_norm := VInt 0;
     dt := VInt 0; start_date := VStr ""; end_date := VStr "";
     start_line := 0; end_line := 0; n_steps := 0;
     avg_wall_time_norm := None; std_wall_time_norm := None |}.

End Block.

(** The objects of the heap.  [wall_time_list] only ever receives
    datetimes and [dt_list] floats, so the two kinds of list are told
    apart. *)
Inductive obj : Type :=
| OFileIO (e : FileIO.t)
| OBlock (b : Block.t)
| OTimes (l : list Z)
| ODts (l : list pyfloat).

Definition alloc (o : obj) (h : list obj) : loc * list obj := (length h, h ++ [o]).

Definition get_fileIO (h : list obj) (l : loc) : result FileIO.t :=
  match h !! l with
  | Some (OFileIO e) => OK e
  | _ => Raise AttributeError
  end.

Definition get_block (h : list obj) (l : loc) : result Block.t :=
  match h !! l with
  | Some (OBlock b) => OK b
  | _ => Raise AttributeError
  end.

Definition get_times (h : list obj) (l : loc) : result (list Z) :=
  match h !! l with
  | Some (OTimes ts) => OK ts
  | _ => Raise AttributeError
  end.

Definition get_dts (h : list obj) (l : loc) : result (list pyfloat) :=
  match h !! l with
  | Some (ODts ds) => OK ds
  | _ => Raise AttributeError
  end.

(** A local variable that is read: unbound is [UnboundLocalError]. *)
Definition bound {A : Type} (v : option A) : result A :=
  match v with
  | Some a => OK a
  | None => Raise UnboundLocalError
  end.

(** ** [class FLASHLogStats] *)

Record FLASHLogStats : Type := mkStats {
  turb_log_file_path : string;
  site : string;
  total_core_hours : Z;
  n_cores_per_node : option Z;   (* set only for the two known sites *)
  nodes : option pyfloat;
  n_cores : option Z;
  nxb : option Z;
  nyb : option Z;
  nzb : option Z;
  n_cells_per_block : option Z;
  n_cells : option Z;
  blocks : gmap Z loc;
  fileIOs : gmap Z loc;
  debug : bool
}.

Definition FLASHLogStats_init (file_path : string) (debug : bool) (site : string)
  : FLASHLogStats :=
  {| turb_log_file_path := file_path; site := site; total_core_hours := 0;
     n_cores_per_node :=
       if String.eqb site "superMUC-NG" || String.eqb site "Gadi" then Some 48 else None;
     nodes := None; n_cores := None; nxb := None; nyb := None; nzb := None;
     n_cells_per_block := None; n_cells := None;
     blocks := ∅; fileIOs := ∅; debug := debug |}.

Definition set_n_cores (n : Z) (x : pyfloat) (s : FLASHLogStats) : FLASHLogStats :=
  mkStats (turb_log_file_path s) (site s) (total_core_hours s) (n_cores_per_node s)
    (Some x) (Some n) (nxb s) (nyb s) (nzb s) (n_cells_per_block s) (n_cells s)
    (blocks s) (fileIOs s) (debug s).
Definition set_nxb (v : option Z) (s : FLASHLogStats) : FLASHLogStats :=
  mkStats (turb_log_file_path s) (site s) (total_core_hours s) (n_cores_per_node s)
    (nodes s) (n_cores s) v (nyb s) (nzb s) (n_cells_per_block s) (n_cells s)
    (blocks s) (fileIOs s) (debug s).
Definition set_nyb (v : option Z) (s : FLASHLogStats) : FLASHLogStats :=
  mkStats (turb_log_file_path s) (site s) (total_core_hours s) (n_cores_per_node s)
    (nodes s) (n_cores s) (nxb s) v (nzb s) (n_cells_per_block s) (n_cells s)
    (blocks s) (fileIOs s) (debug s).
Definition set_nzb (v : option Z) (s : FLASHLogStats) : FLASHLogStats :=
  mkStats (turb_log_file_path s) (site s) (total_core_hours s) (n_cores_per_node s)
    (nodes s) (n_cores s) (nxb s) (nyb s) v (n_cells_per_block s) (n_cells s)
    (blocks s) (fileIOs s) (debug s).
Definition set_n_cells (per_block total : Z) (s : FLASHLogStats) : FLASHLogStats :=
  mkStats (turb_log_file_path s) (site s) (total_core_hours s) (n_cores_per_node s)
    (nodes s) (n_cores s) (nxb s) (nyb s) (nzb s) (Some per_block) (Some total)
    (blocks s) (fileIOs s) (debug s).
Definition set_blocks (m : gmap Z loc) (s : FLASHLogStats) : FLASHLogStats :=
  mkStats (turb_log_file_path s) (site s) (total_core_hours s) (n_cores_per_node s)
    (nodes s) (n_cores s) (nxb s) (nyb s) (nzb s) (n_cells_per_block s) (n_cells s)
    m (fileIOs s) (debug s).
Definition set_fileIOs (m : gmap Z loc) (s : FLASHLogStats) : FLASHLogStats :=
  mkStats (turb_log_file_path s) (site s) (total_core_hours s) (n_cores_per_node s)
    (nodes s) (n_cores s) (nxb s) (nyb s) (nzb s) (n_cells_per_block s) (n_cells s)
    (blocks s) m (debug s).

(** ** The pattern extractors (methods of [FLASHLogStats]) *)

Definition search_core_count (self : FLASHLogStats) (line_number : Z) (line : string)
  : result FLASHLogStats :=
  if Re.found (Re.lit "Number of MPI tasks:") line then
    m ← first (Re.findall re_digits line);
    n ← py_int m;
    per_node ← match n_cores_per_node self with
               | Some p => OK p
               | None => Raise AttributeError
               end;
    x ← int_truediv n per_node;
    OK (set_n_cores n x self)
  else OK self.

(** The result is the count, or [None] when the label is not in the line. *)
Definition search_block_cell_count (line_number : Z) (line : string) (block_string : string)
  : result (option Z) :=
  if Re.found (Re.lit block_string) line then
    m ← first (Re.findall re_digits line);
    v ← py_int m;
    OK (Some v)
  else OK None.

(** The date and the time of a line, read as one datetime. *)
Definition line_wall_time (line : string) : result Z :=
  let wall_time_obj := Re.findall re_time line in
  let date_obj := Re.findall re_date line in
  d ← first date_obj;
  t ← first wall_time_obj;
  strptime (d ++ " " ++ t)%string.

(** [(wall_time, dt)] for a step line, [None] for [(None, None)]. *)
Definition search_walltime (line : string) : result (option (Z * pyfloat)) :=
  if Re.found re_step line then
    wall_time ← line_wall_time line;
    m ← first (Re.findall re_dt line);
    tok ← split_eq_1 m;
    dt ← py_float tok;
    OK (Some (wall_time, dt))
  else OK None.

(** ** The parameter scan *)

Definition scan_line (self : FLASHLogStats) (cnt : Z) (line : string)
  : result FLASHLogStats :=
  self ← (if n_cores self is None then search_core_count self cnt line else OK self);
  self ← (if nxb self is None
          then v ← search_block_cell_count cnt line "Number x zones:"; OK (set_nxb v self)
          else OK self);
  self ← (if nyb self is None
          then v ← search_block_cell_count cnt line "Number y zones:"; OK (set_nyb v self)
          else OK self);
  if nzb self is None
  then v ← search_block_cell_count cnt line "Number z zones:"; OK (set_nzb v self)
  else OK self.

Fixpoint scan_lines (self : FLASHLogStats) (cnt : Z) (lines : list string)
  : result FLASHLogStats :=
  match lines with
  | [] => OK self
  | line :: rest =>
      self ← scan_line self cnt line;
      scan_lines self (cnt + 1) rest
  end.

(** [a * b] for two attributes that are ints or [None]. *)
Definition mul_attr (a b : option Z) : result Z :=
  match a, b with
  | Some a, Some b => OK (a * b)
  | _, _ => Raise TypeError
  end.

Definition compute_sim_parameters (self : FLASHLogStats) (lines : list string)
  : result FLASHLogStats :=
  self ← scan_lines self 1 lines;
  xy ← mul_attr (nxb self) (nyb self);
  per_block ← mul_attr (Some xy) (nzb self);
  total ← mul_attr (Some per_block) (n_cores self);
  OK (set_n_cells per_block total self).

(** ** The region pass

    [args] holds the two command-line switches the pass reads from the
    global [args] dictionary. *)

Record Args : Type := { file_writes : bool; blocks_flag : bool }.

(** [self], the heap and the local variables of [deconstruct_log_file].
    The local [wall_time] is [None] again at the end of every iteration
    and is left out. *)
Record State : Type := mkState {
  self : FLASHLogStats;
  heap : list obj;
  chunk : bool;
  write : bool;
  IO_id_counter : Z;
  block_id_counter : Z;
  wall_time_list : loc;
  dt_list : loc;
  fileIO : option loc;
  block : option loc;
  cnt : Z
}.

(** The two branches of [search_file_write_stats], on the attributes of
    the object.  With [debug] set, each branch also evaluates the
    subtraction that it prints. *)
Definition on_open (debug : bool) (wall_time : Z) (e : FileIO.t) : result FileIO.t :=
  let e := if FileIO.open e then FileIO.empty e else e in
  let e := FileIO.open_file e in
  let e := FileIO.set_start_date (VDatetime wall_time) e in
  let e := FileIO.set_wall_time (VDatetime wall_time) e in
  _ ← (if debug then datetime_sub wall_time (FileIO.wall_time e) else OK VNone);
  OK e.

Definition on_close (debug : bool) (wall_time : Z) (e : FileIO.t) : result FileIO.t :=
  let e := FileIO.close_file e in
  d ← datetime_sub wall_time (FileIO.wall_time e);
  secs ← total_seconds_of d;
  let e := FileIO.set_wall_time (VFloat secs) e in
  _ ← (if debug then datetime_sub wall_time (FileIO.wall_time e) else OK VNone);
  ch ← py_truediv (FileIO.wall_time e) (Some seconds_per_hour);
  OK (FileIO.set_core_hours ch e).

(** [search_file_write_stats]: the object [fileIO] is changed in place. *)
Definition search_file_write_stats (debug : bool) (line : string) (h : list obj) (fileIO : loc)
  : result (list obj) :=
  wall_time ← line_wall_time line;
  if Re.found (Re.lit "open:") line then
    e ← get_fileIO h fileIO;
    e ← on_open debug wall_time e;
    OK (<[fileIO := OFileIO e]> h)
  else if Re.found (Re.lit "close:") line then
    e ← get_fileIO h fileIO;
    e ← on_close debug wall_time e;
    OK (<[fileIO := OFileIO e]> h)
  else OK h.

(** [np.diff] of a list of datetimes: the timedeltas between neighbours. *)
Fixpoint np_diff (l : list Z) : list Z :=
  match l with
  | a :: (b :: _) as rest => (b - a) :: np_diff rest
  | _ => []
  end.

(** [process_block_statistics]; the result is the heap and [self.blocks]. *)
Definition process_block_statistics (self : FLASHLogStats) (h : list obj)
    (block wall_time_list : loc) (cnt : Z) (dt_list : loc) (block_id_counter : Z)
  : result (FLASHLogStats * list obj) :=
  ts ← get_times h wall_time_list;
  b ← get_block h block;
  end_date ← match last ts with
             | Some t => OK t
             | None => Raise IndexError
             end;
  let end_line := cnt - 1 in
  let n_steps := end_line - Block.start_line b in
  let steps_per_time := np_diff ts in
  let steps_per_time_secs := map total_seconds_q steps_per_time in
  d ← datetime_sub end_date (Block.start_date b);
  core_hours ← mul_int d (n_cores self);
  let avg := np_mean steps_per_time_secs in
  let std := np_std steps_per_time_secs in
  per_block ← match n_cells_per_block self with
              | Some n => OK n
              | None => Raise TypeError
              end;
  avg_norm ← np_truediv avg per_block;
  std_norm ← np_truediv std per_block;
  let b' :=
    {| Block.block_id := Block.block_id b;
       Block.core_hours := core_hours;
       Block.wall_time := VRef wall_time_list;
       Block.avg_wall_time_diff := VFloat avg;
       Block.std_wall_time_diff := VFloat std;
       Block.avg_wall_time_diff_norm := Block.avg_wall_time_diff_norm b;
       Block.std_wall_time_diff_norm := Block.std_wall_time_diff_norm b;
       Block.dt := VRef dt_list;
       Block.start_date := Block.start_date b;
       Block.end_date := VDatetime end_date;
       Block.start_line := Block.start_line b;
       Block.end_line := end_line;
       Block.n_steps := n_steps;
       Block.avg_wall_time_norm := Some (VFloat avg_norm);
       Block.std_wall_time_norm := Some (VFloat std_norm) |} in
  OK (set_blocks (<[block_id_counter := block]> (blocks self)) self,
      <[block := OBlock b']> h).

Definition set_io (sf : FLASHLogStats) (h : list obj) (w : bool) (idc : Z)
    (f : option loc) (st : State) : State :=
  mkState sf h (chunk st) w idc (block_id_counter st)
    (wall_time_list st) (dt_list st) f (block st) (cnt st).

Definition set_blk (sf : FLASHLogStats) (h : list obj) (c : bool) (idc : Z)
    (wl dl : loc) (b : option loc) (st : State) : State :=
  mkState sf h c (write st) (IO_id_counter st) idc wl dl (fileIO st) b (cnt st).

Definition set_cnt (n : Z) (st : State) : State :=
  mkState (self st) (heap st) (chunk st) (write st) (IO_id_counter st)
    (block_id_counter st) (wall_time_list st) (dt_list st) (fileIO st) (block st) n.

(** The file-I/O tracker: the body of [if args["file_writes"]:]. *)
Definition io_part (st : State) (line : string) : result State :=
  let search_chk := Re.found (Re.lit "IO_writeCheckpoint") line in
  let search_plt := Re.found (Re.lit "IO_writePlotfile") line in
  if search_chk || search_plt then
    if write st then
      l ← bound (fileIO st);
      h ← search_file_write_stats (debug (self st)) line (heap st) l;
      e ← get_fileIO h l;
      if FileIO.close e then
        let e := FileIO.set_file_type (if search_chk then "chk" else "plt") e in
        norm ← py_truediv (FileIO.wall_time e) (n_cells_per_block (self st));
        let e := FileIO.set_wall_time_norm norm e in
        OK (set_io (set_fileIOs (<[IO_id_counter st := l]> (fileIOs (self st))) (self st))
                   (<[l := OFileIO e]> h) false (IO_id_counter st + 1) (Some l) st)
      else OK (set_io (self st) h true (IO_id_counter st) (Some l) st)
    else
      let '(l, h) := alloc (OFileIO (FileIO.init (IO_id_counter st))) (heap st) in
      h ← search_file_write_stats (debug (self st)) line h l;
      OK (set_io (self st) h true (IO_id_counter st) (Some l) st)
  else OK st.

(** [l.append(x)] on the two lists of the block tracker. *)
Definition append_time (h : list obj) (l : loc) (t : Z) : result (list obj) :=
  ts ← get_times h l; OK (<[l := OTimes (ts ++ [t])]> h).

Definition append_dt (h : list obj) (l : loc) (x : pyfloat) : result (list obj) :=
  ds ← get_dts h l; OK (<[l := ODts (ds ++ [x])]> h).

(** A new [FLASHLogBlock] with its start date and line set. *)
Definition new_block (block_id_counter wall_time cnt : Z) : Block.t :=
  let b := Block.init block_id_counter in
  {| Block.block_id := Block.block_id b;
     Block.core_hours := Block.core_hours b;
     Block.wall_time := Block.wall_time b;
     Block.avg_wall_time_diff := Block.avg_wall_time_diff b;
     Block.std_wall_time_diff := Block.std_wall_time_diff b;
     Block.avg_wall_time_diff_norm := Block.avg_wall_time_diff_norm b;
     Block.std_wall_time_diff_norm := Block.std_wall_time_diff_norm b;
     Block.dt := Block.dt b;
     Block.start_date := VDatetime wall_time;
     Block.end_date := Block.end_date b;
     Block.start_line := cnt;
     Block.end_line := Block.end_line b;
     Block.n_steps := Block.n_steps b;
     Block.avg_wall_time_norm := Block.avg_wall_time_norm b;
     Block.std_wall_time_norm := Block.std_wall_time_norm b |}.

(** The block tracker: the body of [if args["blocks"]:]. *)
Definition block_part (st : State) (line : string) : result State :=
  r ← search_walltime line;
  match r with
  | Some (wall_time, dt) =>
      let '(b, h, c) :=
        if chunk st then (block st, heap st, true)
        else
          let '(l, h) := alloc (OBlock (new_block (block_id_counter st) wall_time (cnt st)))
                               (heap st) in
          (Some l, h, true) in
      h ← append_time h (wall_time_list st) wall_time;
      h ← append_dt h (dt_list st) dt;
      OK (set_blk (self st) h c (block_id_counter st) (wall_time_list st) (dt_list st) b st)
  | None =>
      if chunk st then
        bl ← bound (block st);
        '(sf, h) ← process_block_statistics (self st) (heap st) bl (wall_time_list st)
                     (cnt st) (dt_list st) (block_id_counter st);
        let '(wl, h) := alloc (OTimes []) h in
        let '(dl, h) := alloc (ODts []) h in
        OK (set_blk sf h false (block_id_counter st + 1) wl dl (block st) st)
      else OK st
  end.

(** One iteration of [while line:]. *)
Definition loop_body (args : Args) (st : State) (line : string) : result State :=
  st ← (if file_writes args then io_part st line else OK st);
  st ← (if blocks_flag args then block_part st line else OK st);
  OK (set_cnt (cnt st + 1) st).

Fixpoint loop (args : Args) (st : State) (lines : list string) : result State :=
  match lines with
  | [] => OK st
  | line :: rest =>
      st ← loop_body args st line;
      loop args st rest
  end.

(** The state at [line = fp.readline(); cnt = 1]: the two lists have
    been created, [fileIO] and [block] are not bound yet. *)
Definition enter (self : FLASHLogStats) : State :=
  let '(wl, h) := alloc (OTimes []) [] in
  let '(dl, h) := alloc (ODts []) h in
  {| self := self; heap := h; chunk := false; write := false;
     IO_id_counter := 0; block_id_counter := 0;
     wall_time_list := wl; dt_list := dl; fileIO := None; block := None; cnt := 1 |}.

(** [deconstruct_log_file]; the result is the state when the loop ends. *)
Definition deconstruct_log_file (args : Args) (self : FLASHLogStats) (lines : list string)
  : result State :=
  self ← (if n_cells self is None then compute_sim_parameters self lines else OK self);
  loop args (enter self) lines.

(** The body of the loop of [main] for one file, up to the export. *)
Definition main_file (args : Args) (debug : bool) (file : string) (lines : list string)
  : result State :=
  let turb_log := FLASHLogStats_init file debug "superMUC-NG" in
  turb_log ← compute_sim_parameters turb_log lines;
  deconstruct_log_file args turb_log lines.

(** ** The export, as far as the records are read

    [create_dataset] makes one row of eight cells per record.  The text
    of the last cell ([strftime]) is not modelled: the cell holds the
    datetime. *)

Definition block_core_hrs (b : Block.t) : result pyfloat :=
  secs ← total_seconds_of (Block.core_hours b);
  float_truediv secs seconds_per_hour.

Definition attr (v : option value) : result value :=
  match v with
  | Some x => OK x
  | None => Raise AttributeError
  end.

Definition strftime_arg (v : value) : result value :=
  match v with
  | VDatetime _ => OK v
  | _ => Raise AttributeError
  end.

Definition block_row (b : Block.t) : result (list value) :=
  core_hrs ← block_core_hrs b;
  avg_norm ← attr (Block.avg_wall_time_norm b);
  std_norm ← attr (Block.std_wall_time_norm b);
  start ← strftime_arg (Block.start_date b);
  OK [VStr "block"; VInt (Block.block_id b); VFloat core_hrs; VInt (Block.n_steps b);
      Block.avg_wall_time_diff b; avg_norm; std_norm; start].

Definition fileIO_row (e : FileIO.t) : result (list value) :=
  start ← strftime_arg (FileIO.start_date e);
  OK [VStr "fileIO"; VStr (FileIO.file_type e); FileIO.core_hours e; VFloat (FNum 0);
      FileIO.wall_time e; FileIO.wall_time_norm e; VFloat (FNum 0); start].

(** ** [create_dataset] and [main]

    A data frame is modelled by the names of its columns and its rows;
    the index column that [to_csv] writes besides is left out, and so is
    the text of the cells.  What [create_dataset] returns here is the
    list of the files it writes, each with its frame. *)

Record DataFrame : Type := { columns : list string; rows : list (list value) }.

(** [for key in d.keys()] followed by [d[key]], for a dictionary filled
    by the pass: the keys come in the order of their insertion, which is
    the ascending one. *)
Definition dict_keys (m : gmap Z loc) : list Z :=
  merge_sort Z.le (elements (dom m)).

Definition dict_items (m : gmap Z loc) : list (Z * loc) :=
  omap (fun k => pair k <$> m !! k) (dict_keys m).

(** [a[key]] for [a = np.repeat(x, n)] or [np.zeros(n)]. *)
Definition np_getitem {A : Type} (n : Z) (x : A) (key : Z) : result A :=
  if (- n <=? key) && (key <? n) then OK x else Raise IndexError.

(** [pd.concat(frames, ...)] has nothing to concatenate when [frames]
    is empty. *)
Definition pd_concat {A : Type} (frames : list A) : result (list A) :=
  match frames with
  | [] => Raise ValueError
  | _ => OK frames
  end.

(** Each one-column frame of eight cells becomes a row; the columns
    [0], ..., [7] of the transposed frame get their names. *)
Definition rename_and_transpose (data_frame : list (list value)) : DataFrame :=
  {| columns := ["entry_type"; "id"; "core_hrs"; "n_steps"; "avg_wall_time_per_step (s)";
                 "avg_wall_time_norm (s)"; "std_wall_time_norm (s)"; "start_date"];
     rows := data_frame |}.

Definition block_data_frame (self : FLASHLogStats) (h : list obj) : result DataFrame :=
  let number_of_blocks := Z.of_nat (size (blocks self)) in
  frames ← mapM (fun '(key, l) =>
                   _ ← np_getitem number_of_blocks "block"%string key;
                   b ← get_block h l;
                   block_row b)
                (dict_items (blocks self));
  data_frame ← pd_concat frames;
  OK (rename_and_transpose data_frame).

Definition fileIO_data_frame (self : FLASHLogStats) (h : list obj) : result DataFrame :=
  let number_of_fileIOs := Z.of_nat (size (fileIOs self)) in
  frames ← mapM (fun '(key, l) =>
                   _ ← np_getitem number_of_fileIOs "fileIO"%string key;
                   e ← get_fileIO h l;
                   fileIO_row e)
                (dict_items (fileIOs self));
  data_frame ← pd_concat frames;
  OK (rename_and_transpose data_frame).

(** [path.split('.')[0]]: the text before the first dot. *)
Fixpoint before_dot (s : string) : string :=
  match s with
  | String a s' => if Ascii.eqb a "." then EmptyString else String a (before_dot s')
  | EmptyString => EmptyString
  end.

Definition create_dataset (args : Args) (self : FLASHLogStats) (h : list obj)
  : result (list (string * DataFrame)) :=
  let name := before_dot (turb_log_file_path self) in
  block_frame ← (if blocks_flag args then Some <$> block_data_frame self h else OK None);
  fileIO_frame ← (if file_writes args then Some <$> fileIO_data_frame self h else OK None);
  OK match block_frame, fileIO_frame with
     | Some b, None => [((name ++ "_block_data.csv")%string, b)]
     | None, Some f => [((name ++ "_fileIO_data.csv")%string, f)]
     | Some b, Some f =>
         [((name ++ "_log_data.csv")%string,
           {| columns := columns b; rows := rows b ++ rows f |})]
     | None, None => []
     end.

(** [main]: the files of the command line, each with its lines.  The
    result is the list of the files written and the exception that
    stopped the loop, if one did. *)
Definition main_iteration (args : Args) (debug : bool) (file : string) (lines : list string)
  : result (list (string * DataFrame)) :=
  st ← main_file args debug file lines;
  create_dataset args (self st) (heap st).

Fixpoint main (args : Args) (debug : bool) (files : list (string * list string))
  : list (string * DataFrame) * option exn :=
  match files with
  | [] => ([], None)
  | (file, lines) :: rest =>
      match main_iteration args debug file lines with
      | Raise e => ([], Some e)
      | OK written =>
          let '(more, r) := main args debug rest in (written ++ more, r)
      end
  end.

(** ** Vocabulary of the statements *)

(** A step line, with the time it carries; a line that is not one. *)
Definition is_step (line : string) (t : Z) : Prop :=
  exists dt, search_walltime line = OK (Some (t, dt)).

Definition non_step (line : string) : Prop := search_walltime line = OK None.

(** A line of one of the two write routines. *)
Definition is_marker (line : string) : bool :=
  Re.found (Re.lit "IO_writeCheckpoint") line || Re.found (Re.lit "IO_writePlotfile") line.

(** An open marker carrying the time [t]; a close marker carrying [t]. *)
Definition open_marker (line : string) (t : Z) : Prop :=
  is_marker line = true /\ Re.found (Re.lit "open:") line = true /\
  line_wall_time line = OK t.

Definition close_marker (line : string) (t : Z) : Prop :=
  is_marker line = true /\ Re.found (Re.lit "open:") line = false /\
  Re.found (Re.lit "close:") line = true /\ line_wall_time line = OK t.

(** The event object right after an open marker at [t], and after the
    close marker at [t_close] that follows it. *)
Definition opened_event (id t : Z) : FileIO.t :=
  FileIO.mk (VDatetime t) id (VDatetime t) (VInt 0) "" (VInt 0) true false.

Definition closed_event (id t_open t_close : Z) (ftype : string) (norm : value) : FileIO.t :=
  FileIO.mk (VDatetime t_open) id (VFloat (total_seconds (t_close - t_open))) norm ftype
    (VFloat (FNum (Qred (total_seconds_q (t_close - t_open) / inject_Z seconds_per_hour))))
    false true.

Definition not_stored (m : gmap Z loc) (l : loc) : Prop := forall k, m !! k ≠ Some l.

(** No line of [pre] strictly between the positions [i] and [j] is an
    open marker. *)
Definition no_open_between (pre : list string) (i j : nat) : Prop :=
  forall m line, (i < m < j)%nat -> pre !! m = Some line ->
    is_marker line = true -> Re.found (Re.lit "open:") line = false.

(** The lines number [s], [s+1], ... of [pre] are step lines that carry
    the times [ts], in this order. *)
Definition run_of (pre : list string) (s : Z) (ts : list Z) : Prop :=
  forall i t, ts !! i = Some t ->
    exists line, pre !! (Z.to_nat (s - 1) + i)%nat = Some line /\ is_step line t.

(** The inter-step intervals, in seconds, that the mean and the standard
    deviation of a block with times [ts] are taken over. *)
Definition deltas (ts : list Z) : list Q := map total_seconds_q (np_diff ts).

(** What [process_block_statistics] left in a block that was built from
    the step lines [s], ..., [s + length ts - 1]. *)
Record block_facts (n pb : Z) (k s : Z) (wl dl : loc) (ts : list Z) (t0 tn : Z)
    (b : Block.t) : Prop := {
  bf_id : Block.block_id b = k;
  bf_start_line : Block.start_line b = s;
  bf_end_line : Block.end_line b = s + Z.of_nat (length ts) - 1;
  bf_n_steps : Block.n_steps b = Z.of_nat (length ts) - 1;
  bf_start_date : Block.start_date b = VDatetime t0;
  bf_end_date : Block.end_date b = VDatetime tn;
  bf_core_hours : Block.core_hours b = VTimedelta ((tn - t0) * n);
  bf_wall_time : Block.wall_time b = VRef wl;
  bf_dt : Block.dt b = VRef dl;
  bf_avg : Block.avg_wall_time_diff b = VFloat (np_mean (deltas ts));
  bf_std : Block.std_wall_time_diff b = VFloat (np_std (deltas ts));
  bf_avg_norm : Block.avg_wall_time_norm b = Some (VFloat (np_quotient (np_mean (deltas ts)) pb));
  bf_std_norm : Block.std_wall_time_norm b = Some (VFloat (np_quotient (np_std (deltas ts)) pb))
}.

(** A block of the Result Store, [pre] being the lines read so far. *)
Definition stored_block (sf : FLASHLogStats) (pre : list string) (st : State)
    (k : Z) (l : loc) : Prop :=
  exists b wl dl ts ds t0 tn n pb s,
    heap st !! l = Some (OBlock b) /\
    heap st !! wl = Some (OTimes ts) /\ heap st !! dl = Some (ODts ds) /\
    wl ≠ wall_time_list st /\ dl ≠ dt_list st /\
    head ts = Some t0 /\ last ts = Some tn /\
    n_cores sf = Some n /\ n_cells_per_block sf = Some pb /\
    1 <= s /\ run_of pre s ts /\
    (exists line, pre !! (Z.to_nat (s - 1) + length ts)%nat = Some line /\ non_step line) /\
    0 <= k < block_id_counter st /\
    block_facts n pb k s wl dl ts t0 tn b.

(** The block being accumulated while [chunk] holds; [c] is the number
    of the next line. *)
Definition open_block (pre : list string) (c : Z) (st : State) : Prop :=
  exists l ts t0 s,
    block st = Some l /\
    heap st !! l = Some (OBlock (new_block (block_id_counter st) t0 s)) /\
    not_stored (blocks (self st)) l /\
    heap st !! wall_time_list st = Some (OTimes ts) /\
    head ts = Some t0 /\ s + Z.of_nat (length ts) = c /\ 1 <= s /\ run_of pre s ts.

(** The invariant of the block tracker. *)
Record InvBlk (sf : FLASHLogStats) (pre : list string) (c : Z) (st : State) : Prop := {
  ib_params : n_cores (self st) = n_cores sf /\
              n_cells_per_block (self st) = n_cells_per_block sf;
  ib_times : exists ts, heap st !! wall_time_list st = Some (OTimes ts);
  ib_dts : exists ds, heap st !! dt_list st = Some (ODts ds);
  ib_idle : chunk st = false -> heap st !! wall_time_list st = Some (OTimes []);
  ib_open : chunk st = true -> open_block pre c st;
  ib_stored : forall k l, blocks (self st) !! k = Some l -> stored_block sf pre st k l;
  ib_counter : 0 <= block_id_counter st
}.

(** An event of the Result Store. *)
Definition stored_event (sf : FLASHLogStats) (pre : list string) (st : State)
    (k : Z) (l : loc) : Prop :=
  exists t_open t_close norm (i j : nat) line_o line_c,
    heap st !! l =
      Some (OFileIO (closed_event k t_open t_close
              (if Re.found (Re.lit "IO_writeCheckpoint") line_c then "chk" else "plt") norm)) /\
    (i < j)%nat /\
    pre !! i = Some line_o /\ open_marker line_o t_open /\
    pre !! j = Some line_c /\ close_marker line_c t_close /\
    no_open_between pre i j /\
    py_truediv (VFloat (total_seconds (t_close - t_open))) (n_cells_per_block sf) = OK norm /\
    0 <= k < IO_id_counter st.

(** The event being tracked while [write] holds: just created, or opened. *)
Definition open_event (pre : list string) (st : State) : Prop :=
  exists l,
    fileIO st = Some l /\ not_stored (fileIOs (self st)) l /\
    (heap st !! l = Some (OFileIO (FileIO.init (IO_id_counter st))) \/
     exists t (i : nat) line,
       heap st !! l = Some (OFileIO (opened_event (IO_id_counter st) t)) /\
       pre !! i = Some line /\ open_marker line t /\
       no_open_between pre i (length pre)).

(** The invariant of the file-I/O tracker. *)
Record InvIO (sf : FLASHLogStats) (pre : list string) (st : State) : Prop := {
  ii_params : n_cells_per_block (self st) = n_cells_per_block sf /\
              debug (self st) = debug sf;
  ii_open : write st = true -> open_event pre st;
  ii_stored : forall k l, fileIOs (self st) !! k = Some l -> stored_event sf pre st k l;
  ii_all : forall l e, heap st !! l = Some (OFileIO e) ->
             (write st = true /\ fileIO st = Some l) \/
             (exists k, fileIOs (self st) !! k = Some l);
  ii_counter : 0 <= IO_id_counter st
}.

(** The invariant of the pass after the lines [pre]. *)
Record Inv (args : Args) (sf : FLASHLogStats) (pre : list string) (st : State) : Prop := {
  inv_cnt : cnt st = Z.of_nat (length pre) + 1;
  inv_blk : InvBlk sf pre (cnt st) st;
  inv_io : InvIO sf pre st;
  inv_chunk : blocks_flag args = false -> chunk st = false;
  inv_write : file_writes args = false -> write st = false
}.

(** What the file-I/O tracker leaves alone, and what the block tracker
    leaves alone. *)
Definition is_fileIO (o : obj) : Prop := exists e, o = OFileIO e.

Record io_frame (st st' : State) : Prop := {
  iof_blocks : blocks (self st') = blocks (self st);
  iof_params : n_cores (self st') = n_cores (self st) /\
               n_cells_per_block (self st') = n_cells_per_block (self st) /\
               debug (self st') = debug (self st);
  iof_locals : chunk st' = chunk st /\ block_id_counter st' = block_id_counter st /\
               wall_time_list st' = wall_time_list st /\ dt_list st' = dt_list st /\
               block st' = block st /\ cnt st' = cnt st;
  iof_heap : forall l o, heap st !! l = Some o -> ~ is_fileIO o -> heap st' !! l = Some o;
  iof_len : (length (heap st) <= length (heap st'))%nat
}.

Record blk_frame (st st' : State) : Prop := {
  bkf_fileIOs : fileIOs (self st') = fileIOs (self st);
  bkf_params : n_cores (self st') = n_cores (self st) /\
               n_cells_per_block (self st') = n_cells_per_block (self st) /\
               debug (self st') = debug (self st);
  bkf_locals : write st' = write st /\ IO_id_counter st' = IO_id_counter st /\
               fileIO st' = fileIO st /\ cnt st' = cnt st;
  bkf_heap : forall l e, heap st' !! l = Some (OFileIO e) <-> heap st !! l = Some (OFileIO e);
  bkf_len : (length (heap st) <= length (heap st'))%nat
}.

(** What a step of the pass keeps of the block side of the heap: the
    lists that are not the two current ones, and the stored blocks. *)
Record blk_keeps (st st' : State) : Prop := {
  bk_times : forall l ts, heap st !! l = Some (OTimes ts) -> l ≠ wall_time_list st ->
               heap st' !! l = Some (OTimes ts);
  bk_dts : forall l ds, heap st !! l = Some (ODts ds) -> l ≠ dt_list st ->
             heap st' !! l = Some (ODts ds);
  bk_blocks : forall l b k, heap st !! l = Some (OBlock b) ->
                blocks (self st) !! k = Some l -> heap st' !! l = Some (OBlock b);
  bk_wl : wall_time_list st' = wall_time_list st \/
          (length (heap st) <= wall_time_list st')%nat;
  bk_dl : dt_list st' = dt_list st \/ (length (heap st) <= dt_list st')%nat;
  bk_counter : block_id_counter st <= block_id_counter st';
  bk_store : forall k l, blocks (self st) !! k = Some l -> blocks (self st') !! k = Some l;
  bk_fresh : chunk st' = true ->
             (chunk st = true /\ block st' = block st) \/
             (chunk st = false /\ block st' = Some (length (heap st)))
}.

(** What a step keeps of the file-I/O side: the stored events. *)
Record io_keeps (st st' : State) : Prop := {
  ik_events : forall l e k, heap st !! l = Some (OFileIO e) ->
                fileIOs (self st) !! k = Some l -> heap st' !! l = Some (OFileIO e);
  ik_store : forall k l, fileIOs (self st) !! k = Some l -> fileIOs (self st') !! k = Some l;
  ik_fresh : write st' = true ->
             (write st = true /\ fileIO st' = fileIO st) \/
             (write st = false /\ fileIO st' = Some (length (heap st)));
  ik_new : forall k l, fileIOs (self st') !! k = Some l ->
             fileIOs (self st) !! k = Some l \/
             (k = IO_id_counter st /\ write st = true /\ fileIO st = Some l /\
              exists e, heap st !! l = Some (OFileIO e) /\
                        FileIO.open e = true /\ FileIO.close e = false)
}.

(** What the file-I/O tracker does to the object [e] it tracks: [r] is
    the object after the line, or [None] when the line leaves it as it
    is. *)
Inductive io_outcome (debug : bool) (line : string) (id : Z) (e : FileIO.t)
  : option FileIO.t -> Prop :=
| io_opened t :
    Re.found (Re.lit "open:") line = true -> line_wall_time line = OK t ->
    (e = FileIO.init id \/ exists t0, e = opened_event id t0) ->
    io_outcome debug line id e (Some (opened_event id t))
| io_closed t t0 :
    Re.found (Re.lit "open:") line = false -> Re.found (Re.lit "close:") line = true ->
    line_wall_time line = OK t -> debug = false -> e = opened_event id t0 ->
    io_outcome debug line id e (Some (closed_event id t0 t "" (VInt 0)))
| io_neither :
    Re.found (Re.lit "open:") line = false -> Re.found (Re.lit "close:") line = false ->
    io_outcome debug line id e None.

(** What later lines keep of the Result Store: every stored record
    stays under its key, at its location, with the same attributes, and
    so do the two lists a stored block refers to.  An object in which
    tracking starts later is a new one. *)
Record keeps (st st' : State) : Prop := {
  k_events : forall k l, fileIOs (self st) !! k = Some l ->
               fileIOs (self st') !! k = Some l /\ heap st' !! l = heap st !! l;
  k_blocks : forall k l, blocks (self st) !! k = Some l ->
               blocks (self st') !! k = Some l /\ heap st' !! l = heap st !! l;
  k_lists : forall k l b wl dl,
              blocks (self st) !! k = Some l -> heap st !! l = Some (OBlock b) ->
              Block.wall_time b = VRef wl -> Block.dt b = VRef dl ->
              heap st' !! wl = heap st !! wl /\ heap st' !! dl = heap st !! dl;
  k_len : (length (heap st) <= length (heap st'))%nat;
  k_fresh_io : write st' = true ->
               (write st = true /\ fileIO st' = fileIO st) \/
               (exists l, fileIO st' = Some l /\ (length (heap st) <= l)%nat);
  k_fresh_blk : chunk st' = true ->
                (chunk st = true /\ block st' = block st) \/
                (exists l, block st' = Some l /\ (length (heap st) <= l)%nat)
}.

(** A label never appears in a file. *)
Definition never_appears (label : string) (lines : list string) : Prop :=
  Forall (fun line => Re.found (Re.lit label) line = false) lines.

(** What the first line that carries [label] gives: the first integer
    written in that line.  Later lines with the label are not looked at. *)
Fixpoint first_extraction (label : string) (lines : list string) : option Z :=
  match lines with
  | [] => None
  | line :: rest =>
      if Re.found (Re.lit label) line then
        match Re.findall re_digits line with
        | m :: _ => Some (int_of_digits m)
        | [] => None
        end
      else first_extraction label rest
  end.

(** The operations on the two flags of an event object. *)
Inductive flag_op : Type := Op_open_file | Op_close_file | Op_empty.

Definition apply_op (e : FileIO.t) (op : flag_op) : FileIO.t :=
  match op with
  | Op_open_file => FileIO.open_file e
  | Op_close_file => FileIO.close_file e
  | Op_empty => FileIO.empty e
  end.

(** ** Sample log lines *)

Module Sample.

Definition nl : string := String "010" EmptyString.

Definition header : list string :=
  [ "Number of MPI tasks: 96" ++ nl; "Number x zones: 16" ++ nl;
    "Number y zones: 16" ++ nl; "Number z zones: 16" ++ nl ]%string.

Definition step1 : string :=
  " [ 01-01-2022  00:00:00.000000 ] step: n=1 t=0.000000E+00 dt=1.000000E-02" ++ nl.
Definition step2 : string :=
  " [ 01-01-2022  00:00:01.500000 ] step: n=2 t=1.000000E-02 dt=1.000000E-02" ++ nl.
Definition step3 : string :=
  " [ 01-01-2022  00:00:20.000000 ] step: n=3 t=2.000000E-02 dt=1.000000E-02" ++ nl.
Definition step4 : string :=
  " [ 01-01-2022  00:00:21.000000 ] step: n=4 t=3.000000E-02 dt=1.000000E-02" ++ nl.

Definition other : string :=
  " [ 01-01-2022  00:00:02.000000 ] memory: /proc vsize (MB): 2049.03" ++ nl.

Definition open1 : string :=
  " [ 01-01-2022  00:00:03.000000 ] [IO_writeCheckpoint] open: type=checkpoint name=Turb_hdf5_chk_0001"
  ++ nl.
Definition open2 : string :=
  " [ 01-01-2022  00:00:05.000000 ] [IO_writeCheckpoint] open: type=checkpoint name=Turb_hdf5_chk_0001"
  ++ nl.
Definition close1 : string :=
  " [ 01-01-2022  00:00:15.000000 ] [IO_writeCheckpoint] close: type=checkpoint name=Turb_hdf5_chk_0001"
  ++ nl.

Definition both : Args := {| file_writes := true; blocks_flag := true |}.

(** 01-01-2022 00:00:00, in microseconds. *)
Definition t0 : Z := 63776592000000000.

(** [self] after the parameter scan of [header]. *)
Definition stats : FLASHLogStats :=
  let s := FLASHLogStats_init "Turb.log" false "superMUC-NG" in
  match compute_sim_parameters s header with
  | OK s' => s'
  | Raise _ => s
  end.

(** The state of the pass over [lines], both trackers on. *)
Definition after (lines : list string) : State :=
  match loop both (enter stats) lines with
  | OK st => st
  | Raise _ => enter stats
  end.

End Sample.

(** The states of the pass: [st] is reached after the lines [pre] of a
    file, from an object whose two stores are empty, as [__init__]
    leaves them. *)
Definition reachable (args : Args) (pre : list string) (st : State) : Prop :=
  exists sf, blocks sf = ∅ /\ fileIOs sf = ∅ /\ loop args (enter sf) pre = OK st.

Definition step_line (line : string) : Prop := exists t, is_step line t.

(** The attributes of [self] that the scan does not assign. *)
Definition same_store (s s' : FLASHLogStats) : Prop :=
  blocks s' = blocks s /\ fileIOs s' = fileIOs s /\ debug s' = debug s /\
  n_cores_per_node s' = n_cores_per_node s.

(** What one attribute is after a line, given what it was before. *)
Definition retained (label : string) (line : string) (before after : option Z) : Prop :=
  match before with
  | Some v => after = Some v
  | None =>
      if Re.found (Re.lit label) line
      then exists m, first (Re.findall re_digits line) = OK m /\ after = Some (int_of_digits m)
      else after = None
  end.

(** ** Vocabulary of the further properties *)

(** The classification of a line by the two trackers, as booleans: a
    step line; a marker line that asks to close (it has [close:] and no
    [open:]); an event is being tracked and it has been opened. *)
Definition step_b (line : string) : bool :=
  match search_walltime line with
  | OK (Some _) => true
  | _ => false
  end.

Definition closes (line : string) : bool :=
  is_marker line && negb (Re.found (Re.lit "open:") line) &&
  Re.found (Re.lit "close:") line.

Definition tracked_open (st : State) : bool :=
  write st &&
  match fileIO st with
  | Some l =>
      match heap st !! l with
      | Some (OFileIO e) => FileIO.open e
      | _ => false
      end
  | None => false
  end.

(** The number of step lines of [lines] that are directly followed by a
    line that is not one; [in_block] tells whether the line before
    [lines] was a step line. *)
Fixpoint block_ends (in_block : bool) (lines : list string) : Z :=
  match lines with
  | [] => 0
  | line :: rest =>
      (if in_block && negb (step_b line) then 1 else 0) + block_ends (step_b line) rest
  end.

Fixpoint ends_in_block (in_block : bool) (lines : list string) : bool :=
  match lines with
  | [] => in_block
  | line :: rest => ends_in_block (step_b line) rest
  end.

(** The number of closing marker lines. *)
Definition count_closes (lines : list string) : Z :=
  Z.of_nat (length (filter (fun line => closes line = true) lines)).

(** What the pass keeps true of the two stores, [pre] being the lines
    read so far: the counters count the closing marker lines and the
    ends of runs of step lines, the keys of a store are the numbers below
    its counter, two keys never share an object, and the blocks lie in
    the file in the order of their keys, at least one line apart. *)
Record Tidy (args : Args) (pre : list string) (st : State) : Prop := {
  td_io_counter : IO_id_counter st = if file_writes args then count_closes pre else 0;
  td_blk_counter : block_id_counter st = if blocks_flag args then block_ends false pre else 0;
  td_chunk : chunk st = blocks_flag args && ends_in_block false pre;
  td_io_keys : forall k, is_Some (fileIOs (self st) !! k) <-> 0 <= k < IO_id_counter st;
  td_blk_keys : forall k, is_Some (blocks (self st) !! k) <-> 0 <= k < block_id_counter st;
  td_io_inj : forall k k' l, fileIOs (self st) !! k = Some l ->
                fileIOs (self st) !! k' = Some l -> k = k';
  td_blk_inj : forall k k' l, blocks (self st) !! k = Some l ->
                 blocks (self st) !! k' = Some l -> k = k';
  td_stored : forall k l b, blocks (self st) !! k = Some l -> heap st !! l = Some (OBlock b) ->
                1 <= Block.start_line b <= Block.end_line b /\ Block.end_line b + 2 <= cnt st;
  td_pairs : forall k k' l l' b b', k < k' ->
               blocks (self st) !! k = Some l -> blocks (self st) !! k' = Some l' ->
               heap st !! l = Some (OBlock b) -> heap st !! l' = Some (OBlock b') ->
               Block.end_line b + 2 <= Block.start_line b';
  td_open : chunk st = true -> forall l b,
              block st = Some l -> heap st !! l = Some (OBlock b) ->
              1 <= Block.start_line b < cnt st /\
              forall k lk bk, blocks (self st) !! k = Some lk ->
                heap st !! lk = Some (OBlock bk) ->
                Block.end_line bk + 2 <= Block.start_line b
}.

(** A text made of digits only. *)
Fixpoint all_digits (s : string) : bool :=
  match s with
  | String a s' => Re.is_digit a && all_digits s'
  | EmptyString => true
  end.

(** The marker lines of a file can be tracked: each of them has a date
    and a time that can be read, and each closing one comes after an
    opening one, with no closing one in between, in a pass that can
    close an event at all ([closable]).  [opened] tells whether an
    opened event is being tracked before the lines. *)
Fixpoint io_accepts (closable opened : bool) (lines : list string) : bool :=
  match lines with
  | [] => true
  | line :: rest =>
      if is_marker line then
        match line_wall_time line with
        | Raise _ => false
        | OK _ =>
            if Re.found (Re.lit "open:") line then io_accepts closable true rest
            else if Re.found (Re.lit "close:") line
                 then closable && opened && io_accepts closable false rest
                 else io_accepts closable opened rest
        end
      else io_accepts closable opened rest
  end.

(** Every line can be classified as a step line or not. *)
Definition classified (lines : list string) : Prop :=
  Forall (fun line => exists r, search_walltime line = OK r) lines.

(** A text without a digit; a text that starts with a digit. *)
Fixpoint no_digits (s : string) : bool :=
  match s with
  | String a s' => negb (Re.is_digit a) && no_digits s'
  | EmptyString => true
  end.

Definition starts_with_digit (s : string) : bool :=
  match s with
  | String a _ => Re.is_digit a
  | EmptyString => false
  end.

(** What the exception of an extractor of the scan tells about the line
    it read: no number at all, or a first number that [int] refuses, or
    one whose quotient by the cores of a node has no float. *)
Definition scan_failure (line : string) (e : exn) : Prop :=
  (e = IndexError /\ Re.findall re_digits line = []) \/
  exists m, first (Re.findall re_digits line) = OK m /\
    ((e = ValueError /\ int_max_str_digits < strlen m) \/
     (e = OverflowError /\ 308 < strlen m)).

(** ** Two passes over the same lines

    What a pass holds on the side of the file-I/O tracker, and on the
    side of the block tracker, read through the heap: the objects, not
    their locations. *)

Definition fileIO_at (h : list obj) (l : option loc) : option FileIO.t :=
  l ← l; o ← h !! l; match o with OFileIO e => Some e | _ => None end.

Definition block_at (h : list obj) (l : option loc) : option Block.t :=
  l ← l; o ← h !! l; match o with OBlock b => Some b | _ => None end.

Definition times_at (h : list obj) (l : loc) : option (list Z) :=
  o ← h !! l; match o with OTimes ts => Some ts | _ => None end.

Definition dts_at (h : list obj) (l : loc) : option (list pyfloat) :=
  o ← h !! l; match o with ODts ds => Some ds | _ => None end.

(** The two lists a block refers to, in place of the references. *)
Definition block_lists (h : list obj) (b : Block.t) : option (list Z) * option (list pyfloat) :=
  (match Block.wall_time b with VRef l => times_at h l | _ => None end,
   match Block.dt b with VRef l => dts_at h l | _ => None end).

(** A block without its two references. *)
Definition forget_lists (b : Block.t) : Block.t :=
  {| Block.block_id := Block.block_id b;
     Block.core_hours := Block.core_hours b;
     Block.wall_time := VNone;
     Block.avg_wall_time_diff := Block.avg_wall_time_diff b;
     Block.std_wall_time_diff := Block.std_wall_time_diff b;
     Block.avg_wall_time_diff_norm := Block.avg_wall_time_diff_norm b;
     Block.std_wall_time_diff_norm := Block.std_wall_time_diff_norm b;
     Block.dt := VNone;
     Block.start_date := Block.start_date b;
     Block.end_date := Block.end_date b;
     Block.start_line := Block.start_line b;
     Block.end_line := Block.end_line b;
     Block.n_steps := Block.n_steps b;
     Block.avg_wall_time_norm := Block.avg_wall_time_norm b;
     Block.std_wall_time_norm := Block.std_wall_time_norm b |}.

(** The two passes agree on the file-I/O side. *)
Record io_sim (st st1 : State) : Prop := {
  is_debug : debug (self st) = debug (self st1);
  is_cells : n_cells_per_block (self st) = n_cells_per_block (self st1);
  is_write : write st = write st1;
  is_counter : IO_id_counter st = IO_id_counter st1;
  is_tracked : write st = true ->
               fileIO_at (heap st) (fileIO st) = fileIO_at (heap st1) (fileIO st1);
  is_stored : forall k, fileIO_at (heap st) (fileIOs (self st) !! k) =
                        fileIO_at (heap st1) (fileIOs (self st1) !! k)
}.

(** The two passes agree on the block side. *)
Record blk_sim (st st2 : State) : Prop := {
  bs_cores : n_cores (self st) = n_cores (self st2);
  bs_cells : n_cells_per_block (self st) = n_cells_per_block (self st2);
  bs_chunk : chunk st = chunk st2;
  bs_counter : block_id_counter st = block_id_counter st2;
  bs_cnt : cnt st = cnt st2;
  bs_times : times_at (heap st) (wall_time_list st) = times_at (heap st2) (wall_time_list st2);
  bs_dts : dts_at (heap st) (dt_list st) = dts_at (heap st2) (dt_list st2);
  bs_open : chunk st = true ->
            block_at (heap st) (block st) = block_at (heap st2) (block st2);
  bs_stored : forall k,
    forget_lists <$> block_at (heap st) (blocks (self st) !! k) =
    forget_lists <$> block_at (heap st2) (blocks (self st2) !! k) /\
    block_lists (heap st) <$> block_at (heap st) (blocks (self st) !! k) =
    block_lists (heap st2) <$> block_at (heap st2) (blocks (self st2) !! k)
}.

(** The three ways to switch the trackers on. *)
Definition both_on : Args := {| file_writes := true; blocks_flag := true |}.
Definition io_only : Args := {| file_writes := true; blocks_flag := false |}.
Definition blocks_only : Args := {| file_writes := false; blocks_flag := true |}.

(** * Proofs *)

(** ** The error monad *)

Lemma bind_OK {A B : Type} (c : result A) (k : A -> result B) (y : B) :
  c ≫= k = OK y -> exists x, c = OK x /\ k x = OK y.
Proof. destruct c as [x|e]; [eauto | discriminate]. Qed.

(** Take a successful sequence apart, one call at a time. *)
Tactic Notation "bind_inv" hyp(H) :=
  let x := fresh "x" in
  let Hx := fresh "E" in
  apply bind_OK in H as (x & Hx & H).

Tactic Notation "bind_inv" hyp(H) "as" ident(x) ident(Hx) :=
  apply bind_OK in H as (x & Hx & H).

Lemma bind_ret {A B : Type} (x : A) (k : A -> result B) : OK x ≫= k = k x.
Proof. reflexivity. Qed.

(** ** The loop *)

Lemma loop_app (args : Args) (st : State) (l1 l2 : list string) :
  loop args st (l1 ++ l2) = loop args st l1 ≫= fun st' => loop args st' l2.
Proof.
  revert st. induction l1 as [|line l1 IH]; intros st; [reflexivity|].
  cbn [app loop]. destruct (loop_body args st line) as [st1|e]; [apply IH | reflexivity].
Qed.

Lemma loop_snoc (args : Args) (st st' : State) (pre : list string) (line : string) :
  loop args st (pre ++ [line]) = OK st' ->
  exists st1, loop args st pre = OK st1 /\ loop_body args st1 line = OK st'.
Proof.
  rewrite loop_app. intros H. bind_inv H. exists x. split; [done|].
  cbn [loop] in H. destruct (loop_body args x line); [done | discriminate].
Qed.

(** ** The heap *)

Lemma alloc_lookup_old (o o' : obj) (h : list obj) (l : loc) :
  h !! l = Some o' -> (h ++ [o]) !! l = Some o'.
Proof. intros H. rewrite lookup_app_l; [done | by eapply lookup_lt_Some]. Qed.

Lemma alloc_lookup_new (o : obj) (h : list obj) : (h ++ [o]) !! length h = Some o.
Proof. rewrite lookup_app_r by lia. by rewrite Nat.sub_diag. Qed.

Lemma alloc_lookup_inv (o o' : obj) (h : list obj) (l : loc) :
  (h ++ [o]) !! l = Some o' -> h !! l = Some o' \/ (l = length h /\ o' = o).
Proof.
  intros H. destruct (decide (l < length h)%nat) as [Hl|Hl].
  - rewrite lookup_app_l in H by done. by left.
  - rewrite lookup_app_r in H by lia.
    destruct (l - length h)%nat as [|n] eqn:E; cbn in H; [|by destruct n].
    right. split; [lia | congruence].
Qed.

Lemma insert_lookup_other (o o' : obj) (h : list obj) (l l' : loc) :
  h !! l' = Some o' -> l ≠ l' -> <[l := o]> h !! l' = Some o'.
Proof. intros H Hne. by rewrite list_lookup_insert_ne. Qed.

Lemma insert_lookup_same (o o' : obj) (h : list obj) (l : loc) :
  h !! l = Some o' -> <[l := o]> h !! l = Some o.
Proof. intros H. apply list_lookup_insert_eq. by eapply lookup_lt_Some. Qed.

Lemma insert_lookup_inv (o o' : obj) (h : list obj) (l l' : loc) :
  <[l := o]> h !! l' = Some o' -> (l = l' /\ o' = o) \/ (l ≠ l' /\ h !! l' = Some o').
Proof.
  intros H. destruct (decide (l = l')) as [->|Hne].
  - left. split; [done|].
    assert (l' < length h)%nat as Hl.
    { apply lookup_lt_Some in H. by rewrite length_insert in H. }
    rewrite list_lookup_insert_eq in H by done. congruence.
  - right. by rewrite list_lookup_insert_ne in H.
Qed.

Lemma get_fileIO_OK (h : list obj) (l : loc) (e : FileIO.t) :
  get_fileIO h l = OK e <-> h !! l = Some (OFileIO e).
Proof.
  unfold get_fileIO. split.
  - destruct (h !! l) as [[]|]; intros [=]; by subst.
  - by intros ->.
Qed.

Lemma get_block_OK (h : list obj) (l : loc) (b : Block.t) :
  get_block h l = OK b <-> h !! l = Some (OBlock b).
Proof.
  unfold get_block. split.
  - destruct (h !! l) as [[]|]; intros [=]; by subst.
  - by intros ->.
Qed.

Lemma get_times_OK (h : list obj) (l : loc) (ts : list Z) :
  get_times h l = OK ts <-> h !! l = Some (OTimes ts).
Proof.
  unfold get_times. split.
  - destruct (h !! l) as [[]|]; intros [=]; by subst.
  - by intros ->.
Qed.

Lemma get_dts_OK (h : list obj) (l : loc) (ds : list pyfloat) :
  get_dts h l = OK ds <-> h !! l = Some (ODts ds).
Proof.
  unfold get_dts. split.
  - destruct (h !! l) as [[]|]; intros [=]; by subst.
  - by intros ->.
Qed.

(** ** The two branches of [search_file_write_stats] *)

Lemma on_open_init (debug : bool) (t id : Z) :
  on_open debug t (FileIO.init id) = OK (opened_event id t).
Proof. destruct debug; reflexivity. Qed.

Lemma on_open_open (debug : bool) (t : Z) (e : FileIO.t) :
  FileIO.open e = true -> on_open debug t e = OK (opened_event (FileIO.write_id e) t).
Proof. intros H. unfold on_open. rewrite H. destruct debug; reflexivity. Qed.

Lemma on_close_init (debug : bool) (t id : Z) :
  on_close debug t (FileIO.init id) = Raise TypeError.
Proof. reflexivity. Qed.

Lemma on_close_opened (debug : bool) (t t0 id : Z) :
  on_close debug t (opened_event id t0) =
    if debug then Raise TypeError else OK (closed_event id t0 t "" (VInt 0)).
Proof. destruct debug; reflexivity. Qed.

Lemma lookup_snoc_last (pre : list string) (line : string) :
  (pre ++ [line]) !! length pre = Some line.
Proof. rewrite lookup_app_r by lia. by rewrite Nat.sub_diag. Qed.

Lemma lookup_snoc_old (pre : list string) (line line' : string) (i : nat) :
  pre !! i = Some line' -> (pre ++ [line]) !! i = Some line'.
Proof. intros H. rewrite lookup_app_l; [done | by eapply lookup_lt_Some]. Qed.

(** ** Monotonicity in the lines read *)

Lemma run_of_snoc (pre : list string) (line : string) (s : Z) (ts : list Z) :
  run_of pre s ts -> run_of (pre ++ [line]) s ts.
Proof.
  intros H i t Hi. destruct (H i t Hi) as (l & Hl & Hs).
  exists l. split; [by apply lookup_snoc_old | done].
Qed.

Lemma run_of_extend (pre : list string) (line : string) (s t : Z) (ts : list Z) :
  1 <= s -> s + Z.of_nat (length ts) = Z.of_nat (length pre) + 1 ->
  run_of pre s ts -> is_step line t -> run_of (pre ++ [line]) s (ts ++ [t]).
Proof.
  intros Hs Hlen H Hstep i t' Hi.
  destruct (decide (i < length ts)%nat) as [Hlt|Hge].
  - rewrite lookup_app_l in Hi by done. by apply (run_of_snoc pre line s ts H i t').
  - rewrite lookup_app_r in Hi by lia.
    destruct (i - length ts)%nat as [|n] eqn:E; cbn in Hi; [|by destruct n].
    injection Hi as <-. exists line. split; [|done].
    replace (Z.to_nat (s - 1) + i)%nat with (length pre) by lia.
    apply lookup_snoc_last.
Qed.

Lemma no_open_between_snoc pre line i j :
  (j <= length pre)%nat -> no_open_between pre i j -> no_open_between (pre ++ [line]) i j.
Proof.
  intros Hj H m line' Hm Hl. apply (H m line' Hm).
  rewrite lookup_app_l in Hl by lia. done.
Qed.

Lemma no_open_between_extend pre line i :
  no_open_between pre i (length pre) ->
  (is_marker line = true -> Re.found (Re.lit "open:") line = false) ->
  no_open_between (pre ++ [line]) i (length (pre ++ [line])).
Proof.
  intros H Hline m line' Hm Hl. rewrite length_app in Hm. cbn in Hm.
  destruct (decide (m < length pre)%nat) as [Hlt|Hge].
  - rewrite lookup_app_l in Hl by done. apply (H m line'); [lia | done].
  - replace m with (length pre) in Hl by lia.
    rewrite lookup_snoc_last in Hl. injection Hl as <-. done.
Qed.

Lemma no_open_between_last pre line :
  no_open_between (pre ++ [line]) (length pre) (length (pre ++ [line])).
Proof. intros m line' Hm. rewrite length_app in Hm. cbn in Hm. lia. Qed.

Lemma stored_event_snoc sf pre line st k l :
  stored_event sf pre st k l -> stored_event sf (pre ++ [line]) st k l.
Proof.
  intros (t_o & t_c & norm & i & j & lo & lc & H1 & H2 & H3 & H4 & H5 & H6 & Hno & H7 & H8).
  exists t_o, t_c, norm, i, j, lo, lc.
  split_and!; first [done | by apply lookup_snoc_old | lia | idtac].
  apply no_open_between_snoc; [|done]. apply lookup_lt_Some in H5. lia.
Qed.

Lemma open_event_snoc pre line st :
  (is_marker line = true -> Re.found (Re.lit "open:") line = false) ->
  open_event pre st -> open_event (pre ++ [line]) st.
Proof.
  intros Hline (l & H1 & H2 & [H3 | (t & i & lo & H3 & H4 & H5 & H6)]); exists l.
  - split_and!; [done..|]. by left.
  - split_and!; [done..|]. right. exists t, i, lo.
    split_and!; [done | by apply lookup_snoc_old | done | by apply no_open_between_extend].
Qed.

Lemma InvIO_snoc sf pre line st :
  (write st = true -> is_marker line = true -> Re.found (Re.lit "open:") line = false) ->
  InvIO sf pre st -> InvIO sf (pre ++ [line]) st.
Proof.
  intros Hline [H1 H2 H3 H4 H5]. split; [done | | | done | done].
  - intros Hw. apply open_event_snoc; [by apply Hline | by apply H2].
  - intros k l Hk. by apply stored_event_snoc, H3.
Qed.

(** The extractors are not unfolded from here on: the proofs go by
    cases on what they return. *)
#[local] Opaque line_wall_time search_walltime Re.found Re.lit Re.findall py_truediv double_overflow.

(** ** The file-I/O tracker *)

Lemma sfws_cases (debug : bool) (line : string) (h h' : list obj) (l : loc) (e : FileIO.t) :
  h !! l = Some (OFileIO e) ->
  search_file_write_stats debug line h l = OK h' ->
  exists t, line_wall_time line = OK t /\
    ((Re.found (Re.lit "open:") line = true /\
      exists e', on_open debug t e = OK e' /\ h' = <[l := OFileIO e']> h) \/
     (Re.found (Re.lit "open:") line = false /\ Re.found (Re.lit "close:") line = true /\
      exists e', on_close debug t e = OK e' /\ h' = <[l := OFileIO e']> h) \/
     (Re.found (Re.lit "open:") line = false /\ Re.found (Re.lit "close:") line = false /\
      h' = h)).
Proof.
  intros Hl H. unfold search_file_write_stats in H.
  bind_inv H. exists x. split; [done|].
  apply get_fileIO_OK in Hl.
  destruct (Re.found (Re.lit "open:") line).
  - left. split; [done|]. rewrite Hl in H. cbn in H. bind_inv H.
    injection H as <-. eauto.
  - destruct (Re.found (Re.lit "close:") line).
    + right; left. split_and!; [done..|]. rewrite Hl in H. cbn in H. bind_inv H.
      injection H as <-. eauto.
    + right; right. injection H as <-. done.
Qed.

Lemma sfws_tracked (debug : bool) (line : string) (h h' : list obj) (l : loc)
    (id : Z) (e : FileIO.t) :
  h !! l = Some (OFileIO e) ->
  (e = FileIO.init id \/ exists t0, e = opened_event id t0) ->
  search_file_write_stats debug line h l = OK h' ->
  exists r, io_outcome debug line id e r /\
    h' = match r with Some e' => <[l := OFileIO e']> h | None => h end.
Proof.
  intros Hl He H.
  destruct (sfws_cases _ _ _ _ _ _ Hl H) as (t & Ht & [(Ho & e' & E & ->) | [(Ho & Hc & e' & E & ->) | (Ho & Hc & ->)]]).
  - exists (Some (opened_event id t)). split.
    + by eapply io_opened.
    + destruct He as [-> | [t0 ->]].
      * rewrite on_open_init in E. by injection E as <-.
      * rewrite on_open_open in E by done. by injection E as <-.
  - destruct He as [-> | [t0 ->]].
    + by rewrite on_close_init in E.
    + rewrite on_close_opened in E. destruct debug eqn:Hd; [done|].
      injection E as <-.
      exists (Some (closed_event id t0 t "" (VInt 0))). split; [|done].
      by eapply io_closed.
  - exists None. split; [by apply io_neither | done].
Qed.

Lemma stored_lt sf pre st k l :
  stored_event sf pre st k l -> (l < length (heap st))%nat.
Proof.
  intros (t_o & t_c & norm & i & j & lo & lc & H1 & _). by eapply lookup_lt_Some.
Qed.

Lemma stored_key_lt sf pre st k l :
  stored_event sf pre st k l -> 0 <= k < IO_id_counter st.
Proof.
  intros (t_o & t_c & norm & i & j & lo & lc & H1 & H2 & H3 & H4 & H5 & H6 & Hno & H7 & H8).
  done.
Qed.

(** A stored event survives a change of the state that keeps its object. *)
Lemma stored_event_keep sf pre st st' k l :
  stored_event sf pre st k l ->
  (forall o, heap st !! l = Some o -> heap st' !! l = Some o) ->
  IO_id_counter st <= IO_id_counter st' ->
  stored_event sf pre st' k l.
Proof.
  intros (t_o & t_c & norm & i & j & lo & lc & H1 & H2 & H3 & H4 & H5 & H6 & Hno & H7 & H8) Hh Hc.
  exists t_o, t_c, norm, i, j, lo, lc. split_and!; first [done | by apply Hh | lia].
Qed.

Lemma io_part_not_marker (st : State) (line : string) :
  is_marker line = false -> io_part st line = OK st.
Proof. unfold is_marker, io_part. by intros ->. Qed.

Lemma io_frame_refl (st : State) : io_frame st st.
Proof. by split. Qed.

Lemma io_keeps_refl st : io_keeps st st.
Proof. split; try done; by left. Qed.

Lemma io_part_inv sf pre st line st' :
  InvIO sf pre st -> io_part st line = OK st' ->
  InvIO sf (pre ++ [line]) st' /\ io_frame st st' /\ io_keeps st st'.
Proof.
  intros HI H.
  destruct (is_marker line) eqn:Hm.
  2:{ rewrite io_part_not_marker in H by done. injection H as <-.
      split_and!; [apply InvIO_snoc; [congruence | done] | apply io_frame_refl
                  | apply io_keeps_refl]. }
  destruct HI as [[Hp1 Hp2] Hopen Hstored Hall Hcnt].
  unfold io_part in H. pose proof Hm as Hm'. unfold is_marker in Hm'. rewrite Hm' in H.
  destruct (write st) eqn:Hw.
  - (* an event is being tracked *)
    destruct (Hopen eq_refl) as (l & Hf & Hns & Hobj).
    rewrite Hf in H. cbn [bound] in H. rewrite bind_ret in H. bind_inv H as h E.
    assert (exists e, heap st !! l = Some (OFileIO e) /\
              (e = FileIO.init (IO_id_counter st) \/
               exists t0, e = opened_event (IO_id_counter st) t0)) as (e & Hl & He).
    { destruct Hobj as [Hobj | (t & i & lo & Hobj & _)]; eauto. }
    destruct (sfws_tracked _ _ _ _ _ _ _ Hl He E) as (r & Hr & ->).
    assert (forall e' l' o, heap st !! l' = Some o -> l' ≠ l ->
              <[l := OFileIO e']> (heap st) !! l' = Some o) as Hother.
    { intros e' l' o Hl' Hne. by apply insert_lookup_other. }
    assert (forall l' o, heap st !! l' = Some o -> ~ is_fileIO o -> l' ≠ l) as Hnf.
    { intros l' o Hl' Hno Heq. subst l'. apply Hno. exists e. congruence. }
    assert (forall k l', fileIOs (self st) !! k = Some l' -> l' ≠ l) as Hsl.
    { intros k l' Hk <-. by apply (Hns k). }
    destruct Hr as [t Ho Ht _ | t t0 Ho Hc Ht Hd -> | Ho Hc].
    + (* open *)
      rewrite (proj2 (get_fileIO_OK _ _ _) (insert_lookup_same _ _ _ _ Hl)) in H.
      cbn in H. injection H as <-. split_and!.
      * split; cbn.
        -- done.
        -- intros _. exists l. split_and!; [done..|]. right.
           exists t, (length pre), line. split_and!.
           ++ by eapply insert_lookup_same.
           ++ apply lookup_snoc_last.
           ++ by split_and!.
           ++ apply no_open_between_last.
        -- intros k l' Hk. apply stored_event_snoc.
           eapply stored_event_keep; [by apply Hstored | | cbn; lia].
           cbn. intros o Ho'. apply Hother; [done | by eapply Hsl].
        -- intros l' e' Hl'. apply insert_lookup_inv in Hl' as [[<- _] | [Hne Hl']].
           ++ by left.
           ++ destruct (Hall _ _ Hl') as [[_ Hf'] | Hs]; [|by right].
              rewrite Hf in Hf'. by injection Hf' as <-.
        -- done.
      * split; cbn; [done..| | by rewrite length_insert].
        intros l' o Hl' Hno. apply Hother; [done | by eapply Hnf].
      * split; cbn; [| done | by left | by left].
        intros l' e' k Hl' Hk. apply Hother; [done | by eapply Hsl].
    + (* close *)
      rewrite (proj2 (get_fileIO_OK _ _ _) (insert_lookup_same _ _ _ _ Hl)) in H.
      cbn [mbind result_bind closed_event FileIO.close] in H.
      bind_inv H as norm En. injection H as <-.
      destruct Hobj as [Hobj | (t0' & i & lo & Hobj & Hi & Hlo & Hnob)].
      { rewrite Hl in Hobj. discriminate. }
      rewrite Hl in Hobj. injection Hobj as <-.
      split_and!.
      * split; cbn.
        -- done.
        -- done.
        -- intros k l' Hk. destruct (decide (IO_id_counter st = k)) as [<-|Hne].
           ++ rewrite lookup_insert_eq in Hk. injection Hk as <-.
              exists t0, t, norm, i, (length pre), lo, line. cbn. split_and!.
              ** rewrite list_insert_insert_eq.
                 by erewrite insert_lookup_same.
              ** by eapply lookup_lt_Some.
              ** by apply lookup_snoc_old.
              ** done.
              ** apply lookup_snoc_last.
              ** by split_and!.
              ** by apply no_open_between_snoc.
              ** by rewrite <- Hp1.
              ** lia.
              ** lia.
           ++ rewrite lookup_insert_ne in Hk by done. apply stored_event_snoc.
              eapply stored_event_keep; [by apply Hstored | | cbn; lia].
              cbn. intros o Ho'. rewrite list_insert_insert_eq.
              apply Hother; [done | by eapply Hsl].
        -- intros l' e' Hl'. right. rewrite list_insert_insert_eq in Hl'.
           apply insert_lookup_inv in Hl' as [[<- _] | [Hne Hl']].
           ++ exists (IO_id_counter st). by rewrite lookup_insert_eq.
           ++ destruct (Hall _ _ Hl') as [[_ Hf'] | [k Hk]].
              ** rewrite Hf in Hf'. by injection Hf' as <-.
              ** exists k. rewrite lookup_insert_ne; [done|].
                 apply Hstored, stored_key_lt in Hk. lia.
        -- lia.
      * split; cbn; [done..| | by rewrite !length_insert]. intros l' o Hl' Hnf'.
        rewrite list_insert_insert_eq. apply Hother; [done | by eapply Hnf].
      * split; cbn; [| | done |].
        -- intros l' e' k Hl' Hk. rewrite list_insert_insert_eq.
           apply Hother; [done | by eapply Hsl].
        -- intros k l' Hk. rewrite lookup_insert_ne; [done|].
           apply Hstored, stored_key_lt in Hk. lia.
        -- intros k l' Hk. destruct (decide (IO_id_counter st = k)) as [<-|Hne].
           ++ rewrite lookup_insert_eq in Hk. injection Hk as <-. right.
              split_and!; [done..|]. by eexists.
           ++ rewrite lookup_insert_ne in Hk by done. by left.
    + (* neither *)
      rewrite (proj2 (get_fileIO_OK _ _ _) Hl), bind_ret in H.
      assert (FileIO.close e = false) as Hce.
      { destruct He as [-> | [t0 ->]]; reflexivity. }
      rewrite Hce in H. injection H as <-. split_and!.
      * split; cbn.
        -- done.
        -- intros _. apply open_event_snoc; [done|]. exists l. by split_and!.
        -- intros k l' Hk. apply stored_event_snoc.
           eapply stored_event_keep; [by apply Hstored | done | cbn; lia].
        -- intros l' e' Hl'. destruct (Hall _ _ Hl') as [[_ Hf'] | Hs]; [|by right].
           left. by rewrite <- Hf.
        -- done.
      * by split.
      * split; cbn; [done | done | by left | by left].
  - (* no event is being tracked: a new object *)
    cbn [alloc] in H. bind_inv H as h E. injection H as <-.
    pose proof (alloc_lookup_new (OFileIO (FileIO.init (IO_id_counter st))) (heap st)) as Hl.
    destruct (sfws_tracked _ _ _ _ _ (IO_id_counter st) _ Hl (or_introl eq_refl) E) as (r & Hr & ->).
    assert (not_stored (fileIOs (self st)) (length (heap st))) as Hns.
    { intros k Hk. apply Hstored, stored_lt in Hk. lia. }
    assert (forall l' e', heap st !! l' = Some (OFileIO e') ->
              exists k, fileIOs (self st) !! k = Some l') as Hall'.
    { intros l' e' Hl'. destruct (Hall _ _ Hl') as [[Hw' _] | Hs]; [congruence | done]. }
    destruct Hr as [t Ho Ht _ | t t0 Ho Hc Ht Hd Habs | Ho Hc].
    + split_and!.
      * split; cbn.
        -- done.
        -- intros _. eexists. split_and!; [done..|]. right.
           exists t, (length pre), line. split_and!.
           ++ by eapply insert_lookup_same.
           ++ apply lookup_snoc_last.
           ++ by split_and!.
           ++ apply no_open_between_last.
        -- intros k l' Hk. apply stored_event_snoc.
           eapply stored_event_keep; [by apply Hstored | | cbn; lia].
           cbn. intros o Ho'. apply insert_lookup_other; [by apply alloc_lookup_old|].
           intros <-. by apply (Hns k).
        -- intros l' e' Hl'. apply insert_lookup_inv in Hl' as [[<- _] | [Hne Hl']].
           ++ by left.
           ++ apply alloc_lookup_inv in Hl' as [Hl' | [-> _]]; [|done].
              right. by eapply Hall'.
        -- done.
      * split; cbn; [done..| | rewrite length_insert, length_app; lia]. intros l' o Hl' Hno.
        apply insert_lookup_other; [by apply alloc_lookup_old|].
        intros <-. apply lookup_lt_Some in Hl'. lia.
      * split; cbn; [| done | by right | by left].
        intros l' e' k Hl' Hk. apply insert_lookup_other; [by apply alloc_lookup_old|].
        intros <-. by apply (Hns k).
    + discriminate.
    + split_and!.
      * split; cbn.
        -- done.
        -- intros _. eexists. split_and!; [done..|]. by left.
        -- intros k l' Hk. apply stored_event_snoc.
           eapply stored_event_keep; [by apply Hstored | | cbn; lia].
           cbn. intros o Ho'. by apply alloc_lookup_old.
        -- intros l' e' Hl'.
           apply alloc_lookup_inv in Hl' as [Hl' | [-> _]]; [|by left].
           right. by eapply Hall'.
        -- done.
      * split; cbn; [done..| | rewrite length_app; lia].
        intros l' o Hl' Hno. by apply alloc_lookup_old.
      * split; cbn; [| done | by right | by left].
        intros l' e' k Hl' Hk. by apply alloc_lookup_old.
Qed.

(** ** The block tracker *)

Lemma stored_block_keep sf pre pre' st st' k l :
  stored_block sf pre st k l ->
  blocks (self st) !! k = Some l ->
  (forall i line, pre !! i = Some line -> pre' !! i = Some line) ->
  blk_keeps st st' ->
  stored_block sf pre' st' k l.
Proof.
  intros (b & wl & dl & ts & ds & t0 & tn & n & pb & s & H1 & H2 & H3 & H4 & H5 & H6 &
          H7 & H8 & H9 & H10 & H11 & (line & H12 & H13) & H14 & H15) Hk Hpre [K1 K2 K3 K4 K5 K6].
  exists b, wl, dl, ts, ds, t0, tn, n, pb, s. split_and!; try done.
  - by eapply K3.
  - by apply K1.
  - by apply K2.
  - apply lookup_lt_Some in H2. destruct K4 as [-> | ?]; [done | lia].
  - apply lookup_lt_Some in H3. destruct K5 as [-> | ?]; [done | lia].
  - intros i t Hi. destruct (H11 i t Hi) as (line' & ? & ?). exists line'. by split; [apply Hpre|].
  - exists line. by split; [apply Hpre|].
  - lia.
  - lia.
Qed.

Lemma pbs_open sf h bl wl c dl k ts t0 s sf' h' :
  h !! wl = Some (OTimes ts) ->
  h !! bl = Some (OBlock (new_block k t0 s)) ->
  head ts = Some t0 ->
  s + Z.of_nat (length ts) = c ->
  process_block_statistics sf h bl wl c dl k = OK (sf', h') ->
  exists tn n pb b',
    last ts = Some tn /\ n_cores sf = Some n /\ n_cells_per_block sf = Some pb /\
    sf' = set_blocks (<[k := bl]> (blocks sf)) sf /\
    h' = <[bl := OBlock b']> h /\
    block_facts n pb k s wl dl ts t0 tn b'.
Proof.
  intros Hwl Hbl Hhd Hc H. unfold process_block_statistics in H.
  rewrite (proj2 (get_times_OK _ _ _) Hwl), bind_ret in H.
  rewrite (proj2 (get_block_OK _ _ _) Hbl), bind_ret in H.
  destruct (last ts) as [tn|] eqn:Hlast; [|discriminate].
  rewrite bind_ret in H. cbn [new_block Block.start_date datetime_sub] in H.
  rewrite bind_ret in H.
  destruct (n_cores sf) as [n|] eqn:Hn; [|discriminate].
  cbn [mul_int] in H. unfold timedelta_mul in H.
  destruct (timedelta_in_range ((tn - t0) * n)); [|discriminate].
  cbn [fmap result_fmap] in H. rewrite bind_ret in H.
  destruct (n_cells_per_block sf) as [pb|] eqn:Hpb; [|discriminate].
  rewrite bind_ret in H. unfold np_truediv in H.
  destruct (fits_double pb); [|discriminate]. rewrite !bind_ret in H.
  injection H as <- <-.
  eexists tn, n, pb, _. split_and!; [done..| reflexivity |].
  split; cbn; try reflexivity; lia.
Qed.

Lemma stored_block_lt sf pre st k l :
  stored_block sf pre st k l -> (l < length (heap st))%nat.
Proof.
  intros (b & wl & dl & ts & ds & t0 & tn & n & pb & s & H1 & _). by eapply lookup_lt_Some.
Qed.

Lemma block_part_inv sf pre st line st' :
  InvBlk sf pre (cnt st) st -> cnt st = Z.of_nat (length pre) + 1 ->
  block_part st line = OK st' ->
  InvBlk sf (pre ++ [line]) (cnt st + 1) st' /\ blk_frame st st' /\ blk_keeps st st'.
Proof.
  intros [[Hp1 Hp2] [ts0 Hts0] [ds0 Hds0] Hidle Hopen Hstored Hcnt] Hc H.
  assert (wall_time_list st ≠ dt_list st) as Hwd.
  { intros Heq. rewrite Heq in Hts0. congruence. }
  assert (forall i l0, pre !! i = Some l0 -> (pre ++ [line]) !! i = Some l0) as Hpre.
  { intros i l0. apply lookup_snoc_old. }
  unfold block_part in H. bind_inv H as r Er. destruct r as [[t dt]|].
  - (* a step line *)
    assert (is_step line t) as Hstep by (by exists dt).
    destruct (chunk st) eqn:Hch.
    + (* inside a block *)
      destruct (Hopen eq_refl) as (l & ts & t0 & s & Hb & Hl & Hns & Hts & Hhd & Hlen & Hs & Hrun).
      unfold append_time in H. rewrite (proj2 (get_times_OK _ _ _) Hts), !bind_ret in H.
      unfold append_dt in H.
      rewrite (proj2 (get_dts_OK _ _ _) (insert_lookup_other _ _ _ _ _ Hds0 Hwd)), !bind_ret in H.
      injection H as <-.
      assert (l ≠ wall_time_list st) as Hlw by (intros ->; congruence).
      assert (l ≠ dt_list st) as Hld by (intros ->; congruence).
      assert (blk_keeps st
                (set_blk (self st)
                   (<[dt_list st := ODts (ds0 ++ [dt])]>
                      (<[wall_time_list st := OTimes (ts ++ [t])]> (heap st)))
                   true (block_id_counter st) (wall_time_list st) (dt_list st)
                   (block st) st)) as Hkeep.
      { split; cbn; [| | |by left|by left|lia|done|by left].
        - intros l0 ts' Hl0 Hne. apply insert_lookup_other; [|intros <-; congruence].
          by apply insert_lookup_other.
        - intros l0 ds' Hl0 Hne. apply insert_lookup_other; [|done].
          apply insert_lookup_other; [done|]. intros <-; congruence.
        - intros l0 b k Hl0 Hk. apply insert_lookup_other; [|intros <-; congruence].
          apply insert_lookup_other; [done|]. intros <-; congruence. }
      split_and!; [|split; cbn; [done..| |by rewrite !length_insert]|done].
      * split; cbn.
        -- done.
        -- exists (ts ++ [t]). apply insert_lookup_other; [|done].
           by eapply insert_lookup_same.
        -- exists (ds0 ++ [dt]). eapply insert_lookup_same.
           by apply insert_lookup_other.
        -- done.
        -- intros _. exists l, (ts ++ [t]), t0, s. cbn. split_and!; try done.
           ++ apply insert_lookup_other; [|done]. by apply insert_lookup_other.
           ++ apply insert_lookup_other; [|done]. by eapply insert_lookup_same.
           ++ by destruct ts.
           ++ rewrite length_app. cbn. lia.
           ++ apply run_of_extend; [done | lia | done | done].
        -- intros k l' Hk. eapply stored_block_keep; [by apply Hstored | done | done | done].
        -- done.
      * intros l' e. split; intros Hl'.
        -- apply insert_lookup_inv in Hl' as [[_ ?] | [_ Hl']]; [done|].
           apply insert_lookup_inv in Hl' as [[_ ?] | [_ Hl']]; done.
        -- apply insert_lookup_other; [|intros <-; congruence].
           apply insert_lookup_other; [done|]. intros <-; congruence.
    + (* the first step line of a block *)
      specialize (Hidle eq_refl). cbn [alloc] in H.
      set (nb := new_block (block_id_counter st) t (cnt st)) in *.
      set (l := length (heap st)) in *.
      assert ((heap st ++ [OBlock nb]) !! wall_time_list st = Some (OTimes [])) as Hts'
        by (by apply alloc_lookup_old).
      unfold append_time in H. rewrite (proj2 (get_times_OK _ _ _) Hts'), !bind_ret in H.
      assert ((heap st ++ [OBlock nb]) !! dt_list st = Some (ODts ds0)) as Hds'
        by (by apply alloc_lookup_old).
      unfold append_dt in H.
      rewrite (proj2 (get_dts_OK _ _ _) (insert_lookup_other _ _ _ _ _ Hds' Hwd)), !bind_ret in H.
      injection H as <-.
      assert (l ≠ wall_time_list st) as Hlw.
      { apply lookup_lt_Some in Hts0. unfold l. lia. }
      assert (l ≠ dt_list st) as Hld.
      { apply lookup_lt_Some in Hds0. unfold l. lia. }
      assert (blk_keeps st
                (set_blk (self st)
                   (<[dt_list st := ODts (ds0 ++ [dt])]>
                      (<[wall_time_list st := OTimes ([] ++ [t])]> (heap st ++ [OBlock nb])))
                   true (block_id_counter st) (wall_time_list st) (dt_list st)
                   (Some l) st)) as Hkeep.
      { split; cbn; [| | |by left|by left|lia|done|by right].
        - intros l0 ts' Hl0 Hne. apply insert_lookup_other; [|intros <-; congruence].
          apply insert_lookup_other; [|done]. by apply alloc_lookup_old.
        - intros l0 ds' Hl0 Hne. apply insert_lookup_other; [|done].
          apply insert_lookup_other; [|intros <-; congruence]. by apply alloc_lookup_old.
        - intros l0 b k Hl0 Hk. apply insert_lookup_other; [|intros <-; congruence].
          apply insert_lookup_other; [|intros <-; congruence]. by apply alloc_lookup_old. }
      split_and!; [|split; cbn; [done..| |rewrite !length_insert, length_app; lia]|done].
      * split; cbn.
        -- done.
        -- exists [t]. apply insert_lookup_other; [|done].
           by eapply insert_lookup_same.
        -- exists (ds0 ++ [dt]). eapply insert_lookup_same.
           by apply insert_lookup_other.
        -- done.
        -- intros _. exists l, [t], t, (cnt st). cbn. split_and!; try done.
           ++ apply insert_lookup_other; [|done]. apply insert_lookup_other; [|done].
              apply alloc_lookup_new.
           ++ intros k Hk. apply Hstored, stored_block_lt in Hk. unfold l in *. lia.
           ++ apply insert_lookup_other; [|done]. by eapply insert_lookup_same.
           ++ lia.
           ++ apply (run_of_extend pre line (cnt st) t []); [lia | cbn; lia | | done].
              intros i t' Hi. destruct i; discriminate.
        -- intros k l' Hk. eapply stored_block_keep; [by apply Hstored | done | done | done].
        -- done.
      * intros l' e. split; intros Hl'.
        -- apply insert_lookup_inv in Hl' as [[_ ?] | [_ Hl']]; [done|].
           apply insert_lookup_inv in Hl' as [[_ ?] | [_ Hl']]; [done|].
           apply alloc_lookup_inv in Hl' as [? | [_ ?]]; done.
        -- apply insert_lookup_other; [|intros <-; congruence].
           apply insert_lookup_other; [|intros <-; congruence]. by apply alloc_lookup_old.
  - (* not a step line *)
    assert (non_step line) as Hnon by done.
    destruct (chunk st) eqn:Hch.
    + (* the block ends *)
      destruct (Hopen eq_refl) as (l & ts & t0 & s & Hb & Hl & Hns & Hts & Hhd & Hlen & Hs & Hrun).
      rewrite Hb in H. cbn [bound] in H. rewrite bind_ret in H.
      bind_inv H as p Ep. destruct p as [sf' h].
      destruct (pbs_open _ _ _ _ _ _ _ _ _ _ _ _ Hts Hl Hhd Hlen Ep)
        as (tn & n & pb & b' & Hlast & Hn & Hpb & -> & -> & Hfacts).
      cbn [alloc] in H. injection H as <-.
      rewrite length_insert, length_app, length_insert. cbn [length].
      set (h1 := <[l := OBlock b']> (heap st)).
      assert (length h1 = length (heap st)) as Hlen1 by apply length_insert.
      assert (forall l0 o, heap st !! l0 = Some o -> l0 ≠ l ->
                ((h1 ++ [OTimes []]) ++ [ODts []]) !! l0 = Some o) as Hold.
      { intros l0 o Hl0 Hne. apply alloc_lookup_old, alloc_lookup_old.
        by apply insert_lookup_other. }
      assert (((h1 ++ [OTimes []]) ++ [ODts []]) !! length (heap st) = Some (OTimes [])) as Hnewt.
      { apply alloc_lookup_old. rewrite <- Hlen1. apply alloc_lookup_new. }
      assert (((h1 ++ [OTimes []]) ++ [ODts []]) !! (length (heap st) + 1)%nat = Some (ODts []))
        as Hnewd.
      { replace (length (heap st) + 1)%nat with (length (h1 ++ [OTimes []])).
        - apply alloc_lookup_new.
        - rewrite length_app. cbn. lia. }
      assert (blk_keeps st
                (set_blk (set_blocks (<[block_id_counter st := l]> (blocks (self st))) (self st))
                   ((h1 ++ [OTimes []]) ++ [ODts []]) false (block_id_counter st + 1)
                   (length (heap st)) (length (heap st) + 1)%nat (Some l) st)) as Hkeep.
      { split; cbn; [| | |right; lia|right; lia|lia| |done].
        - intros l0 ts' Hl0 Hne. apply Hold; [done|]. intros Heq; congruence.
        - intros l0 ds' Hl0 Hne. apply Hold; [done|]. intros Heq; congruence.
        - intros l0 b k Hl0 Hk. apply Hold; [done|]. intros ->. by apply (Hns k).
        - intros k l0 Hk. rewrite lookup_insert_ne; [done|].
          destruct (Hstored _ _ Hk)
            as (? & ? & ? & ? & ? & ? & ? & ? & ? & ? & ? & ? & ? & ? & ? & ? & ? & ? & ? & ? & ? & ? & ? & ?).
          lia. }
      split_and!; [|split; cbn; [done..| |rewrite !length_app, Hlen1; lia]|done].
      * split; cbn.
        -- done.
        -- by exists [].
        -- by exists [].
        -- done.
        -- done.
        -- intros k l' Hk. destruct (decide (block_id_counter st = k)) as [<-|Hne].
           ++ rewrite lookup_insert_eq in Hk. injection Hk as <-.
              exists b', (wall_time_list st), (dt_list st), ts, ds0, t0, tn, n, pb, s.
              cbn. split_and!; try done.
              ** apply alloc_lookup_old, alloc_lookup_old. by eapply insert_lookup_same.
              ** apply Hold; [done|]. intros Heq; congruence.
              ** apply Hold; [done|]. intros Heq; congruence.
              ** apply lookup_lt_Some in Hts0. lia.
              ** apply lookup_lt_Some in Hds0. lia.
              ** congruence.
              ** congruence.
              ** by apply run_of_snoc.
              ** exists line. split; [|done].
                 replace (Z.to_nat (s - 1) + length ts)%nat with (length pre) by lia.
                 apply lookup_snoc_last.
              ** lia.
           ++ rewrite lookup_insert_ne in Hk by done.
              eapply stored_block_keep; [by apply Hstored | done | done | done].
        -- lia.
      * intros l' e. split; intros Hl'.
        -- apply alloc_lookup_inv in Hl' as [Hl' | [_ ?]]; [|done].
           apply alloc_lookup_inv in Hl' as [Hl' | [_ ?]]; [|done].
           apply insert_lookup_inv in Hl' as [[_ ?] | [_ Hl']]; done.
        -- apply Hold; [done|]. intros Heq; congruence.
    + (* nothing to do *)
      injection H as <-. split_and!.
      * split; cbn; [done | by eexists | by eexists | by intros _; apply Hidle
                      | intros ?; congruence | | done].
        intros k l' Hk. eapply stored_block_keep; [by apply Hstored | done | done |].
        split; try done; [by left | by left | intros ?; congruence].
      * by split.
      * split; try done; [by left | by left | intros ?; congruence].
Qed.

(** ** The two trackers do not disturb each other *)

Lemma InvBlk_ext sf pre pre' c st st' :
  InvBlk sf pre c st ->
  (forall i line, pre !! i = Some line -> pre' !! i = Some line) ->
  blocks (self st') = blocks (self st) ->
  n_cores (self st') = n_cores (self st) ->
  n_cells_per_block (self st') = n_cells_per_block (self st) ->
  chunk st' = chunk st -> block_id_counter st' = block_id_counter st ->
  wall_time_list st' = wall_time_list st -> dt_list st' = dt_list st ->
  block st' = block st ->
  (forall l o, heap st !! l = Some o -> ~ is_fileIO o -> heap st' !! l = Some o) ->
  InvBlk sf pre' c st'.
Proof.
  intros [[Hp1 Hp2] [ts0 Hts0] [ds0 Hds0] Hidle Hopen Hstored Hcnt]
         Hpre Eb En Ec Ech Eid Ewl Edl Ebl Hh.
  assert (forall l o, heap st !! l = Some o -> (forall e, o ≠ OFileIO e) ->
            heap st' !! l = Some o) as Hh'.
  { intros l o Hl Hno. apply Hh; [done|]. intros [e ->]. by apply (Hno e). }
  split.
  - by rewrite En, Ec.
  - exists ts0. rewrite Ewl. by apply Hh'.
  - exists ds0. rewrite Edl. by apply Hh'.
  - rewrite Ech, Ewl. intros Hc. by apply Hh'; [apply Hidle|].
  - rewrite Ech. intros Hc.
    destruct (Hopen Hc) as (l & ts & t0 & s & Hb & Hl & Hns & Hts & Hhd & Hlen & Hs & Hrun).
    exists l, ts, t0, s. rewrite Ebl, Eid, Eb, Ewl. split_and!; try done.
    + by apply Hh'.
    + by apply Hh'.
    + intros i t Hi. destruct (Hrun i t Hi) as (line & ? & ?). exists line.
      by split; [apply Hpre|].
  - rewrite Eb. intros k l Hk.
    eapply stored_block_keep; [by apply Hstored | done | done |].
    split; rewrite ?Ewl, ?Edl, ?Eid, ?Eb; try done; try (by left); try lia.
    + intros l0 ts Hl0 _. by apply Hh'.
    + intros l0 ds Hl0 _. by apply Hh'.
    + intros l0 b k0 Hl0 _. by apply Hh'.
    + rewrite Ech, Ebl. intros Hc. by left.
  - by rewrite Eid.
Qed.

Lemma InvIO_ext sf pre st st' :
  InvIO sf pre st ->
  fileIOs (self st') = fileIOs (self st) ->
  n_cells_per_block (self st') = n_cells_per_block (self st) ->
  debug (self st') = debug (self st) ->
  write st' = write st -> IO_id_counter st' = IO_id_counter st ->
  fileIO st' = fileIO st ->
  (forall l e, heap st' !! l = Some (OFileIO e) <-> heap st !! l = Some (OFileIO e)) ->
  InvIO sf pre st'.
Proof.
  intros [[Hp1 Hp2] Hopen Hstored Hall Hcnt] Ef Ec Ed Ew Eid Efi Hh.
  split.
  - by rewrite Ec, Ed.
  - rewrite Ew. intros Hw. destruct (Hopen Hw) as (l & Hf & Hns & Hobj).
    exists l. rewrite Efi, Ef, Eid. split_and!; [done..|].
    destruct Hobj as [Hobj | (t & i & lo & Hobj & Hi & Hlo & Hno)].
    + left. by apply Hh.
    + right. exists t, i, lo. split_and!; [by apply Hh | done..].
  - rewrite Ef. intros k l Hk.
    eapply stored_event_keep; [by apply Hstored | | lia].
    intros o Ho. destruct (Hstored _ _ Hk) as (? & ? & ? & ? & ? & ? & ? & Hl & _).
    rewrite Hl in Ho. injection Ho as <-. by apply Hh.
  - rewrite Ew, Efi, Ef. intros l e Hl. apply Hall with e. by apply Hh.
  - by rewrite Eid.
Qed.

Lemma blk_keeps_refl st : blk_keeps st st.
Proof. split; try done; by left. Qed.

(** ** One iteration keeps the invariant *)

Lemma keeps_step args sf pre st st1 st2 :
  Inv args sf pre st ->
  io_frame st st1 -> io_keeps st st1 ->
  blk_frame st1 st2 -> blk_keeps st1 st2 ->
  keeps st st2.
Proof.
  intros [Hcnt HB HI _ _]
    [Hb (Hn & Hc & Hd) (Hch & Hid & Hwl & Hdl & Hbl & Hcnt1) Hh Hlen]
    [K1 K2 K3 K4]
    [Hf' (Hn' & Hc' & Hd') (Hw' & Hid' & Hfi' & Hcnt') Hh' Hlen']
    [B1 B2 B3 B4 B5 B6 B7 B8].
  assert (forall l o, heap st !! l = Some o -> (forall e, o ≠ OFileIO e) ->
            heap st1 !! l = Some o) as Hh1.
  { intros l o Hl Hno. apply Hh; [done|]. intros [e ->]. by apply (Hno e). }
  split.
  - intros k l Hk. rewrite Hf'. split; [by apply K2|].
    destruct (ii_stored _ _ _ HI _ _ Hk) as (? & ? & ? & ? & ? & ? & ? & Hl & _).
    rewrite Hl. apply Hh'. by eapply K1.
  - intros k l Hk. split; [apply B7; by rewrite Hb|].
    destruct (ib_stored _ _ _ _ HB _ _ Hk)
      as (b & wl & dl & ts & ds & t0 & tn & n & pb & s & Hl & _).
    rewrite Hl. eapply B3; [by apply Hh1 | by rewrite Hb].
  - intros k l b wl dl Hk Hl Hbw Hbd.
    destruct (ib_stored _ _ _ _ HB _ _ Hk)
      as (b' & wl' & dl' & ts & ds & t0 & tn & n & pb & s & Hl' & Hwl' & Hdl' & Hne1 & Hne2
          & _ & _ & _ & _ & _ & _ & _ & _ & Hfacts).
    rewrite Hl in Hl'. injection Hl' as <-.
    rewrite (bf_wall_time _ _ _ _ _ _ _ _ _ _ Hfacts) in Hbw. injection Hbw as <-.
    rewrite (bf_dt _ _ _ _ _ _ _ _ _ _ Hfacts) in Hbd. injection Hbd as <-.
    rewrite Hwl', Hdl'. split.
    + apply B1; [by apply Hh1 | by rewrite Hwl].
    + apply B2; [by apply Hh1 | by rewrite Hdl].
  - lia.
  - rewrite Hw'. intros Hw. destruct (K3 Hw) as [[? ?] | [? ?]].
    + left. split; [done|]. congruence.
    + right. exists (length (heap st)). split; [congruence | lia].
  - intros Hc2. destruct (B8 Hc2) as [[? ?] | [? ?]].
    + left. split; congruence.
    + right. exists (length (heap st1)). split; [congruence | lia].
Qed.

Lemma keeps_refl st : keeps st st.
Proof. split; try done; by left. Qed.

Lemma keeps_trans st1 st2 st3 : keeps st1 st2 -> keeps st2 st3 -> keeps st1 st3.
Proof.
  intros [E1 B1 L1 N1 F1 G1] [E2 B2 L2 N2 F2 G2]. split.
  - intros k l Hk. destruct (E1 _ _ Hk) as [Hk2 Hh]. destruct (E2 _ _ Hk2) as [Hk3 Hh'].
    split; [done | congruence].
  - intros k l Hk. destruct (B1 _ _ Hk) as [Hk2 Hh]. destruct (B2 _ _ Hk2) as [Hk3 Hh'].
    split; [done | congruence].
  - intros k l b wl dl Hk Hl Hw Hd. destruct (B1 _ _ Hk) as [Hk2 Hh].
    destruct (L1 _ _ _ _ _ Hk Hl Hw Hd) as [H1 H2].
    rewrite <- Hh in Hl.
    destruct (L2 _ _ _ _ _ Hk2 Hl Hw Hd) as [H3 H4]. split; congruence.
  - lia.
  - intros Hw. destruct (F2 Hw) as [[Hw2 Hf] | (l & Hf & Hl)].
    + destruct (F1 Hw2) as [[Hw1 Hf1] | (l & Hf1 & Hl)].
      * left. split; congruence.
      * right. exists l. split; [congruence | done].
    + right. exists l. split; [done | lia].
  - intros Hc. destruct (G2 Hc) as [[Hc2 Hf] | (l & Hf & Hl)].
    + destruct (G1 Hc2) as [[Hc1 Hf1] | (l & Hf1 & Hl)].
      * left. split; congruence.
      * right. exists l. split; [congruence | done].
    + right. exists l. split; [done | lia].
Qed.

Lemma keeps_set_cnt st st' n : keeps st st' -> keeps st (set_cnt n st').
Proof. intros [? ? ? ? ? ?]. by split. Qed.

Lemma loop_body_inv args sf pre st line st' :
  Inv args sf pre st -> loop_body args st line = OK st' ->
  Inv args sf (pre ++ [line]) st' /\ keeps st st'.
Proof.
  intros HInv H. pose proof HInv as [Hcnt HB HI Hch Hwr].
  unfold loop_body in H. bind_inv H as st1 E1. bind_inv H as st2 E2. injection H as <-.
  assert (forall i l0, pre !! i = Some l0 -> (pre ++ [line]) !! i = Some l0) as Hpre.
  { intros i l0. apply lookup_snoc_old. }
  assert (InvIO sf (pre ++ [line]) st1 /\ io_frame st st1 /\ io_keeps st st1) as (HI1 & Hf1 & Hk1).
  { destruct (file_writes args).
    - by apply io_part_inv.
    - injection E1 as <-. specialize (Hwr eq_refl).
      split_and!; [apply InvIO_snoc; [congruence | done] | by split | apply io_keeps_refl]. }
  pose proof Hf1 as [Hb (Hn & Hc & Hd) (Hch1 & Hid & Hwl & Hdl & Hbl & Hcnt1) Hh Hlen].
  assert (InvBlk sf pre (cnt st1) st1) as HB1.
  { rewrite Hcnt1. by eapply InvBlk_ext. }
  assert (InvBlk sf (pre ++ [line]) (cnt st1 + 1) st2 /\ blk_frame st1 st2 /\ blk_keeps st1 st2)
    as (HB2 & Hf2 & Hk2).
  { destruct (blocks_flag args) eqn:Hbf.
    - apply block_part_inv; [done | congruence | done].
    - injection E2 as <-. split_and!; [| by split | apply blk_keeps_refl].
      specialize (Hch eq_refl). rewrite <- Hch1 in Hch.
      destruct HB1 as [? ? ? Hidle Hopen Hstored ?].
      split; [done | done | done | exact Hidle | intros ?; congruence | | done].
      intros k l Hk. eapply stored_block_keep; [by apply Hstored | done | done |].
        apply blk_keeps_refl. }
  pose proof Hf2 as [Hf' (Hn' & Hc' & Hd') (Hw' & Hid' & Hfi' & Hcnt') Hh' Hlen'].
  split; [|apply keeps_set_cnt; exact (keeps_step _ _ _ _ _ _ HInv Hf1 Hk1 Hf2 Hk2)].
  split.
  - cbn. rewrite length_app. cbn. lia.
  - cbn [cnt set_cnt]. rewrite Hcnt'.
    eapply InvBlk_ext; [done | done | done..|]. by intros.
  - eapply InvIO_ext; [eapply InvIO_ext; [exact HI1 | done..] | done..].
  - cbn. intros Hbf. rewrite Hbf in E2. injection E2 as <-. rewrite Hch1. by apply Hch.
  - cbn. intros Hfw. rewrite Hw'. rewrite Hfw in E1. injection E1 as <-. by apply Hwr.
Qed.

Lemma loop_inv args sf lines : forall pre st st',
  Inv args sf pre st -> loop args st lines = OK st' ->
  Inv args sf (pre ++ lines) st' /\ keeps st st'.
Proof.
  induction lines as [|line rest IH]; intros pre st st' HInv H.
  - injection H as <-. rewrite app_nil_r. split; [done | apply keeps_refl].
  - cbn [loop] in H. bind_inv H as st1 E1.
    destruct (loop_body_inv _ _ _ _ _ _ HInv E1) as [HInv1 Hk1].
    destruct (IH _ _ _ HInv1 H) as [HInv' Hk'].
    rewrite <- app_assoc in HInv'. split; [done | by eapply keeps_trans].
Qed.

Lemma enter_inv args sf :
  blocks sf = ∅ -> fileIOs sf = ∅ -> Inv args sf [] (enter sf).
Proof.
  intros Hb Hf. split; cbn.
  - done.
  - split; cbn; try done.
    + by exists [].
    + by exists [].
    + intros k l. by rewrite Hb, lookup_empty.
  - split; cbn; try done.
    + intros k l. by rewrite Hf, lookup_empty.
    + intros l e Hl. destruct l as [|[|l]]; discriminate.
  - done.
  - done.
Qed.

(** The invariant holds after any lines that the pass has read. *)
Lemma run_inv args sf lines st :
  blocks sf = ∅ -> fileIOs sf = ∅ ->
  loop args (enter sf) lines = OK st -> Inv args sf lines st.
Proof.
  intros Hb Hf H. by apply (loop_inv args sf lines [] (enter sf) st (enter_inv args sf Hb Hf) H).
Qed.

(** ** What one line does to the block tracker *)

Lemma block_part_step sf pre st line st' t :
  InvBlk sf pre (cnt st) st -> is_step line t -> block_part st line = OK st' ->
  chunk st' = true /\ blocks (self st') = blocks (self st) /\
  block_id_counter st' = block_id_counter st /\
  (chunk st = true ->
     block st' = block st /\
     forall l b, block st = Some l -> heap st !! l = Some (OBlock b) ->
                 heap st' !! l = Some (OBlock b)) /\
  (chunk st = false ->
     exists l b, block st' = Some l /\ heap st' !! l = Some (OBlock b) /\
                 Block.start_line b = cnt st).
Proof.
  intros [_ [ts0 Hts0] [ds0 Hds0] _ _ _ _] [dt Hstep] H.
  unfold block_part in H. rewrite Hstep, bind_ret in H.
  destruct (chunk st) eqn:Hch.
  - bind_inv H as h1 E1. bind_inv H as h2 E2. injection H as <-. cbn.
    unfold append_time in E1. bind_inv E1 as ts Ets. injection E1 as <-.
    unfold append_dt in E2. bind_inv E2 as ds Eds. injection E2 as <-.
    split_and!; try done. intros _. split; [done|].
    intros l b Hb Hl. apply insert_lookup_other; [|intros Heq; congruence].
    apply insert_lookup_other; [done|intros Heq; congruence].
  - cbn [alloc] in H. bind_inv H as h1 E1. bind_inv H as h2 E2. injection H as <-. cbn.
    unfold append_time in E1. bind_inv E1 as ts Ets. injection E1 as <-.
    unfold append_dt in E2. bind_inv E2 as ds Eds. injection E2 as <-.
    split_and!; try done. intros _.
    exists (length (heap st)), (new_block (block_id_counter st) t (cnt st)).
    split_and!; [done | | reflexivity].
    apply lookup_lt_Some in Hts0, Hds0.
    apply insert_lookup_other; [|lia]. apply insert_lookup_other; [|lia].
    apply alloc_lookup_new.
Qed.

Lemma block_part_end sf pre st line st' :
  InvBlk sf pre (cnt st) st -> non_step line -> chunk st = true ->
  block_part st line = OK st' ->
  exists l b', block st = Some l /\ chunk st' = false /\
    blocks (self st') = <[block_id_counter st := l]> (blocks (self st)) /\
    block_id_counter st' = block_id_counter st + 1 /\
    heap st' !! l = Some (OBlock b') /\ Block.end_line b' = cnt st - 1 /\
    (forall b, heap st !! l = Some (OBlock b) -> Block.start_line b' = Block.start_line b).
Proof.
  intros [_ _ _ _ Hopen _ _] Hnon Hch H.
  destruct (Hopen Hch) as (l & ts & t0 & s & Hb & Hl & Hns & Hts & Hhd & Hlen & Hs & Hrun).
  unfold block_part in H. rewrite Hnon, bind_ret, Hch, Hb in H.
  cbn [bound] in H. rewrite bind_ret in H.
  bind_inv H as p Ep. destruct p as [sf' h].
  destruct (pbs_open _ _ _ _ _ _ _ _ _ _ _ _ Hts Hl Hhd Hlen Ep)
    as (tn & n & pb & b' & Hlast & Hn & Hpb & -> & -> & Hfacts).
  cbn [alloc] in H. injection H as <-. cbn.
  exists l, b'. split_and!; try done.
  - apply alloc_lookup_old, alloc_lookup_old. by eapply insert_lookup_same.
  - rewrite (bf_end_line _ _ _ _ _ _ _ _ _ _ Hfacts). lia.
  - intros b Hl'. rewrite Hl in Hl'. injection Hl' as <-.
    by rewrite (bf_start_line _ _ _ _ _ _ _ _ _ _ Hfacts).
Qed.

Lemma block_part_idle st line :
  non_step line -> chunk st = false -> block_part st line = OK st.
Proof. intros Hnon Hch. unfold block_part. by rewrite Hnon, bind_ret, Hch. Qed.

(** The same for a whole iteration. *)
Lemma loop_body_io args sf pre st line st' :
  Inv args sf pre st -> loop_body args st line = OK st' ->
  exists st1 st2,
    io_frame st st1 /\ io_keeps st st1 /\ InvBlk sf pre (cnt st1) st1 /\
    (if blocks_flag args then block_part st1 line else OK st1) = OK st2 /\
    blk_frame st1 st2 /\ st' = set_cnt (cnt st2 + 1) st2.
Proof.
  intros [Hcnt HB HI Hch Hwr] H.
  unfold loop_body in H. bind_inv H as st1 E1. bind_inv H as st2 E2. injection H as <-.
  assert (io_frame st st1 /\ io_keeps st st1) as (Hf1 & Hk1).
  { destruct (file_writes args).
    - by destruct (io_part_inv _ _ _ _ _ HI E1) as (_ & ? & ?).
    - injection E1 as <-. split; [by split | apply io_keeps_refl]. }
  pose proof Hf1 as [Hb (Hn & Hc & Hd) (Hch1 & Hid & Hwl & Hdl & Hbl & Hcnt1) Hh Hlen].
  assert (InvBlk sf pre (cnt st1) st1) as HB1.
  { rewrite Hcnt1. eapply InvBlk_ext; [done | done | done..]. }
  exists st1, st2. split_and!; try done.
  destruct (blocks_flag args).
  - eapply block_part_inv; [exact HB1 | congruence | done].
  - injection E2 as <-. by split.
Qed.

Lemma loop_body_step args sf pre st line st' t :
  Inv args sf pre st -> blocks_flag args = true -> is_step line t ->
  loop_body args st line = OK st' ->
  chunk st' = true /\ blocks (self st') = blocks (self st) /\
  block_id_counter st' = block_id_counter st /\ cnt st' = cnt st + 1 /\
  (chunk st = true ->
     block st' = block st /\
     forall l b, block st = Some l -> heap st !! l = Some (OBlock b) ->
                 heap st' !! l = Some (OBlock b)) /\
  (chunk st = false ->
     exists l b, block st' = Some l /\ heap st' !! l = Some (OBlock b) /\
                 Block.start_line b = cnt st).
Proof.
  intros HInv Hbf Hstep H.
  destruct (loop_body_io _ _ _ _ _ _ HInv H) as (st1 & st2 & Hf1 & _ & HB1 & E2 & Hf2 & ->).
  destruct Hf1 as [Hb (Hn & Hc & Hd) (Hch1 & Hid & Hwl & Hdl & Hbl & Hcnt1) Hh Hlen].
  destruct Hf2 as [_ _ (_ & _ & _ & Hcnt2) _ _].
  rewrite Hbf in E2.
  destruct (block_part_step _ _ _ _ _ _ HB1 Hstep E2) as (C1 & C2 & C3 & C4 & C5).
  cbn. split_and!; try congruence.
  - intros Hch. rewrite <- Hch1 in Hch. destruct (C4 Hch) as [C6 C7].
    split; [congruence|]. intros l b Hl Hlb. apply C7; [congruence|].
    apply Hh; [done|]. by intros [e ?].
  - intros Hch. rewrite <- Hch1 in Hch. destruct (C5 Hch) as (l & b & ? & ? & ?).
    exists l, b. split_and!; [done | done | congruence].
Qed.

Lemma loop_body_end args sf pre st line st' :
  Inv args sf pre st -> blocks_flag args = true -> non_step line -> chunk st = true ->
  loop_body args st line = OK st' ->
  exists l b', block st = Some l /\ chunk st' = false /\
    blocks (self st') = <[block_id_counter st := l]> (blocks (self st)) /\
    block_id_counter st' = block_id_counter st + 1 /\ cnt st' = cnt st + 1 /\
    heap st' !! l = Some (OBlock b') /\ Block.end_line b' = cnt st - 1 /\
    (forall b, heap st !! l = Some (OBlock b) -> Block.start_line b' = Block.start_line b).
Proof.
  intros HInv Hbf Hnon Hch H.
  destruct (loop_body_io _ _ _ _ _ _ HInv H) as (st1 & st2 & Hf1 & _ & HB1 & E2 & Hf2 & ->).
  destruct Hf1 as [Hb (Hn & Hc & Hd) (Hch1 & Hid & Hwl & Hdl & Hbl & Hcnt1) Hh Hlen].
  destruct Hf2 as [_ _ (_ & _ & _ & Hcnt2) _ _].
  rewrite Hbf in E2. rewrite <- Hch1 in Hch.
  destruct (block_part_end _ _ _ _ _ HB1 Hnon Hch E2)
    as (l & b' & C1 & C2 & C3 & C4 & C5 & C6 & C7).
  exists l, b'. cbn. split_and!; try congruence.
  intros b Hlb. apply C7. apply Hh; [done|]. by intros [e ?].
Qed.

Lemma loop_body_idle args sf pre st line st' :
  Inv args sf pre st -> blocks_flag args = true -> non_step line -> chunk st = false ->
  loop_body args st line = OK st' ->
  chunk st' = false /\ blocks (self st') = blocks (self st) /\
  block_id_counter st' = block_id_counter st /\ cnt st' = cnt st + 1.
Proof.
  intros HInv Hbf Hnon Hch H.
  destruct (loop_body_io _ _ _ _ _ _ HInv H) as (st1 & st2 & Hf1 & _ & HB1 & E2 & Hf2 & ->).
  destruct Hf1 as [Hb (Hn & Hc & Hd) (Hch1 & Hid & Hwl & Hdl & Hbl & Hcnt1) Hh Hlen].
  rewrite Hbf in E2. rewrite <- Hch1 in Hch.
  rewrite (block_part_idle _ _ Hnon Hch) in E2. injection E2 as <-.
  cbn. split_and!; congruence.
Qed.

(** ** The parameter scan *)

Lemma py_int_OK (s : string) (v : Z) : py_int s = OK v -> v = int_of_digits s.
Proof. unfold py_int. destruct (_ <? _); [done|]. by intros [= <-]. Qed.

Lemma search_block_cell_count_retained cnt line label v :
  search_block_cell_count cnt line label = OK v -> retained label line None v.
Proof.
  unfold search_block_cell_count, retained. destruct (Re.found (Re.lit label) line).
  - intros H. bind_inv H as m Em. bind_inv H as n En. injection H as <-.
    apply py_int_OK in En as ->. eauto.
  - by intros [= <-].
Qed.

Lemma scan_line_spec s cnt line s' :
  scan_line s cnt line = OK s' ->
  retained "Number of MPI tasks:" line (n_cores s) (n_cores s') /\
  retained "Number x zones:" line (nxb s) (nxb s') /\
  retained "Number y zones:" line (nyb s) (nyb s') /\
  retained "Number z zones:" line (nzb s) (nzb s') /\
  same_store s s'.
Proof.
  intros H. unfold scan_line in H.
  bind_inv H as s1 E1. bind_inv H as s2 E2. bind_inv H as s3 E3.
  assert (retained "Number of MPI tasks:" line (n_cores s) (n_cores s1) /\
          nxb s1 = nxb s /\ nyb s1 = nyb s /\ nzb s1 = nzb s /\ same_store s s1)
    as (R1 & X1 & Y1 & Z1 & S1).
  { destruct (n_cores s) as [v|] eqn:Hn.
    - injection E1 as <-. by rewrite Hn.
    - unfold search_core_count in E1. unfold retained.
      destruct (Re.found (Re.lit "Number of MPI tasks:") line).
      + bind_inv E1 as m Em. bind_inv E1 as n En. bind_inv E1 as p Ep.
        bind_inv E1 as x Ex. injection E1 as <-. apply py_int_OK in En as ->.
        cbn. split_and!; eauto. done.
      + injection E1 as <-. by rewrite Hn. }
  assert (n_cores s2 = n_cores s1 /\ retained "Number x zones:" line (nxb s1) (nxb s2) /\
          nyb s2 = nyb s1 /\ nzb s2 = nzb s1 /\ same_store s1 s2)
    as (N2 & R2 & Y2 & Z2 & S2).
  { destruct (nxb s1) as [v|] eqn:Hn.
    - injection E2 as <-. by rewrite Hn.
    - bind_inv E2 as v Ev. injection E2 as <-. cbn. split_and!; try done.
      by apply search_block_cell_count_retained with cnt. }
  assert (n_cores s3 = n_cores s2 /\ nxb s3 = nxb s2 /\
          retained "Number y zones:" line (nyb s2) (nyb s3) /\ nzb s3 = nzb s2 /\
          same_store s2 s3)
    as (N3 & X3 & R3 & Z3 & S3).
  { destruct (nyb s2) as [v|] eqn:Hn.
    - injection E3 as <-. by rewrite Hn.
    - bind_inv E3 as v Ev. injection E3 as <-. cbn. split_and!; try done.
      by apply search_block_cell_count_retained with cnt. }
  assert (n_cores s' = n_cores s3 /\ nxb s' = nxb s3 /\ nyb s' = nyb s3 /\
          retained "Number z zones:" line (nzb s3) (nzb s') /\ same_store s3 s')
    as (N4 & X4 & Y4 & R4 & S4).
  { destruct (nzb s3) as [v|] eqn:Hn.
    - injection H as <-. by rewrite Hn.
    - bind_inv H as v Ev. injection H as <-. cbn. split_and!; try done.
      by apply search_block_cell_count_retained with cnt. }
  unfold same_store in *.
  rewrite N4, N3, N2, X4, X3, Y4, <- X1, <- Y1, <- Y2, <- Z1, <- Z2, <- Z3.
  split_and!; try done; intuition congruence.
Qed.

(** The attribute after the scan: the retained value, or the first
    extraction. *)
Lemma retained_first label line rest before mid :
  retained label line before mid ->
  match mid with Some v => Some v | None => first_extraction label rest end =
  match before with Some v => Some v | None => first_extraction label (line :: rest) end.
Proof.
  unfold retained. destruct before as [v|]; [by intros ->|].
  cbn [first_extraction]. destruct (Re.found (Re.lit label) line).
  - intros (m & Hm & ->). destruct (Re.findall re_digits line); [discriminate|].
    by injection Hm as ->.
  - by intros ->.
Qed.

Lemma scan_lines_spec lines : forall s cnt s',
  scan_lines s cnt lines = OK s' ->
  n_cores s' = match n_cores s with
               | Some v => Some v
               | None => first_extraction "Number of MPI tasks:" lines
               end /\
  nxb s' = match nxb s with Some v => Some v
           | None => first_extraction "Number x zones:" lines end /\
  nyb s' = match nyb s with Some v => Some v
           | None => first_extraction "Number y zones:" lines end /\
  nzb s' = match nzb s with Some v => Some v
           | None => first_extraction "Number z zones:" lines end /\
  same_store s s'.
Proof.
  induction lines as [|line rest IH]; intros s cnt s' H.
  - injection H as <-. unfold same_store.
    destruct (n_cores s), (nxb s), (nyb s), (nzb s); done.
  - cbn [scan_lines] in H. bind_inv H as s1 E1.
    destruct (scan_line_spec _ _ _ _ E1) as (R1 & R2 & R3 & R4 & S1).
    destruct (IH _ _ _ H) as (N & X & Y & Z & S2).
    rewrite N, X, Y, Z. unfold same_store in *.
    split_and!; try (by apply retained_first); intuition congruence.
Qed.

Lemma first_extraction_never label lines :
  never_appears label lines -> first_extraction label lines = None.
Proof.
  induction 1 as [|line rest Hl _ IH]; [done|]. cbn [first_extraction]. by rewrite Hl.
Qed.

Lemma compute_sim_parameters_spec s lines s' :
  compute_sim_parameters s lines = OK s' ->
  exists s1 x y z n,
    scan_lines s 1 lines = OK s1 /\
    nxb s1 = Some x /\ nyb s1 = Some y /\ nzb s1 = Some z /\ n_cores s1 = Some n /\
    s' = set_n_cells (x * y * z) (x * y * z * n) s1.
Proof.
  intros H. unfold compute_sim_parameters in H.
  bind_inv H as s1 E1. bind_inv H as xy Exy. bind_inv H as pb Epb. bind_inv H as tot Et.
  injection H as <-. unfold mul_attr in *.
  destruct (nxb s1) as [x|] eqn:Hx; [|discriminate].
  destruct (nyb s1) as [y|] eqn:Hy; [|discriminate]. injection Exy as <-.
  destruct (nzb s1) as [z|] eqn:Hz; [|discriminate]. injection Epb as <-.
  destruct (n_cores s1) as [n|] eqn:Hn; [|discriminate]. injection Et as <-.
  by exists s1, x, y, z, n.
Qed.

Lemma main_file_OK args dbg file lines st :
  main_file args dbg file lines = OK st ->
  exists sf,
    compute_sim_parameters (FLASHLogStats_init file dbg "superMUC-NG") lines = OK sf /\
    blocks sf = ∅ /\ fileIOs sf = ∅ /\ debug sf = dbg /\
    loop args (enter sf) lines = OK st.
Proof.
  intros H. unfold main_file in H. bind_inv H as sf Esf. exists sf.
  destruct (compute_sim_parameters_spec _ _ _ Esf)
    as (s1 & x & y & z & n & E1 & _ & _ & _ & _ & ->).
  destruct (scan_lines_spec _ _ _ _ E1) as (_ & _ & _ & _ & Hb & Hf & Hd & _).
  split_and!; try done.
Qed.

Lemma scan_missing file dbg site lines :
  never_appears "Number of MPI tasks:" lines \/ never_appears "Number x zones:" lines \/
  never_appears "Number y zones:" lines \/ never_appears "Number z zones:" lines ->
  exists e, compute_sim_parameters (FLASHLogStats_init file dbg site) lines = Raise e.
Proof.
  intros Hnever. unfold compute_sim_parameters.
  destruct (scan_lines (FLASHLogStats_init file dbg site) 1 lines) as [s1|e] eqn:E1;
    [|by exists e].
  destruct (scan_lines_spec _ _ _ _ E1) as (N & X & Y & Z & _).
  cbn [FLASHLogStats_init n_cores nxb nyb nzb] in N, X, Y, Z.
  rewrite bind_ret. exists TypeError. unfold mul_attr.
  destruct Hnever as [H | [H | [H | H]]]; rewrite first_extraction_never in * by done.
  - rewrite N. by destruct (nxb s1), (nyb s1), (nzb s1).
  - by rewrite X.
  - rewrite Y. by destruct (nxb s1).
  - rewrite Z. by destruct (nxb s1), (nyb s1).
Qed.

(** C6: when one of the four parameters never appears in a file, the
    parameter scan of a new [FLASHLogStats] fails with an exception, and
    with it everything that is sequenced after the scan: the body of
    [main] for that file, whose region pass is never entered, and
    [deconstruct_log_file] itself, which would run the scan first. *)
Theorem C6_missing_parameter_aborts (args : Args) (dbg : bool) (file : string)
    (lines : list string) :
  never_appears "Number of MPI tasks:" lines \/ never_appears "Number x zones:" lines \/
  never_appears "Number y zones:" lines \/ never_appears "Number z zones:" lines ->
  exists e,
    compute_sim_parameters (FLASHLogStats_init file dbg "superMUC-NG") lines = Raise e /\
    (forall k : FLASHLogStats -> result State,
       compute_sim_parameters (FLASHLogStats_init file dbg "superMUC-NG") lines ≫= k = Raise e) /\
    main_file args dbg file lines = Raise e /\
    deconstruct_log_file args (FLASHLogStats_init file dbg "superMUC-NG") lines = Raise e.
Proof.
  intros Hnever. destruct (scan_missing file dbg "superMUC-NG" lines Hnever) as [e He].
  exists e. split_and!; [done | | |].
  - intros k. by rewrite He.
  - unfold main_file. by rewrite He.
  - unfold deconstruct_log_file. cbn [FLASHLogStats_init n_cells]. by rewrite He.
Qed.

Lemma C6_missing_parameter_aborts_witness :
  never_appears "Number z zones:" (take 3 Sample.header) /\
  exists e, main_file Sample.both false "Turb.log" (take 3 Sample.header) = Raise e.
Proof.
  assert (never_appears "Number z zones:" (take 3 Sample.header)) as H.
  { repeat (apply Forall_cons; split; [vm_compute; reflexivity|]). by apply Forall_nil. }
  split; [exact H|].
  destruct (C6_missing_parameter_aborts Sample.both false "Turb.log" (take 3 Sample.header)
              (or_intror (or_intror (or_intror H)))) as (e & _ & _ & He & _).
  by exists e.
Defined.

(** C7: the scan of a new [FLASHLogStats] leaves in each of the four
    attributes the first extraction for its label, whatever later lines
    with the same label say, and the two products of them; on the four
    lines of the scenario the core count is 96, the cells per block 4096
    and the cells 393216, also when lines with other values follow. *)
Theorem C7_scan_retains_first :
  (forall (file : string) (dbg : bool) (site : string) (lines : list string)
          (s : FLASHLogStats),
     compute_sim_parameters (FLASHLogStats_init file dbg site) lines = OK s ->
     n_cores s = first_extraction "Number of MPI tasks:" lines /\
     nxb s = first_extraction "Number x zones:" lines /\
     nyb s = first_extraction "Number y zones:" lines /\
     nzb s = first_extraction "Number z zones:" lines /\
     exists n x y z,
       n_cores s = Some n /\ nxb s = Some x /\ nyb s = Some y /\ nzb s = Some z /\
       n_cells_per_block s = Some (x * y * z) /\ n_cells s = Some (x * y * z * n)) /\
  (exists s,
     compute_sim_parameters (FLASHLogStats_init "Turb.log" false "superMUC-NG")
       Sample.header = OK s /\
     n_cores s = Some 96 /\ n_cells_per_block s = Some 4096 /\ n_cells s = Some 393216) /\
  (exists s,
     compute_sim_parameters (FLASHLogStats_init "Turb.log" false "superMUC-NG")
       (Sample.header ++ ["Number of MPI tasks: 48"%string; "Number x zones: 8"%string])
       = OK s /\
     n_cores s = Some 96 /\ n_cells_per_block s = Some 4096 /\ n_cells s = Some 393216).
Proof.
  split_and!.
  - intros file dbg site lines s H.
    destruct (compute_sim_parameters_spec _ _ _ H)
      as (s1 & x & y & z & n & E1 & Hx & Hy & Hz & Hn & ->).
    destruct (scan_lines_spec _ _ _ _ E1) as (N & X & Y & Z & _).
    cbn [FLASHLogStats_init n_cores nxb nyb nzb] in N, X, Y, Z.
    cbn. split_and!; try done. by exists n, x, y, z.
  - eexists. split; [vm_compute; reflexivity|]. by vm_compute.
  - eexists. split; [vm_compute; reflexivity|]. by vm_compute.
Qed.

Lemma C7_scan_retains_first_witness :
  exists s,
    compute_sim_parameters (FLASHLogStats_init "Turb.log" false "superMUC-NG")
      Sample.header = OK s /\
    n_cores s = first_extraction "Number of MPI tasks:" Sample.header.
Proof.
  eexists. split; [vm_compute; reflexivity|].
  apply (proj1 C7_scan_retains_first "Turb.log" false "superMUC-NG" Sample.header).
  vm_compute; reflexivity.
Defined.

(** C9: a close marker that reaches the file-I/O tracker while no event
    is tracked is not ignored: the tracker makes a new event object, and
    [search_file_write_stats] subtracts the integer 0 that the object
    holds as [wall_time] from a datetime, which is a [TypeError]. *)
Theorem C9_orphan_close_raises (st : State) (line : string) (t : Z) :
  write st = false -> close_marker line t -> io_part st line = Raise TypeError.
Proof.
  intros Hw (Hm & Ho & Hc & Ht). unfold io_part. unfold is_marker in Hm.
  rewrite Hm, Hw. cbn [alloc]. unfold search_file_write_stats.
  rewrite Ht, bind_ret, Ho, Hc.
  rewrite (proj2 (get_fileIO_OK _ _ _) (alloc_lookup_new _ _)), bind_ret.
  by rewrite on_close_init.
Qed.

Lemma C9_orphan_close_raises_witness :
  io_part (enter (FLASHLogStats_init "Turb.log" false "superMUC-NG")) Sample.close1
    = Raise TypeError /\
  main_file Sample.both false "Turb.log" (Sample.header ++ [Sample.close1]) = Raise TypeError.
Proof.
  split.
  - apply (C9_orphan_close_raises _ Sample.close1 (Sample.t0 + 15000000)).
    + reflexivity.
    + by vm_compute.
  - by vm_compute.
Defined.

Lemma reachable_inv args pre st :
  reachable args pre st -> exists sf, Inv args sf pre st.
Proof. intros (sf & Hb & Hf & H). exists sf. by apply run_inv. Qed.

Lemma main_file_reachable args dbg file lines st :
  main_file args dbg file lines = OK st -> reachable args lines st.
Proof.
  intros H. destruct (main_file_OK _ _ _ _ _ H) as (sf & _ & Hb & Hf & _ & Hl).
  by exists sf.
Qed.

Lemma reachable_snoc args pre line st :
  reachable args (pre ++ [line]) st ->
  exists st1, reachable args pre st1 /\ loop_body args st1 line = OK st.
Proof.
  intros (sf & Hb & Hf & H). apply loop_snoc in H as (st1 & H1 & H2).
  exists st1. split; [by exists sf | done].
Qed.

Lemma np_diff_length (ts : list Z) : length (np_diff ts) = pred (length ts).
Proof.
  induction ts as [|a [|b ts] IH]; [done | done |].
  cbn [np_diff length] in *. by rewrite IH.
Qed.

Lemma stored_block_of sf pre st k l b :
  stored_block sf pre st k l -> heap st !! l = Some (OBlock b) ->
  exists wl dl ts ds t0 tn n pb s,
    heap st !! wl = Some (OTimes ts) /\ heap st !! dl = Some (ODts ds) /\
    head ts = Some t0 /\ last ts = Some tn /\
    n_cores sf = Some n /\ n_cells_per_block sf = Some pb /\
    1 <= s /\ run_of pre s ts /\
    (exists line, pre !! (Z.to_nat (s - 1) + length ts)%nat = Some line /\ non_step line) /\
    block_facts n pb k s wl dl ts t0 tn b.
Proof.
  intros (b' & wl & dl & ts & ds & t0 & tn & n & pb & s & H1 & H2 & H3 & H4 & H5 & H6 &
          H7 & H8 & H9 & H10 & H11 & H12 & H14 & H15) Hl.
  rewrite Hl in H1. injection H1 as <-.
  by exists wl, dl, ts, ds, t0, tn, n, pb, s.
Qed.

(** C1, as the code has it: when the last line of a file is a step line
    the pass ends inside a block.  The trailing block is the object the
    tracker still holds, as [FLASHLogBlock] and the first step line set
    it, no statistics computed; it is under no key of [self.blocks]; and
    every block of [self.blocks] ends before the last line of the file. *)
Theorem C1_trailing_block_left_open (args : Args) (pre : list string) (line : string)
    (t : Z) (st : State) :
  blocks_flag args = true -> is_step line t -> reachable args (pre ++ [line]) st ->
  chunk st = true /\
  (exists l t0 s, block st = Some l /\
     heap st !! l = Some (OBlock (new_block (block_id_counter st) t0 s)) /\
     not_stored (blocks (self st)) l) /\
  (forall k l b, blocks (self st) !! k = Some l -> heap st !! l = Some (OBlock b) ->
     Block.end_line b < Z.of_nat (length (pre ++ [line]))).
Proof.
  intros Hbf Hstep Hr.
  destruct (reachable_inv _ _ _ Hr) as [sf HInv].
  destruct (reachable_snoc _ _ _ _ Hr) as (st1 & Hr1 & Hbody).
  destruct (reachable_inv _ _ _ Hr1) as [sf1 HInv1].
  destruct (loop_body_step _ _ _ _ _ _ _ HInv1 Hbf Hstep Hbody) as (Hch & _).
  split; [done|]. destruct HInv as [Hcnt HB _ _ _]. split.
  - destruct (ib_open _ _ _ _ HB Hch) as (l & ts & t0 & s & Hb & Hl & Hns & _).
    by exists l, t0, s.
  - intros k l b Hk Hl.
    destruct (stored_block_of _ _ _ _ _ _ (ib_stored _ _ _ _ HB _ _ Hk) Hl)
      as (wl & dl & ts & ds & t0 & tn & n & pb & s & _ & _ & _ & _ & _ & _ & Hs & _
          & (ln & Hln & _) & Hfacts).
    rewrite (bf_end_line _ _ _ _ _ _ _ _ _ _ Hfacts).
    apply lookup_lt_Some in Hln. lia.
Qed.

Lemma C1_trailing_block_left_open_witness :
  exists st,
    main_file Sample.both false "Turb.log" (Sample.header ++ [Sample.step1; Sample.step2])
      = OK st /\ chunk st = true.
Proof.
  eexists. split; [vm_compute; reflexivity|].
  apply (C1_trailing_block_left_open Sample.both (Sample.header ++ [Sample.step1])
           Sample.step2 (Sample.t0 + 1500000)).
  - reflexivity.
  - eexists. vm_compute. reflexivity.
  - apply (main_file_reachable Sample.both false "Turb.log"). vm_compute. reflexivity.
Defined.

(** C1, against the claim: on a file of two step lines after the header
    the pass ends with [self.blocks] empty. *)
Lemma C1_trailing_block_dropped :
  step_line Sample.step2 /\
  exists st,
    main_file Sample.both false "Turb.log" (Sample.header ++ [Sample.step1; Sample.step2])
      = OK st /\
    blocks (self st) = ∅.
Proof.
  split.
  - eexists. eexists. vm_compute. reflexivity.
  - eexists. split; vm_compute; reflexivity.
Qed.

(** C2: a block of the Result Store was built from the [N] step lines
    number [start_line], ..., [end_line] of the file, which a line that
    is not a step line follows; its list of times has these [N] times,
    [N >= 1]; its step count is [N - 1] and so is
    [end_line - start_line]; and the intervals that the mean and the
    standard deviation are taken over are [N - 1]. *)
Theorem C2_block_step_count (args : Args) (dbg : bool) (file : string)
    (lines : list string) (st : State) (k : Z) (l : loc) (b : Block.t) :
  main_file args dbg file lines = OK st ->
  blocks (self st) !! k = Some l -> heap st !! l = Some (OBlock b) ->
  exists wl ts,
    Block.wall_time b = VRef wl /\ heap st !! wl = Some (OTimes ts) /\
    run_of lines (Block.start_line b) ts /\
    (exists line, lines !! Z.to_nat (Block.end_line b) = Some line /\ non_step line) /\
    1 <= Z.of_nat (length ts) /\
    Block.end_line b - Block.start_line b = Z.of_nat (length ts) - 1 /\
    Block.n_steps b = Z.of_nat (length ts) - 1 /\
    Z.of_nat (length (deltas ts)) = Z.of_nat (length ts) - 1 /\
    Block.avg_wall_time_diff b = VFloat (np_mean (deltas ts)) /\
    Block.std_wall_time_diff b = VFloat (np_std (deltas ts)).
Proof.
  intros Hmain Hk Hl.
  destruct (reachable_inv _ _ _ (main_file_reachable _ _ _ _ _ Hmain)) as [sf [_ HB _ _ _]].
  destruct (stored_block_of _ _ _ _ _ _ (ib_stored _ _ _ _ HB _ _ Hk) Hl)
    as (wl & dl & ts & ds & t0 & tn & n & pb & s & Hwl & _ & Hhd & _ & _ & _ & Hs & Hrun
        & (ln & Hln & Hnon) & [F1 F2 F3 F4 F5 F6 F7 F8 F9 F10 F11 F12 F13]).
  assert (1 <= Z.of_nat (length ts)) as HN by (destruct ts; [discriminate | cbn; lia]).
  exists wl, ts. rewrite F2, F3, F4. split_and!; try done.
  - exists ln. split; [|done]. rewrite <- Hln. f_equal. lia.
  - lia.
  - unfold deltas. rewrite length_map, np_diff_length. lia.
Qed.

Lemma C2_block_step_count_witness :
  exists st l b,
    main_file Sample.both false "Turb.log"
      (Sample.header ++ [Sample.step1; Sample.step2; Sample.other]) = OK st /\
    blocks (self st) !! 0 = Some l /\ heap st !! l = Some (OBlock b) /\
    Block.n_steps b = Block.end_line b - Block.start_line b.
Proof.
  eexists _, _, _. split_and!; [vm_compute; reflexivity..|].
  destruct (C2_block_step_count Sample.both false "Turb.log"
              (Sample.header ++ [Sample.step1; Sample.step2; Sample.other]) _ 0 _ _
              ltac:(vm_compute; reflexivity) ltac:(vm_compute; reflexivity)
              ltac:(vm_compute; reflexivity))
    as (wl & ts & _ & _ & _ & _ & _ & He & Hn & _).
  rewrite He. exact Hn.
Defined.

(** ** The flags of an event object *)

Lemma apply_op_flags (e : FileIO.t) (op : flag_op) :
  FileIO.open e && FileIO.close e = false ->
  FileIO.open (apply_op e op) && FileIO.close (apply_op e op) = false.
Proof. destruct e as [? ? ? ? ? ? [] []], op; done. Qed.

Lemma fold_ops_flags (ops : list flag_op) : forall e,
  FileIO.open e && FileIO.close e = false ->
  FileIO.open (fold_left apply_op ops e) && FileIO.close (fold_left apply_op ops e) = false.
Proof.
  induction ops as [|op ops IH]; intros e He; [done|].
  cbn [fold_left]. by apply IH, apply_op_flags.
Qed.

Lemma stored_event_flags sf pre st k l e :
  stored_event sf pre st k l -> heap st !! l = Some (OFileIO e) ->
  FileIO.close e = true /\ FileIO.open e = false.
Proof.
  intros (t_o & t_c & norm & i & j & lo & lc & Hl' & _) Hl.
  rewrite Hl in Hl'. by injection Hl' as ->.
Qed.

Lemma open_event_flags pre st l e :
  open_event pre st -> fileIO st = Some l -> heap st !! l = Some (OFileIO e) ->
  FileIO.close e = false.
Proof.
  intros (l' & Hf & _ & Hobj) Hf' Hl. rewrite Hf' in Hf. injection Hf as <-.
  destruct Hobj as [Hobj | (t & i & lo & Hobj & _)];
    rewrite Hl in Hobj; by injection Hobj as ->.
Qed.

(** C8: under any sequence of [open_file], [close_file] and [empty]
    from a new event object the two flags are never both true; an event
    of the Result Store has [close] true and [open] false; and an object
    is closed once: a line leaves an object whose [close] is true as it
    is, and a line that sets [close] finds [open] true, clears it and
    stores the object, which was not stored before, under the current
    id. *)
Theorem C8_event_flags :
  (forall (id : Z) (ops : list flag_op),
     let e := fold_left apply_op ops (FileIO.init id) in
     FileIO.open e && FileIO.close e = false) /\
  (forall args pre st k l e,
     reachable args pre st ->
     fileIOs (self st) !! k = Some l -> heap st !! l = Some (OFileIO e) ->
     FileIO.close e = true /\ FileIO.open e = false) /\
  (forall args pre st line st' l e e',
     reachable args pre st -> loop_body args st line = OK st' ->
     heap st !! l = Some (OFileIO e) -> heap st' !! l = Some (OFileIO e') ->
     (FileIO.close e = true -> e' = e) /\
     (FileIO.close e = false -> FileIO.close e' = true ->
        FileIO.open e = true /\ FileIO.open e' = false /\
        not_stored (fileIOs (self st)) l /\
        fileIOs (self st') !! IO_id_counter st = Some l)).
Proof.
  split_and!.
  - intros id ops. by apply fold_ops_flags.
  - intros args pre st k l e Hr Hk Hl.
    destruct (reachable_inv _ _ _ Hr) as [sf [_ _ HI _ _]].
    eapply stored_event_flags; [by apply (ii_stored _ _ _ HI) | done].
  - intros args pre st line st' l e e' Hr Hbody Hl Hl'.
    destruct (reachable_inv _ _ _ Hr) as [sf HInv].
    destruct (loop_body_inv _ _ _ _ _ _ HInv Hbody) as [HInv' Hkeeps].
    destruct (loop_body_io _ _ _ _ _ _ HInv Hbody)
      as (st1 & st2 & Hf1 & Hk1 & _ & _ & Hf2 & Hst').
    pose proof (inv_io _ _ _ _ HInv) as HI. pose proof (inv_io _ _ _ _ HInv') as HI'.
    split.
    + intros Hc. destruct (ii_all _ _ _ HI _ _ Hl) as [[Hw Hf] | [k Hk]].
      * pose proof (open_event_flags _ _ _ _ (ii_open _ _ _ HI Hw) Hf Hl). congruence.
      * destruct (k_events _ _ Hkeeps _ _ Hk) as [_ Hh]. congruence.
    + intros Hc Hc'. destruct (ii_all _ _ _ HI' _ _ Hl') as [[Hw Hf] | [k Hk]].
      * pose proof (open_event_flags _ _ _ _ (ii_open _ _ _ HI' Hw) Hf Hl'). congruence.
      * assert (fileIOs (self st') = fileIOs (self st1)) as Hfs.
        { subst st'. cbn. apply (bkf_fileIOs _ _ Hf2). }
        rewrite Hfs in *.
        destruct (ik_new _ _ Hk1 _ _ Hk) as [Hold | (-> & Hw & Hf & e0 & Hl0 & Ho & _)].
        -- destruct (stored_event_flags _ _ _ _ _ _ (ii_stored _ _ _ HI _ _ Hold) Hl).
           congruence.
        -- rewrite Hl in Hl0. injection Hl0 as <-.
           destruct (stored_event_flags _ _ _ _ _ _ (ii_stored _ _ _ HI' _ _
                       ltac:(by rewrite Hfs)) Hl') as [_ Ho'].
           destruct (ii_open _ _ _ HI Hw) as (l0 & Hf0 & Hns & _).
           rewrite Hf in Hf0. injection Hf0 as <-. done.
Qed.

Lemma C8_event_flags_witness :
  exists st l e,
    main_file Sample.both false "Turb.log" (Sample.header ++ [Sample.open1; Sample.close1])
      = OK st /\
    fileIOs (self st) !! 0 = Some l /\ heap st !! l = Some (OFileIO e) /\
    FileIO.close e = true /\ FileIO.open e = false.
Proof.
  eexists _, _, _. split_and!; [vm_compute; reflexivity..| |];
    eapply (proj1 (proj2 C8_event_flags) Sample.both
              (Sample.header ++ [Sample.open1; Sample.close1]) _ 0);
    first [ apply (main_file_reachable Sample.both false "Turb.log"); vm_compute; reflexivity
          | vm_compute; reflexivity ].
Defined.

(** C10: once a record is in the Result Store, no later line changes
    it.  After any further lines it is under the same key at the same
    location, the object there has the attributes it had, and so have
    the two lists a stored block refers to; and an object in which a
    tracker accumulates afterwards, unless it is the one it was already
    accumulating in, is at a location that did not exist before. *)
Theorem C10_stored_records_frozen (args : Args) (pre suf : list string) (st st' : State) :
  reachable args pre st -> loop args st suf = OK st' ->
  (forall k l, fileIOs (self st) !! k = Some l ->
     fileIOs (self st') !! k = Some l /\ heap st' !! l = heap st !! l) /\
  (forall k l, blocks (self st) !! k = Some l ->
     blocks (self st') !! k = Some l /\ heap st' !! l = heap st !! l) /\
  (forall k l b wl dl,
     blocks (self st) !! k = Some l -> heap st !! l = Some (OBlock b) ->
     Block.wall_time b = VRef wl -> Block.dt b = VRef dl ->
     heap st' !! wl = heap st !! wl /\ heap st' !! dl = heap st !! dl) /\
  (write st' = true ->
     (write st = true /\ fileIO st' = fileIO st) \/
     (exists l, fileIO st' = Some l /\ heap st !! l = None)) /\
  (chunk st' = true ->
     (chunk st = true /\ block st' = block st) \/
     (exists l, block st' = Some l /\ heap st !! l = None)).
Proof.
  intros Hr Hloop. destruct (reachable_inv _ _ _ Hr) as [sf HInv].
  destruct (loop_inv _ _ _ _ _ _ HInv Hloop) as [_ [K1 K2 K3 K4 K5 K6]].
  split_and!; try done.
  - intros Hw. destruct (K5 Hw) as [? | (l & ? & ?)]; [by left|].
    right. exists l. split; [done|]. by apply lookup_ge_None.
  - intros Hc. destruct (K6 Hc) as [? | (l & ? & ?)]; [by left|].
    right. exists l. split; [done|]. by apply lookup_ge_None.
Qed.

Lemma C10_stored_records_frozen_witness :
  exists st st',
    loop Sample.both (enter Sample.stats) [Sample.open1; Sample.close1] = OK st /\
    loop Sample.both st [Sample.open2; Sample.close1] = OK st' /\
    fileIOs (self st') !! 0 = Some 2%nat /\ heap st' !! 2%nat = heap st !! 2%nat.
Proof.
  eexists _, _. split; [vm_compute; reflexivity|]. split; [vm_compute; reflexivity|].
  unshelve eapply (proj1 (C10_stored_records_frozen Sample.both [Sample.open1; Sample.close1]
                    [Sample.open2; Sample.close1] _ _ _ _) 0 2%nat).
  - exists Sample.stats. split_and!; [reflexivity | reflexivity | vm_compute; reflexivity].
  - vm_compute; reflexivity.
  - vm_compute; reflexivity.
Defined.

(** C3: an open marker that arrives while the tracked event is open
    does not raise and stores nothing; the tracked object becomes what a
    new event opened at the time of this marker is, so that nothing of
    the earlier event but its id is left, and that object is not in the
    Result Store.  Over a whole pass: an event of the Result Store starts
    at the last open marker before its close marker, no open marker lies
    between the two. *)
Theorem C3_reopen_discards :
  (forall args pre st l e line t,
     reachable args pre st ->
     write st = true -> fileIO st = Some l -> heap st !! l = Some (OFileIO e) ->
     FileIO.open e = true -> open_marker line t ->
     io_part st line =
       OK (set_io (self st) (<[l := OFileIO (opened_event (IO_id_counter st) t)]> (heap st))
             true (IO_id_counter st) (Some l) st) /\
     on_open (debug (self st)) t (FileIO.init (IO_id_counter st))
       = OK (opened_event (IO_id_counter st) t) /\
     not_stored (fileIOs (self st)) l) /\
  (forall args pre st k l e,
     reachable args pre st ->
     fileIOs (self st) !! k = Some l -> heap st !! l = Some (OFileIO e) ->
     exists (i j : nat) line_o line_c t_open t_close,
       (i < j)%nat /\ pre !! i = Some line_o /\ open_marker line_o t_open /\
       pre !! j = Some line_c /\ close_marker line_c t_close /\
       no_open_between pre i j /\
       FileIO.start_date e = VDatetime t_open /\
       FileIO.wall_time e = VFloat (total_seconds (t_close - t_open))).
Proof.
  split.
  - intros args pre st l e line t Hr Hw Hf Hl Hopen (Hm & Ho & Ht).
    destruct (reachable_inv _ _ _ Hr) as [sf [_ _ HI _ _]].
    destruct (ii_open _ _ _ HI Hw) as (l' & Hf' & Hns & Hobj).
    rewrite Hf in Hf'. injection Hf' as <-.
    assert (exists t0, e = opened_event (IO_id_counter st) t0) as [t0 ->].
    { destruct Hobj as [Hobj | (t0 & i & lo & Hobj & _)]; rewrite Hl in Hobj;
        injection Hobj as ->; [discriminate | by exists t0]. }
    split_and!; [| apply on_open_init | done].
    unfold io_part. unfold is_marker in Hm. rewrite Hm, Hw, Hf. cbn [bound].
    rewrite bind_ret. unfold search_file_write_stats.
    rewrite Ht, bind_ret, Ho, (proj2 (get_fileIO_OK _ _ _) Hl), bind_ret.
    rewrite on_open_open by done. rewrite bind_ret, bind_ret.
    rewrite (proj2 (get_fileIO_OK _ _ _) (insert_lookup_same _ _ _ _ Hl)), bind_ret.
    reflexivity.
  - intros args pre st k l e Hr Hk Hl.
    destruct (reachable_inv _ _ _ Hr) as [sf [_ _ HI _ _]].
    destruct (ii_stored _ _ _ HI _ _ Hk)
      as (t_o & t_c & norm & i & j & lo & lc & Hl' & Hij & Hi & Hlo & Hj & Hlc & Hno & _).
    rewrite Hl in Hl'. injection Hl' as ->.
    by exists i, j, lo, lc, t_o, t_c.
Qed.

Lemma C3_reopen_discards_witness :
  let st := Sample.after [Sample.open1] in
  io_part st Sample.open2 =
    OK (set_io (self st)
          (<[2%nat := OFileIO (opened_event (IO_id_counter st) (Sample.t0 + 5000000))]> (heap st))
          true (IO_id_counter st) (Some 2%nat) st).
Proof.
  intros st.
  apply (proj1 C3_reopen_discards Sample.both [Sample.open1] st 2%nat
           (opened_event 0 (Sample.t0 + 3000000)) Sample.open2 (Sample.t0 + 5000000)).
  - exists Sample.stats. split_and!; [reflexivity | reflexivity | vm_compute; reflexivity].
  - vm_compute; reflexivity.
  - vm_compute; reflexivity.
  - vm_compute; reflexivity.
  - vm_compute; reflexivity.
  - by vm_compute.
Defined.

(** ** Runs of step lines *)

Lemma loop_steps args sf steps : forall pre st st',
  Inv args sf pre st -> blocks_flag args = true ->
  Forall step_line steps -> steps ≠ [] -> loop args st steps = OK st' ->
  Inv args sf (pre ++ steps) st' /\ keeps st st' /\
  chunk st' = true /\ blocks (self st') = blocks (self st) /\
  block_id_counter st' = block_id_counter st /\
  cnt st' = cnt st + Z.of_nat (length steps) /\
  (chunk st = true ->
     block st' = block st /\
     forall l b, block st = Some l -> heap st !! l = Some (OBlock b) ->
                 heap st' !! l = Some (OBlock b)) /\
  (chunk st = false ->
     exists l b, block st' = Some l /\ heap st' !! l = Some (OBlock b) /\
                 Block.start_line b = cnt st).
Proof.
  induction steps as [|line rest IH]; intros pre st st' HInv Hbf Hsteps Hne H; [done|].
  apply Forall_cons in Hsteps as [[t Hstep] Hrest].
  cbn [loop] in H. bind_inv H as st1 E1.
  destruct (loop_body_inv _ _ _ _ _ _ HInv E1) as [HInv1 Hk1].
  destruct (loop_body_step _ _ _ _ _ _ _ HInv Hbf Hstep E1)
    as (C1 & C2 & C3 & C4 & C5 & C6).
  destruct rest as [|line2 rest].
  - injection H as <-. by split_and!.
  - destruct (IH _ _ _ HInv1 Hbf Hrest ltac:(done) H)
      as (HInv' & Hk' & D1 & D2 & D3 & D4 & D5 & _).
    destruct (D5 C1) as [D6 D7].
    rewrite <- app_assoc in HInv'.
    split_and!; try done; try congruence.
    + by eapply keeps_trans.
    + rewrite D4, C4. cbn [length]. lia.
    + intros Hch. destruct (C5 Hch) as [C7 C8]. split; [congruence|].
      intros l b Hl Hlb. apply D7; [congruence | by apply C8].
    + intros Hch. destruct (C6 Hch) as (l & b & Hl & Hlb & Hs).
      exists l, b. split_and!; [congruence | by apply D7 | done].
Qed.

(** C5, as the code has it: a run of step lines, one line that is not a
    step line, a second run of step lines and a line that is not a step
    line put two blocks into the Result Store, under two consecutive ids
    and at two locations.  The first ends at the last step line before
    the interruption, the second starts at the first step line after it
    and ends at the last step line of the second run. *)
Theorem C5_interrupted_run_two_blocks (args : Args) (pre steps1 steps2 : list string)
    (ns ns2 : string) (st st' : State) :
  blocks_flag args = true -> reachable args pre st ->
  steps1 ≠ [] -> steps2 ≠ [] -> Forall step_line steps1 -> Forall step_line steps2 ->
  non_step ns -> non_step ns2 ->
  loop args st (steps1 ++ [ns] ++ steps2 ++ [ns2]) = OK st' ->
  exists l1 l2 b1 b2,
    l1 ≠ l2 /\
    blocks (self st') !! block_id_counter st = Some l1 /\
    blocks (self st') !! (block_id_counter st + 1) = Some l2 /\
    heap st' !! l1 = Some (OBlock b1) /\ heap st' !! l2 = Some (OBlock b2) /\
    Block.end_line b1 = cnt st + Z.of_nat (length steps1) - 1 /\
    Block.start_line b2 = cnt st + Z.of_nat (length steps1) + 1 /\
    Block.end_line b2 = cnt st + Z.of_nat (length steps1) + Z.of_nat (length steps2) /\
    block_id_counter st' = block_id_counter st + 2.
Proof.
  intros Hbf Hr Hne1 Hne2 Hs1 Hs2 Hns Hns2 H.
  destruct (reachable_inv _ _ _ Hr) as [sf HInv].
  rewrite loop_app in H. bind_inv H as sa Ea.
  destruct (loop_steps _ _ _ _ _ _ HInv Hbf Hs1 Hne1 Ea)
    as (HInva & _ & A1 & A2 & A3 & A4 & _ & _).
  change ([ns] ++ steps2 ++ [ns2]) with (ns :: (steps2 ++ [ns2])) in H.
  cbn [loop] in H. bind_inv H as sb Eb.
  destruct (loop_body_inv _ _ _ _ _ _ HInva Eb) as [HInvb _].
  destruct (loop_body_end _ _ _ _ _ _ HInva Hbf Hns A1 Eb)
    as (l1 & b1 & B1 & B2 & B3 & B4 & B5 & B6 & B7 & _).
  rewrite loop_app in H. bind_inv H as sc Ec.
  destruct (loop_steps _ _ _ _ _ _ HInvb Hbf Hs2 Hne2 Ec)
    as (HInvc & Kbc & C1 & C2 & C3 & C4 & _ & C5).
  destruct (C5 B2) as (l2 & b2 & C6 & C7 & C8).
  cbn [loop] in H. bind_inv H as sd Ed. injection H as <-.
  destruct (loop_body_inv _ _ _ _ _ _ HInvc Ed) as [_ Kcd].
  destruct (loop_body_end _ _ _ _ _ _ HInvc Hbf Hns2 C1 Ed)
    as (l2' & b2' & D1 & D2 & D3 & D4 & D5 & D6 & D7 & D8).
  rewrite C6 in D1. injection D1 as <-.
  assert (blocks (self sb) !! block_id_counter st = Some l1) as Hk1.
  { rewrite B3, A3. apply lookup_insert_eq. }
  exists l1, l2, b1, b2'. split_and!.
  - destruct (ib_open _ _ _ _ (inv_blk _ _ _ _ HInvc) C1) as (l & _ & _ & _ & Hl & _ & Hns' & _).
    rewrite C6 in Hl. injection Hl as <-. intros <-.
    apply (Hns' (block_id_counter st)). by rewrite C2.
  - rewrite D3, C2, C3, B4, A3. rewrite lookup_insert_ne by lia. done.
  - rewrite D3, C3, B4, A3. apply lookup_insert_eq.
  - destruct (k_blocks _ _ (keeps_trans _ _ _ Kbc Kcd) _ _ Hk1) as [_ ->]. done.
  - done.
  - rewrite B7, A4. done.
  - rewrite (D8 _ C7), C8, B5, A4. done.
  - rewrite D7, C4, B5, A4. lia.
  - rewrite D4, C3, B4, A3. lia.
Qed.

Lemma C5_interrupted_run_two_blocks_witness :
  let st := Sample.after [Sample.step1; Sample.step2; Sample.other; Sample.step3;
                          Sample.step4; Sample.other] in
  exists l1 l2 b1 b2,
    l1 ≠ l2 /\
    blocks (self st) !! block_id_counter (enter Sample.stats) = Some l1 /\
    blocks (self st) !! (block_id_counter (enter Sample.stats) + 1) = Some l2 /\
    heap st !! l1 = Some (OBlock b1) /\ heap st !! l2 = Some (OBlock b2) /\
    Block.end_line b1 = cnt (enter Sample.stats) +
                        Z.of_nat (length [Sample.step1; Sample.step2]) - 1 /\
    Block.start_line b2 = cnt (enter Sample.stats) +
                          Z.of_nat (length [Sample.step1; Sample.step2]) + 1 /\
    Block.end_line b2 = cnt (enter Sample.stats) +
                        Z.of_nat (length [Sample.step1; Sample.step2]) +
                        Z.of_nat (length [Sample.step3; Sample.step4]) /\
    block_id_counter st = block_id_counter (enter Sample.stats) + 2.
Proof.
  intros st.
  apply (C5_interrupted_run_two_blocks Sample.both [] [Sample.step1; Sample.step2]
           [Sample.step3; Sample.step4] Sample.other Sample.other (enter Sample.stats) st).
  - reflexivity.
  - exists Sample.stats. split_and!; reflexivity.
  - discriminate.
  - discriminate.
  - repeat (apply Forall_cons; split; [eexists; eexists; vm_compute; reflexivity|]).
    apply Forall_nil. done.
  - repeat (apply Forall_cons; split; [eexists; eexists; vm_compute; reflexivity|]).
    apply Forall_nil. done.
  - vm_compute; reflexivity.
  - vm_compute; reflexivity.
  - vm_compute; reflexivity.
Defined.

(** C5, against the claim: when the file ends in the resumed run, only
    the run before the interruption is in the Result Store. *)
Lemma C5_resumed_run_at_eof_one_block :
  step_line Sample.step1 /\ non_step Sample.other /\ step_line Sample.step2 /\
  exists st,
    main_file Sample.both false "Turb.log"
      (Sample.header ++ [Sample.step1; Sample.other; Sample.step2]) = OK st /\
    blocks (self st) = {[ 0 := 2%nat ]}.
Proof.
  split_and!.
  - eexists. eexists. vm_compute; reflexivity.
  - vm_compute; reflexivity.
  - eexists. eexists. vm_compute; reflexivity.
  - eexists. split; vm_compute; reflexivity.
Qed.

(** * Further properties *)

(** ** The outcomes of the file-I/O tracker *)

Lemma py_truediv_float (x : pyfloat) (n : option Z) :
  py_truediv (VFloat x) n =
  match n with
  | None => Raise TypeError
  | Some pb => if fits_double pb
               then if pb =? 0 then Raise ZeroDivisionError
                    else VFloat <$> float_truediv x pb
               else Raise OverflowError
  end.
Proof.
  with_strategy transparent [py_truediv] unfold py_truediv.
  destruct n as [pb|]; [|done]. unfold float_truediv.
  destruct (fits_double pb); [|done]. by destruct (pb =? 0).
Qed.

Lemma py_truediv_float_OK (x : pyfloat) (n : option Z) (v : value) :
  py_truediv (VFloat x) n = OK v ->
  exists pb, n = Some pb /\ pb ≠ 0 /\ fits_double pb = true.
Proof.
  rewrite py_truediv_float. destruct n as [pb|]; [|done].
  destruct (fits_double pb) eqn:Hfit; [|done].
  destruct (pb =? 0) eqn:E; [done|]. intros _. exists pb. split_and!; [done|lia|done].
Qed.

Lemma closes_spec (line : string) :
  closes line = true <->
  is_marker line = true /\ Re.found (Re.lit "open:") line = false /\
  Re.found (Re.lit "close:") line = true.
Proof.
  unfold closes. rewrite !andb_true_iff, negb_true_iff. tauto.
Qed.

Lemma closes_marker (line : string) (t : Z) :
  close_marker line t -> closes line = true.
Proof. intros (? & ? & ? & _). by apply closes_spec. Qed.

(** The tracked object, while [write] holds. *)
Lemma tracked_object sf pre st :
  InvIO sf pre st -> write st = true ->
  exists l e, fileIO st = Some l /\ heap st !! l = Some (OFileIO e) /\
    not_stored (fileIOs (self st)) l /\
    (e = FileIO.init (IO_id_counter st) \/ exists t0, e = opened_event (IO_id_counter st) t0).
Proof.
  intros HI Hw. destruct (ii_open _ _ _ HI Hw) as (l & Hf & Hns & Hobj).
  destruct Hobj as [Hobj | (t & i & lo & Hobj & _)]; exists l; eauto 10.
Qed.

(** What a line that the tracker accepts does to the store of events and
    to the counter of ids. *)
Lemma io_part_step sf pre st line st' :
  InvIO sf pre st -> io_part st line = OK st' ->
  if closes line then
    tracked_open st = true /\ debug (self st) = false /\
    exists l pb, fileIO st = Some l /\ not_stored (fileIOs (self st)) l /\
      n_cells_per_block (self st) = Some pb /\ pb ≠ 0 /\ fits_double pb = true /\
      fileIOs (self st') = <[IO_id_counter st := l]> (fileIOs (self st)) /\
      IO_id_counter st' = IO_id_counter st + 1 /\ write st' = false
  else
    fileIOs (self st') = fileIOs (self st) /\ IO_id_counter st' = IO_id_counter st /\
    write st' = is_marker line || write st.
Proof.
  intros HI H.
  destruct (is_marker line) eqn:Hm.
  2:{ rewrite io_part_not_marker in H by done. injection H as <-.
      unfold closes. rewrite Hm. done. }
  unfold io_part in H. pose proof Hm as Hm'. unfold is_marker in Hm'. rewrite Hm' in H.
  destruct (write st) eqn:Hw.
  - destruct (tracked_object _ _ _ HI Hw) as (l & e & Hf & Hl & Hns & He).
    rewrite Hf in H. cbn [bound] in H. rewrite bind_ret in H. bind_inv H as h E.
    destruct (sfws_tracked _ _ _ _ _ _ _ Hl He E) as (r & Hr & ->).
    destruct Hr as [t Ho Ht _ | t t0 Ho Hc Ht Hd -> | Ho Hc].
    + rewrite (proj2 (get_fileIO_OK _ _ _) (insert_lookup_same _ _ _ _ Hl)) in H.
      cbn in H. injection H as <-. unfold closes. rewrite Hm, Ho. done.
    + rewrite (proj2 (get_fileIO_OK _ _ _) (insert_lookup_same _ _ _ _ Hl)) in H.
      cbn [mbind result_bind closed_event FileIO.close] in H.
      bind_inv H as norm En. injection H as <-.
      cbn in En. apply py_truediv_float_OK in En as (pb & Hpb & Hne & Hfit).
      unfold closes. rewrite Hm, Ho, Hc. cbn.
      split_and!; [|done|].
      * unfold tracked_open. by rewrite Hw, Hf, Hl.
      * exists l, pb. by split_and!.
    + rewrite (proj2 (get_fileIO_OK _ _ _) Hl), bind_ret in H.
      assert (FileIO.close e = false) as Hce.
      { destruct He as [-> | [t0 ->]]; reflexivity. }
      rewrite Hce in H. injection H as <-. unfold closes. rewrite Hm, Ho, Hc. done.
  - cbn [alloc] in H. bind_inv H as h E. injection H as <-.
    pose proof (alloc_lookup_new (OFileIO (FileIO.init (IO_id_counter st))) (heap st)) as Hl.
    destruct (sfws_tracked _ _ _ _ _ (IO_id_counter st) _ Hl (or_introl eq_refl) E) as (r & Hr & ->).
    destruct Hr as [t Ho Ht _ | t t0 Ho Hc Ht Hd Habs | Ho Hc].
    + unfold closes. rewrite Hm, Ho. done.
    + discriminate.
    + unfold closes. rewrite Hm, Ho, Hc. done.
Qed.

Lemma io_part_outcomes sf pre st line :
  InvIO sf pre st -> is_marker line = true ->
  match line_wall_time line with
  | Raise e => io_part st line = Raise e
  | OK _ =>
      if closes line then
        if tracked_open st then
          if debug (self st) then io_part st line = Raise TypeError
          else match n_cells_per_block (self st) with
               | None => io_part st line = Raise TypeError
               | Some pb =>
                   if fits_double pb then
                     if pb =? 0 then io_part st line = Raise ZeroDivisionError
                     else exists st', io_part st line = OK st'
                   else io_part st line = Raise OverflowError
               end
        else io_part st line = Raise TypeError
      else exists st', io_part st line = OK st'
  end.
Proof.
  intros HI Hm. unfold io_part, closes, tracked_open. rewrite Hm.
  pose proof Hm as Hm'. unfold is_marker in Hm'. rewrite Hm'. cbn [andb].
  destruct (write st) eqn:Hw.
  - destruct (tracked_object _ _ _ HI Hw) as (l & e & Hf & Hl & Hns & He).
    rewrite Hf, Hl. cbn [bound andb]. rewrite bind_ret. unfold search_file_write_stats.
    destruct (line_wall_time line) as [t|ex]; [|done]. rewrite bind_ret.
    rewrite (proj2 (get_fileIO_OK _ _ _) Hl), !bind_ret.
    destruct (Re.found (Re.lit "open:") line) eqn:Ho; cbn [negb andb].
    + destruct He as [-> | [t0 ->]].
      * rewrite on_open_init, !bind_ret.
        rewrite (proj2 (get_fileIO_OK _ _ _) (insert_lookup_same _ _ _ _ Hl)), bind_ret.
        cbn. eauto.
      * rewrite on_open_open by done. rewrite !bind_ret.
        rewrite (proj2 (get_fileIO_OK _ _ _) (insert_lookup_same _ _ _ _ Hl)), bind_ret.
        cbn. eauto.
    + destruct (Re.found (Re.lit "close:") line) eqn:Hc.
      * destruct He as [-> | [t0 ->]].
        -- rewrite on_close_init. done.
        -- rewrite on_close_opened. cbn [opened_event FileIO.open].
           destruct (debug (self st)); [done|]. rewrite !bind_ret.
           rewrite (proj2 (get_fileIO_OK _ _ _) (insert_lookup_same _ _ _ _ Hl)), bind_ret.
           cbn [closed_event FileIO.close FileIO.set_file_type FileIO.wall_time].
           rewrite py_truediv_float.
           destruct (n_cells_per_block (self st)) as [pb|]; [|done].
           destruct (fits_double pb) eqn:Hfit; [|done].
           destruct (pb =? 0) eqn:Hz; [done|].
           unfold float_truediv. rewrite Hfit, Hz. cbn. eauto.
      * rewrite bind_ret, (proj2 (get_fileIO_OK _ _ _) Hl), bind_ret.
        assert (FileIO.close e = false) as ->.
        { destruct He as [-> | [t0 ->]]; reflexivity. }
        eauto.
  - cbn [alloc andb]. unfold search_file_write_stats.
    destruct (line_wall_time line) as [t|ex]; [|done]. rewrite bind_ret.
    pose proof (alloc_lookup_new (OFileIO (FileIO.init (IO_id_counter st))) (heap st)) as Hl.
    rewrite (proj2 (get_fileIO_OK _ _ _) Hl), !bind_ret.
    destruct (Re.found (Re.lit "open:") line) eqn:Ho; cbn [negb andb].
    + rewrite on_open_init, !bind_ret. eauto.
    + destruct (Re.found (Re.lit "close:") line) eqn:Hc.
      * by rewrite on_close_init.
      * rewrite bind_ret. eauto.
Qed.

(** ** The outcomes of the block tracker *)

Lemma head_last_Some {A : Type} (l : list A) (x : A) :
  head l = Some x -> exists y, last l = Some y.
Proof.
  destruct l as [|a l]; [done|]. intros _.
  destruct (last (a :: l)) eqn:E; [by eexists|].
  by apply last_None in E.
Qed.

Lemma block_part_outcomes sf pre st line :
  InvBlk sf pre (cnt st) st ->
  match search_walltime line with
  | Raise e => block_part st line = Raise e
  | OK (Some _) => exists st', block_part st line = OK st'
  | OK None =>
      if chunk st then
        exists ts t0 tn, heap st !! wall_time_list st = Some (OTimes ts) /\
          head ts = Some t0 /\ last ts = Some tn /\
          match n_cores (self st) with
          | None => block_part st line = Raise TypeError
          | Some n =>
              if timedelta_in_range ((tn - t0) * n) then
                match n_cells_per_block (self st) with
                | None => block_part st line = Raise TypeError
                | Some pb =>
                    if fits_double pb then exists st', block_part st line = OK st'
                    else block_part st line = Raise OverflowError
                end
              else block_part st line = Raise OverflowError
          end
      else block_part st line = OK st
  end.
Proof.
  intros [_ [ts Hts] [ds Hds] _ Hopen _ _]. unfold block_part.
  destruct (search_walltime line) as [[[t dt]|]|e]; [| |done]; rewrite bind_ret.
  - destruct (chunk st).
    + unfold append_time. rewrite (proj2 (get_times_OK _ _ _) Hts), !bind_ret.
      unfold append_dt. erewrite (proj2 (get_dts_OK _ _ _)), !bind_ret; [eauto|].
      apply insert_lookup_other; [done|]. intros Heq. rewrite Heq, Hds in Hts. done.
    + cbn [alloc]. unfold append_time.
      erewrite (proj2 (get_times_OK _ _ _)), !bind_ret by by apply alloc_lookup_old.
      unfold append_dt. erewrite (proj2 (get_dts_OK _ _ _)), !bind_ret; [eauto|].
      apply insert_lookup_other; [by apply alloc_lookup_old|].
      intros Heq. rewrite Heq, Hds in Hts. done.
  - destruct (chunk st) eqn:Hch; [|done].
    destruct (Hopen eq_refl) as (l & ts' & t0 & s & Hb & Hl & Hns & Hts' & Hhd & Hlen & Hs & Hrun).
    destruct (head_last_Some _ _ Hhd) as [tn Hlast].
    exists ts', t0, tn. split_and!; [done..|].
    rewrite Hb. cbn [bound]. rewrite bind_ret. unfold process_block_statistics.
    rewrite (proj2 (get_times_OK _ _ _) Hts'), bind_ret.
    rewrite (proj2 (get_block_OK _ _ _) Hl), bind_ret.
    rewrite Hlast, bind_ret. cbn [new_block Block.start_date datetime_sub]. rewrite bind_ret.
    destruct (n_cores (self st)) as [n|]; [|done]. cbn [mul_int].
    unfold timedelta_mul. destruct (timedelta_in_range ((tn - t0) * n)); [|done].
    cbn [fmap result_fmap]. rewrite bind_ret.
    destruct (n_cells_per_block (self st)) as [pb|]; [|done]. rewrite bind_ret.
    unfold np_truediv. destruct (fits_double pb); [|done]. rewrite !bind_ret.
    cbn. eauto.
Qed.

(** ** Counting the records *)

Lemma block_ends_snoc (b : bool) (pre : list string) (line : string) :
  block_ends b (pre ++ [line]) =
  block_ends b pre + (if ends_in_block b pre && negb (step_b line) then 1 else 0).
Proof.
  revert b. induction pre as [|x pre IH]; intros b; cbn [app block_ends ends_in_block].
  - lia.
  - rewrite IH. lia.
Qed.

Lemma ends_in_block_snoc (b : bool) (pre : list string) (line : string) :
  ends_in_block b (pre ++ [line]) = step_b line.
Proof.
  revert b. induction pre as [|x pre IH]; intros b; cbn [app ends_in_block]; [done|apply IH].
Qed.

Lemma count_closes_snoc (pre : list string) (line : string) :
  count_closes (pre ++ [line]) = count_closes pre + (if closes line then 1 else 0).
Proof.
  unfold count_closes. rewrite filter_app, length_app, Nat2Z.inj_add. f_equal.
  cbn. destruct (closes line); cbn; [|done].
  rewrite decide_True by done. done.
Qed.

Lemma block_ends_nonneg (b : bool) (lines : list string) : 0 <= block_ends b lines.
Proof.
  revert b. induction lines as [|x l IH]; intros b; cbn; [lia|].
  specialize (IH (step_b x)). destruct (b && negb (step_b x)); lia.
Qed.

Lemma step_b_step (line : string) (t : Z) : is_step line t -> step_b line = true.
Proof. intros [dt H]. unfold step_b. by rewrite H. Qed.

Lemma step_b_non_step (line : string) : non_step line -> step_b line = false.
Proof. intros H. unfold step_b. by rewrite H. Qed.

(** One iteration, cut into its two parts. *)
Lemma loop_body_parts args sf pre st line st' :
  Inv args sf pre st -> loop_body args st line = OK st' ->
  exists st1 st2,
    (if file_writes args then io_part st line else OK st) = OK st1 /\
    (if blocks_flag args then block_part st1 line else OK st1) = OK st2 /\
    st' = set_cnt (cnt st2 + 1) st2 /\
    io_frame st st1 /\ InvBlk sf pre (cnt st1) st1 /\ blk_frame st1 st2.
Proof.
  intros [Hcnt HB HI Hch Hwr] H.
  unfold loop_body in H. bind_inv H as st1 E1. bind_inv H as st2 E2. injection H as <-.
  assert (io_frame st st1) as Hf1.
  { destruct (file_writes args).
    - by destruct (io_part_inv _ _ _ _ _ HI E1) as (_ & ? & ?).
    - injection E1 as <-. by split. }
  pose proof Hf1 as [Hb (Hn & Hc & Hd) (Hch1 & Hid & Hwl & Hdl & Hbl & Hcnt1) Hh Hlen].
  assert (InvBlk sf pre (cnt st1) st1) as HB1.
  { rewrite Hcnt1. eapply InvBlk_ext; [done | done | done..]. }
  exists st1, st2. split_and!; try done.
  destruct (blocks_flag args).
  - eapply block_part_inv; [exact HB1 | congruence | done].
  - injection E2 as <-. by split.
Qed.

(** A line that the pass accepts with the block tracker on was
    classified. *)
Lemma loop_body_classified args sf pre st line st' :
  Inv args sf pre st -> blocks_flag args = true -> loop_body args st line = OK st' ->
  (exists t, is_step line t) \/ non_step line.
Proof.
  intros HInv Hbf H.
  destruct (loop_body_parts _ _ _ _ _ _ HInv H) as (st1 & st2 & _ & E2 & _).
  rewrite Hbf in E2. unfold block_part in E2. bind_inv E2 as r Er.
  destruct r as [[t dt]|]; [left; exists t, dt; done | by right].
Qed.

(** The store of events and its counter after one iteration. *)
Lemma loop_body_events args sf pre st line st' :
  Inv args sf pre st -> loop_body args st line = OK st' ->
  if file_writes args && closes line then
    tracked_open st = true /\ debug (self st) = false /\
    exists l pb, fileIO st = Some l /\ not_stored (fileIOs (self st)) l /\
      n_cells_per_block (self st) = Some pb /\ pb ≠ 0 /\ fits_double pb = true /\
      fileIOs (self st') = <[IO_id_counter st := l]> (fileIOs (self st)) /\
      IO_id_counter st' = IO_id_counter st + 1
  else
    fileIOs (self st') = fileIOs (self st) /\ IO_id_counter st' = IO_id_counter st.
Proof.
  intros HInv H.
  destruct (loop_body_parts _ _ _ _ _ _ HInv H) as (st1 & st2 & E1 & _ & -> & _ & _ & Hf2).
  destruct Hf2 as [Hfio _ (_ & Hidc & _ & _) _ _]. cbn.
  destruct (file_writes args); cbn [andb].
  - pose proof (io_part_step _ _ _ _ _ (inv_io _ _ _ _ HInv) E1) as Hstep.
    destruct (closes line).
    + destruct Hstep as (Ht & Hd & l & pb & ? & ? & ? & ? & ? & ? & ? & ?).
      split_and!; [done..|]. exists l, pb. split_and!; congruence.
    + destruct Hstep as (? & ? & _). split; congruence.
  - injection E1 as <-. done.
Qed.

(** The store of blocks and its counter after one iteration. *)
Lemma loop_body_blocks args sf pre st line st' :
  Inv args sf pre st -> loop_body args st line = OK st' ->
  if blocks_flag args then
    chunk st' = step_b line /\
    if chunk st && negb (step_b line) then
      exists l b0 b', block st = Some l /\ heap st !! l = Some (OBlock b0) /\
        not_stored (blocks (self st)) l /\
        blocks (self st') = <[block_id_counter st := l]> (blocks (self st)) /\
        block_id_counter st' = block_id_counter st + 1 /\
        heap st' !! l = Some (OBlock b') /\ Block.end_line b' = cnt st - 1 /\
        Block.start_line b' = Block.start_line b0
    else
      blocks (self st') = blocks (self st) /\
      block_id_counter st' = block_id_counter st /\
      (step_b line = true ->
         if chunk st then
           block st' = block st /\
           forall l b, block st = Some l -> heap st !! l = Some (OBlock b) ->
                       heap st' !! l = Some (OBlock b)
         else exists l b, block st' = Some l /\ heap st' !! l = Some (OBlock b) /\
                          Block.start_line b = cnt st)
  else
    chunk st' = false /\ chunk st = false /\ blocks (self st') = blocks (self st) /\
    block_id_counter st' = block_id_counter st.
Proof.
  intros HInv H. destruct (blocks_flag args) eqn:Hbf.
  - destruct (loop_body_classified _ _ _ _ _ _ HInv Hbf H) as [[t Hstep] | Hnon].
    + rewrite (step_b_step _ _ Hstep), andb_false_r.
      destruct (loop_body_step _ _ _ _ _ _ _ HInv Hbf Hstep H) as (C1 & C2 & C3 & C4 & C5 & C6).
      split_and!; [done..|]. intros _. destruct (chunk st); [by apply C5 | by apply C6].
    + rewrite (step_b_non_step _ Hnon), andb_true_r.
      destruct (chunk st) eqn:Hch.
      * destruct (loop_body_end _ _ _ _ _ _ HInv Hbf Hnon Hch H)
          as (l & b' & C1 & C2 & C3 & C4 & C5 & C6 & C7 & C8).
        split; [done|].
        destruct (ib_open _ _ _ _ (inv_blk _ _ _ _ HInv) Hch)
          as (l0 & ts & t0 & s & Hb & Hl & Hns & _).
        rewrite C1 in Hb. injection Hb as <-.
        eexists l, _, b'. split_and!; [done..|]. by apply C8.
      * destruct (loop_body_idle _ _ _ _ _ _ HInv Hbf Hnon Hch H) as (C1 & C2 & C3 & C4).
        split_and!; [done..|]. done.
  - pose proof (inv_chunk _ _ _ _ HInv Hbf) as Hch.
    destruct (loop_body_parts _ _ _ _ _ _ HInv H) as (st1 & st2 & _ & E2 & -> & Hf1 & _ & _).
    rewrite Hbf in E2. injection E2 as <-.
    destruct Hf1 as [Hb _ (Hch1 & Hid & _) _ _]. cbn. split_and!; congruence.
Qed.

Lemma is_Some_insert_counter (m : gmap Z loc) (c k : Z) (l : loc) :
  0 <= c -> (forall k, is_Some (m !! k) <-> 0 <= k < c) ->
  is_Some (<[c := l]> m !! k) <-> 0 <= k < c + 1.
Proof.
  intros Hc Hm. destruct (decide (c = k)) as [<-|Hne].
  - rewrite lookup_insert_eq. split; [lia | by eexists].
  - rewrite lookup_insert_ne by done. rewrite Hm. lia.
Qed.

Lemma insert_counter_inj (m : gmap Z loc) (c : Z) (l : loc) :
  not_stored m l ->
  (forall k k' l, m !! k = Some l -> m !! k' = Some l -> k = k') ->
  forall k k' l', <[c := l]> m !! k = Some l' -> <[c := l]> m !! k' = Some l' -> k = k'.
Proof.
  intros Hns Hinj k k' l' H1 H2.
  destruct (decide (c = k)) as [<-|Hne1], (decide (c = k')) as [<-|Hne2]; [done| | |].
  - rewrite lookup_insert_eq in H1. injection H1 as <-.
    rewrite lookup_insert_ne in H2 by done. by destruct (Hns k').
  - rewrite lookup_insert_eq in H2. injection H2 as <-.
    rewrite lookup_insert_ne in H1 by done. by destruct (Hns k).
  - rewrite lookup_insert_ne in H1, H2 by done. by eapply Hinj.
Qed.

Lemma enter_tidy (args : Args) (sf : FLASHLogStats) :
  blocks sf = ∅ -> fileIOs sf = ∅ -> Tidy args [] (enter sf).
Proof.
  intros Hb Hf. split; cbn; rewrite ?Hb, ?Hf.
  - by destruct (file_writes args).
  - by destruct (blocks_flag args).
  - by rewrite andb_false_r.
  - intros k. rewrite lookup_empty. split; [by intros [? ?] | lia].
  - intros k. rewrite lookup_empty. split; [by intros [? ?] | lia].
  - intros k k' l H. by rewrite lookup_empty in H.
  - intros k k' l H. by rewrite lookup_empty in H.
  - intros k l b H. by rewrite lookup_empty in H.
  - intros k k' l l' b b' _ H. by rewrite lookup_empty in H.
  - done.
Qed.

Lemma loop_body_tidy args sf pre st line st' :
  Inv args sf pre st -> Tidy args pre st -> loop_body args st line = OK st' ->
  Tidy args (pre ++ [line]) st'.
Proof.
  intros HInv HT H.
  destruct (loop_body_inv _ _ _ _ _ _ HInv H) as [HInv' Hkeeps].
  assert (cnt st' = cnt st + 1) as Hcnt'.
  { rewrite (inv_cnt _ _ _ _ HInv'), (inv_cnt _ _ _ _ HInv), length_app. cbn. lia. }
  assert (1 <= cnt st) as Hcnt1.
  { rewrite (inv_cnt _ _ _ _ HInv). lia. }
  assert (forall k l, blocks (self st) !! k = Some l -> heap st' !! l = heap st !! l) as Hkeep.
  { intros k l Hk. by destruct (k_blocks _ _ Hkeeps _ _ Hk). }
  pose proof (loop_body_events _ _ _ _ _ _ HInv H) as HE.
  pose proof (loop_body_blocks _ _ _ _ _ _ HInv H) as HB.
  pose proof (ii_counter _ _ _ (inv_io _ _ _ _ HInv)) as Hidc.
  pose proof (ib_counter _ _ _ _ (inv_blk _ _ _ _ HInv)) as Hbdc.
  destruct HT as [T1 T2 T3 T4 T5 T6 T7 T8 T9 T10].
  (* the events *)
  assert ((IO_id_counter st' = if file_writes args then count_closes (pre ++ [line]) else 0) /\
          (forall k, is_Some (fileIOs (self st') !! k) <-> 0 <= k < IO_id_counter st') /\
          (forall k k' l, fileIOs (self st') !! k = Some l ->
             fileIOs (self st') !! k' = Some l -> k = k')) as (E1 & E2 & E3).
  { rewrite count_closes_snoc. destruct (file_writes args); cbn [andb] in HE.
    - destruct (closes line).
      + destruct HE as (_ & _ & l & pb & Hf & Hns & _ & _ & _ & -> & ->).
        split_and!; [lia | |].
        * intros k. by apply is_Some_insert_counter.
        * by apply insert_counter_inj.
      + destruct HE as [-> ->]. split_and!; [lia | done..].
    - destruct HE as [-> ->]. by split_and!. }
  (* the blocks *)
  destruct (blocks_flag args) eqn:Hbf.
  2:{ destruct HB as (C1 & C2 & C3 & C4). split; rewrite ?Hbf, ?C3, ?C4; try done.
      - intros k l b Hk Hl. rewrite (Hkeep _ _ Hk) in Hl.
        destruct (T8 _ _ _ Hk Hl). lia.
      - intros k k' l l' b b' Hlt Hk Hk' Hl Hl'.
        rewrite (Hkeep _ _ Hk) in Hl. rewrite (Hkeep _ _ Hk') in Hl'. by eapply T9.
      - intros Hch. congruence. }
  destruct HB as [Hch' HB]. cbn [andb] in T3.
  assert (block_ends false (pre ++ [line]) =
          block_id_counter st + (if chunk st && negb (step_b line) then 1 else 0)) as Hcount.
  { by rewrite block_ends_snoc, <- T3, T2. }
  destruct (chunk st && negb (step_b line)) eqn:Hend.
  - (* the line ends a block *)
    apply andb_true_iff in Hend as [Hch Hns]. apply negb_true_iff in Hns.
    destruct HB as (l & b0 & b' & Hb & Hl & Hnst & Hst' & Hc' & Hl' & Hel & Hsl).
    destruct (T10 Hch _ _ Hb Hl) as [Hs0 Hprev].
    split; rewrite ?Hbf, ?Hst', ?Hc', ?Hcount; try done.
    + cbn. by rewrite ends_in_block_snoc.
    + intros k. by apply is_Some_insert_counter.
    + by apply insert_counter_inj.
    + intros k l1 b1 Hk Hl1. destruct (decide (block_id_counter st = k)) as [<-|Hne].
      * rewrite lookup_insert_eq in Hk. injection Hk as <-.
        rewrite Hl' in Hl1. injection Hl1 as <-. lia.
      * rewrite lookup_insert_ne in Hk by done. rewrite (Hkeep _ _ Hk) in Hl1.
        destruct (T8 _ _ _ Hk Hl1). lia.
    + intros k k' l1 l2 b1 b2 Hlt Hk Hk' Hl1 Hl2.
      destruct (decide (block_id_counter st = k')) as [<-|Hne'].
      * rewrite lookup_insert_eq in Hk'. injection Hk' as <-.
        rewrite Hl' in Hl2. injection Hl2 as <-.
        rewrite lookup_insert_ne in Hk by lia. rewrite (Hkeep _ _ Hk) in Hl1.
        rewrite Hsl. by eapply Hprev.
      * rewrite lookup_insert_ne in Hk' by done.
        assert (0 <= k' < block_id_counter st) as Hk'r by (apply T5; by eexists).
        rewrite lookup_insert_ne in Hk by lia.
        rewrite (Hkeep _ _ Hk) in Hl1. rewrite (Hkeep _ _ Hk') in Hl2. by eapply T9.
    + intros Habs. congruence.
  - (* the store of blocks is as it was *)
    destruct HB as (Hst' & Hc' & Hnew).
    split; rewrite ?Hbf, ?Hst', ?Hc', ?Hcount; try done.
    + lia.
    + cbn. by rewrite ends_in_block_snoc.
    + intros k l b Hk Hl. rewrite (Hkeep _ _ Hk) in Hl.
      destruct (T8 _ _ _ Hk Hl). lia.
    + intros k k' l l' b b' Hlt Hk Hk' Hl Hl'.
      rewrite (Hkeep _ _ Hk) in Hl. rewrite (Hkeep _ _ Hk') in Hl'. by eapply T9.
    + intros Hch1 l b Hb Hl. rewrite Hch' in Hch1. specialize (Hnew Hch1).
      destruct (chunk st) eqn:Hch.
      * destruct Hnew as [Hblk Hsame].
        destruct (ib_open _ _ _ _ (inv_blk _ _ _ _ HInv) Hch)
          as (l0 & ts & t0 & s & Hb0 & Hl0 & _).
        rewrite Hblk, Hb0 in Hb. injection Hb as <-.
        rewrite (Hsame _ _ Hb0 Hl0) in Hl. injection Hl as <-.
        destruct (T10 eq_refl _ _ Hb0 Hl0) as [Hs0 Hprev]. split; [lia|].
        intros k lk bk Hk Hlk. rewrite (Hkeep _ _ Hk) in Hlk. by eapply Hprev.
      * destruct Hnew as (l0 & b0 & Hb0 & Hl0 & Hs0).
        rewrite Hb0 in Hb. injection Hb as <-. rewrite Hl0 in Hl. injection Hl as <-.
        split; [lia|].
        intros k lk bk Hk Hlk. rewrite (Hkeep _ _ Hk) in Hlk.
        destruct (T8 _ _ _ Hk Hlk). lia.
Qed.

Lemma reachable_tidy args pre st : reachable args pre st -> Tidy args pre st.
Proof.
  revert st. induction pre as [|line pre IH] using rev_ind; intros st Hr.
  - destruct Hr as (sf & Hb & Hf & Hl). injection Hl as <-. by apply enter_tidy.
  - destruct (reachable_snoc _ _ _ _ Hr) as (st1 & Hr1 & Hbody).
    destruct (reachable_inv _ _ _ Hr1) as [sf HInv].
    eapply loop_body_tidy; [done | by apply IH | done].
Qed.

(** ** A pass without closing marker lines *)

Lemma loop_closes args sf : forall lines st,
  blocks sf = ∅ -> fileIOs sf = ∅ -> file_writes args = true ->
  loop args (enter sf) lines = OK st ->
  Forall (fun line => closes line = true ->
            debug sf = false /\
            exists pb, n_cells_per_block sf = Some pb /\ pb ≠ 0 /\ fits_double pb = true) lines.
Proof.
  induction lines as [|line pre IH] using rev_ind; intros st Hb Hf Hfw H; [constructor|].
  apply loop_snoc in H as (st1 & H1 & Hbody).
  apply Forall_app. split; [by eapply IH|]. apply Forall_cons. split; [|constructor].
  intros Hc. pose proof (run_inv _ _ _ _ Hb Hf H1) as HInv.
  pose proof (loop_body_events _ _ _ _ _ _ HInv Hbody) as HE.
  rewrite Hfw, Hc in HE. cbn [andb] in HE.
  destruct HE as (_ & Hd & l & pb & _ & _ & Hpb & Hne & Hfit & _).
  destruct (ii_params _ _ _ (inv_io _ _ _ _ HInv)) as [Hp1 Hp2].
  split; [congruence|]. exists pb. split_and!; [congruence | done | done].
Qed.

Lemma count_closes_none (lines : list string) :
  Forall (fun line => closes line = false) lines -> count_closes lines = 0.
Proof.
  induction 1 as [|line lines Hc _ IH]; [done|].
  change (line :: lines) with ([line] ++ lines).
  unfold count_closes in *. rewrite filter_app, length_app, Nat2Z.inj_add, IH.
  cbn. rewrite decide_False by congruence. done.
Qed.

Lemma no_keys_empty (m : gmap Z loc) (c : Z) :
  (forall k, is_Some (m !! k) <-> 0 <= k < c) -> c = 0 -> m = ∅.
Proof.
  intros Hm ->. apply map_eq. intros k. rewrite lookup_empty.
  destruct (m !! k) eqn:E; [|done]. assert (0 <= k < 0) by (apply Hm; by eexists). lia.
Qed.

(** ** A tracker whose switch is off *)

Lemma set_cnt_set_cnt (n m : Z) (st : State) : set_cnt n (set_cnt m st) = set_cnt n st.
Proof. done. Qed.

Lemma loop_both_off (lines : list string) : forall st,
  loop {| file_writes := false; blocks_flag := false |} st lines =
  OK (match lines with [] => st | _ => set_cnt (cnt st + Z.of_nat (length lines)) st end).
Proof.
  induction lines as [|line lines IH]; intros st; [done|].
  cbn [loop]. unfold loop_body. cbn [file_writes blocks_flag]. rewrite !bind_ret, IH.
  f_equal. destruct lines as [|x lines].
  - cbn. done.
  - rewrite set_cnt_set_cnt. f_equal. cbn [set_cnt cnt length]. lia.
Qed.

(** ** Core-hours *)

Lemma Qred_div_mul (a n : Z) :
  (Qred (Qred ((a * n) # 1000000) / inject_Z seconds_per_hour)
   == (a # 1000000) / inject_Z seconds_per_hour * inject_Z n)%Q.
Proof.
  rewrite !Qred_correct. unfold Qeq, Qdiv, Qmult, Qinv, inject_Z, seconds_per_hour. cbn. lia.
Qed.

(** C4: the core-hours cell that [create_dataset] writes for a stored
    block is its duration from the start to the end timestamp, in hours,
    times the core count; the core-hours of a stored event are its
    duration from the open to the close marker, in seconds, over 3600,
    and the core count does not enter.  Such records exist: after a pass
    that got through the file there is a block under every key below the
    number of runs of step lines that a line ends, and an event under
    every key below the number of closing marker lines. *)
Theorem C4_core_hours (args : Args) (dbg : bool) (file : string) (lines : list string)
    (st : State) :
  main_file args dbg file lines = OK st ->
  (forall k l b, blocks (self st) !! k = Some l -> heap st !! l = Some (OBlock b) ->
     exists t0 tn n h,
       Block.start_date b = VDatetime t0 /\ Block.end_date b = VDatetime tn /\
       n_cores (self st) = Some n /\
       (exists row, block_row b = OK row /\ row !! 2%nat = Some (VFloat (FNum h))) /\
       (h == ((tn - t0) # 1000000) / inject_Z seconds_per_hour * inject_Z n)%Q) /\
  (forall k l e, fileIOs (self st) !! k = Some l -> heap st !! l = Some (OFileIO e) ->
     exists t_open t_close d c (j : nat) line_c,
       lines !! j = Some line_c /\ close_marker line_c t_close /\
       FileIO.start_date e = VDatetime t_open /\
       FileIO.wall_time e = VFloat (FNum d) /\ (d == (t_close - t_open) # 1000000)%Q /\
       FileIO.core_hours e = VFloat (FNum c) /\ (c == d / inject_Z seconds_per_hour)%Q /\
       (exists row, fileIO_row e = OK row /\ row !! 2%nat = Some (VFloat (FNum c)))) /\
  (blocks_flag args = true -> forall k, 0 <= k < block_ends false lines ->
     exists l b, blocks (self st) !! k = Some l /\ heap st !! l = Some (OBlock b)) /\
  (file_writes args = true -> forall k, 0 <= k < count_closes lines ->
     exists l e, fileIOs (self st) !! k = Some l /\ heap st !! l = Some (OFileIO e)).
Proof.
  intros Hmain.
  pose proof (reachable_tidy _ _ _ (main_file_reachable _ _ _ _ _ Hmain)) as HT.
  destruct (reachable_inv _ _ _ (main_file_reachable _ _ _ _ _ Hmain))
    as [sf [_ HB HI _ _]].
  split_and!.
  - intros k l b Hk Hl.
    destruct (stored_block_of _ _ _ _ _ _ (ib_stored _ _ _ _ HB _ _ Hk) Hl)
      as (wl & dl & ts & ds & t0 & tn & n & pb & s & _ & _ & _ & _ & Hn & _ & _ & _
          & _ & [F1 F2 F3 F4 F5 F6 F7 F8 F9 F10 F11 F12 F13]).
    exists t0, tn, n, (Qred (total_seconds_q ((tn - t0) * n) / inject_Z seconds_per_hour)).
    split_and!; try done.
    + destruct (ib_params _ _ _ _ HB) as [-> _]. done.
    + eexists. split.
      * unfold block_row, block_core_hrs. rewrite F7, F12, F13, F5. reflexivity.
      * reflexivity.
    + apply Qred_div_mul.
  - intros k l e Hk Hl.
    destruct (ii_stored _ _ _ HI _ _ Hk)
      as (t_o & t_c & norm & i & j & lo & lc & Hl' & _ & _ & _ & Hj & Hc & _ & _ & _).
    rewrite Hl in Hl'. injection Hl' as ->.
    exists t_o, t_c, (total_seconds_q (t_c - t_o)),
      (Qred (total_seconds_q (t_c - t_o) / inject_Z seconds_per_hour)), j, lc.
    split_and!; try done.
    + apply Qred_correct.
    + apply Qred_correct.
    + eexists. split; reflexivity.
  - intros Hbf k Hk.
    assert (is_Some (blocks (self st) !! k)) as [l Hl].
    { apply (td_blk_keys _ _ _ HT). rewrite (td_blk_counter _ _ _ HT), Hbf. done. }
    destruct (ib_stored _ _ _ _ HB _ _ Hl)
      as (b & wl & dl & ts & ds & t0 & tn & n & pb & s & Hb & _).
    by exists l, b.
  - intros Hfw k Hk.
    assert (is_Some (fileIOs (self st) !! k)) as [l Hl].
    { apply (td_io_keys _ _ _ HT). rewrite (td_io_counter _ _ _ HT), Hfw. done. }
    destruct (ii_stored _ _ _ HI _ _ Hl) as (t_o & t_c & norm & i & j & lo & lc & He & _).
    by eexists l, _.
Qed.

Lemma C4_core_hours_witness :
  exists st,
    main_file Sample.both false "Turb.log"
      (Sample.header ++ [Sample.step1; Sample.step2; Sample.open1; Sample.close1]) = OK st /\
    (exists l b t0 tn n h,
       blocks (self st) !! 0 = Some l /\ heap st !! l = Some (OBlock b) /\
       Block.start_date b = VDatetime t0 /\ Block.end_date b = VDatetime tn /\
       n_cores (self st) = Some n /\
       (exists row, block_row b = OK row /\ row !! 2%nat = Some (VFloat (FNum h))) /\
       (h == ((tn - t0) # 1000000) / inject_Z seconds_per_hour * inject_Z n)%Q) /\
    (exists l e t_open t_close d c,
       fileIOs (self st) !! 0 = Some l /\ heap st !! l = Some (OFileIO e) /\
       FileIO.start_date e = VDatetime t_open /\
       FileIO.wall_time e = VFloat (FNum d) /\ (d == (t_close - t_open) # 1000000)%Q /\
       FileIO.core_hours e = VFloat (FNum c) /\ (c == d / inject_Z seconds_per_hour)%Q /\
       (exists row, fileIO_row e = OK row /\ row !! 2%nat = Some (VFloat (FNum c)))).
Proof.
  eexists. split; [vm_compute; reflexivity|].
  destruct (C4_core_hours Sample.both false "Turb.log"
              (Sample.header ++ [Sample.step1; Sample.step2; Sample.open1; Sample.close1]) _
              ltac:(vm_compute; reflexivity)) as (HB & HE & HBx & HEx).
  split.
  - destruct (HBx eq_refl 0) as (l & b & Hl & Hb).
    { assert (block_ends false
                (Sample.header ++ [Sample.step1; Sample.step2; Sample.open1; Sample.close1]) = 1)
        as -> by (vm_compute; reflexivity). lia. }
    destruct (HB 0 l b Hl Hb) as (t0 & tn & n & h & H1 & H2 & H3 & H4 & H5).
    by exists l, b, t0, tn, n, h.
  - destruct (HEx eq_refl 0) as (l & e & Hl & He).
    { assert (count_closes
                (Sample.header ++ [Sample.step1; Sample.step2; Sample.open1; Sample.close1]) = 1)
        as -> by (vm_compute; reflexivity). lia. }
    destruct (HE 0 l e Hl He) as (t_o & t_c & d & c & j & lc & _ & _ & H1 & H2 & H3 & H4 & H5 & H6).
    by exists l, e, t_o, t_c, d, c.
Defined.

(** The state between the two parts of an iteration. *)
Lemma io_part_between args sf pre st line st1 :
  Inv args sf pre st ->
  (if file_writes args then io_part st line else OK st) = OK st1 ->
  io_frame st st1 /\ InvBlk sf pre (cnt st1) st1.
Proof.
  intros [Hcnt HB HI Hch Hwr] E1.
  assert (io_frame st st1) as Hf1.
  { destruct (file_writes args).
    - by destruct (io_part_inv _ _ _ _ _ HI E1) as (_ & ? & ?).
    - injection E1 as <-. by split. }
  split; [done|].
  destruct Hf1 as [Hb (Hn & Hc & Hd) (Hch1 & Hid & Hwl & Hdl & Hbl & Hcnt1) Hh Hlen].
  rewrite Hcnt1. eapply InvBlk_ext; [done | done | done..].
Qed.

Lemma loop_body_block_outcomes args sf pre st line :
  Inv args sf pre st -> blocks_flag args = true ->
  (file_writes args = true -> exists st1, io_part st line = OK st1) ->
  match search_walltime line with
  | Raise e => loop_body args st line = Raise e
  | OK (Some _) => exists st', loop_body args st line = OK st'
  | OK None =>
      if chunk st then
        exists ts t0 tn, heap st !! wall_time_list st = Some (OTimes ts) /\
          head ts = Some t0 /\ last ts = Some tn /\
          match n_cores (self st) with
          | None => loop_body args st line = Raise TypeError
          | Some n =>
              if timedelta_in_range ((tn - t0) * n) then
                match n_cells_per_block (self st) with
                | None => loop_body args st line = Raise TypeError
                | Some pb =>
                    if fits_double pb then exists st', loop_body args st line = OK st'
                    else loop_body args st line = Raise OverflowError
                end
              else loop_body args st line = Raise OverflowError
          end
      else exists st', loop_body args st line = OK st'
  end.
Proof.
  intros HInv Hbf Hio.
  assert (exists st1, (if file_writes args then io_part st line else OK st) = OK st1)
    as [st1 E1].
  { destruct (file_writes args); [by apply Hio | by eexists]. }
  destruct (io_part_between _ _ _ _ _ _ HInv E1) as [Hf1 HB1].
  destruct Hf1 as [Hb (Hn & Hc & Hd) (Hch1 & Hid & Hwl & Hdl & Hbl & Hcnt1) Hh Hlen].
  pose proof (block_part_outcomes _ _ _ line HB1) as Hout.
  unfold loop_body. rewrite E1, bind_ret, Hbf.
  destruct (search_walltime line) as [[[t dt]|]|e].
  - destruct Hout as [st2 ->]. rewrite bind_ret. eauto.
  - rewrite Hch1 in Hout. destruct (chunk st) eqn:Hch.
    + destruct Hout as (ts & t0 & tn & Hts & Hhd & Hlast & Hout).
      destruct (ib_open _ _ _ _ (inv_blk _ _ _ _ HInv) Hch)
        as (l & ts' & t0' & s & _ & _ & _ & Hts' & _).
      assert (ts' = ts) as ->.
      { apply Hh in Hts'; [|by intros [? ?]]. rewrite <- Hwl, Hts in Hts'. congruence. }
      exists ts, t0, tn. split_and!; [done..|]. rewrite Hn, Hc in Hout.
      destruct (n_cores (self st)) as [n|]; [|by rewrite Hout].
      destruct (timedelta_in_range ((tn - t0) * n)); [|by rewrite Hout].
      destruct (n_cells_per_block (self st)) as [pb|]; [|by rewrite Hout].
      destruct (fits_double pb); [|by rewrite Hout].
      destruct Hout as [st2 ->]. rewrite bind_ret. eauto.
    + rewrite Hout, bind_ret. eauto.
  - by rewrite Hout.
Qed.

(** ** Dictionaries whose keys are the numbers below a counter *)

Lemma dom_dense (m : gmap Z loc) (n : Z) :
  (forall k, is_Some (m !! k) <-> 0 <= k < n) -> dom m = list_to_set (seqZ 0 n).
Proof.
  intros Hm. apply set_eq. intros k.
  rewrite elem_of_dom, elem_of_list_to_set, elem_of_seqZ, Hm. lia.
Qed.

Lemma size_dense (m : gmap Z loc) (n : Z) :
  (forall k, is_Some (m !! k) <-> 0 <= k < n) -> size m = Z.to_nat n.
Proof.
  intros Hm. rewrite <- size_dom, (dom_dense _ _ Hm).
  rewrite size_list_to_set by apply NoDup_seqZ. apply length_seqZ.
Qed.

Lemma Sorted_seqZ (len : nat) : forall m, Sorted Z.le (seqZ m (Z.of_nat len)).
Proof.
  induction len as [|len IH]; intros m.
  - cbn. constructor.
  - rewrite seqZ_cons by lia. replace (Z.pred (Z.of_nat (S len))) with (Z.of_nat len) by lia.
    constructor; [apply IH|].
    destruct len as [|len]; [constructor|].
    rewrite seqZ_cons by lia. constructor. lia.
Qed.

Lemma dict_keys_dense (m : gmap Z loc) (n : Z) :
  (forall k, is_Some (m !! k) <-> 0 <= k < n) -> dict_keys m = seqZ 0 n.
Proof.
  intros Hm. unfold dict_keys. apply (Sorted_unique Z.le).
  - apply Sorted_merge_sort. apply _.
  - destruct (decide (0 <= n)) as [Hn|Hn].
    + rewrite <- (Z2Nat.id n) by done. apply Sorted_seqZ.
    + unfold seqZ. replace (Z.to_nat n) with 0%nat by lia. constructor.
  - rewrite merge_sort_Permutation. apply NoDup_Permutation.
    + apply NoDup_elements.
    + apply NoDup_seqZ.
    + intros k. rewrite elem_of_elements, elem_of_dom, elem_of_seqZ, Hm. lia.
Qed.

(** The items of such a dictionary, one after the other. *)
Lemma dict_items_dense (m : gmap Z loc) (n : Z) :
  (forall k, is_Some (m !! k) <-> 0 <= k < n) ->
  Forall2 (fun k p => p.1 = k /\ m !! k = Some p.2) (seqZ 0 n) (dict_items m).
Proof.
  intros Hm. unfold dict_items. rewrite (dict_keys_dense _ _ Hm).
  assert (Forall (fun k => is_Some (m !! k)) (seqZ 0 n)) as Hall.
  { apply Forall_forall. intros k Hk. apply elem_of_seqZ in Hk. apply Hm. lia. }
  induction Hall as [|k ks [l Hk] _ IH]; [constructor|].
  cbn. rewrite Hk. cbn. constructor; [by split | done].
Qed.

(** ** More on the parameter scan *)

(** A line leaves an object whose four parameters are set as it is. *)
Lemma scan_line_populated s cnt line n x y z :
  n_cores s = Some n -> nxb s = Some x -> nyb s = Some y -> nzb s = Some z ->
  scan_line s cnt line = OK s.
Proof.
  intros Hn Hx Hy Hz. unfold scan_line. rewrite Hn, bind_ret, Hx, bind_ret, Hy, bind_ret, Hz.
  done.
Qed.

Lemma scan_lines_populated lines : forall s cnt n x y z,
  n_cores s = Some n -> nxb s = Some x -> nyb s = Some y -> nzb s = Some z ->
  scan_lines s cnt lines = OK s.
Proof.
  induction lines as [|line rest IH]; intros s cnt n x y z Hn Hx Hy Hz; [done|].
  cbn [scan_lines]. erewrite scan_line_populated, bind_ret by done. by eapply IH.
Qed.

(** The first line that carries a label of a parameter not set yet is
    read for its number. *)
Lemma scan_lines_no_number (get : FLASHLogStats -> option Z) (label : string) :
  (forall s cnt line s', scan_line s cnt line = OK s' -> retained label line (get s) (get s')) ->
  forall pre line suf s cnt s',
    get s = None -> never_appears label pre ->
    Re.found (Re.lit label) line = true -> Re.findall re_digits line = [] ->
    scan_lines s cnt (pre ++ line :: suf) = OK s' -> False.
Proof.
  intros Hret pre line suf. induction pre as [|x pre IH]; intros s cnt s' Hg Hnever Hf Hd H.
  - cbn [app scan_lines] in H. bind_inv H as s1 E1. apply Hret in E1.
    unfold retained in E1. rewrite Hg, Hf in E1. destruct E1 as (m & Hm & _).
    by rewrite Hd in Hm.
  - cbn [app scan_lines] in H. bind_inv H as s1 E1. apply Hret in E1.
    apply Forall_cons in Hnever as [Hx Hnever].
    unfold retained in E1. rewrite Hg, Hx in E1. by eapply IH.
Qed.

(** [nodes] follows [n_cores]. *)
Lemma scan_line_nodes s cnt line s' p :
  n_cores_per_node s = Some p ->
  (forall n, n_cores s = Some n -> nodes s = Some (FNum (Qred (inject_Z n / inject_Z p)))) ->
  scan_line s cnt line = OK s' ->
  forall n, n_cores s' = Some n -> nodes s' = Some (FNum (Qred (inject_Z n / inject_Z p))).
Proof.
  intros Hp Hnodes H. unfold scan_line in H.
  bind_inv H as s1 E1. bind_inv H as s2 E2. bind_inv H as s3 E3.
  assert (forall n, n_cores s1 = Some n ->
            nodes s1 = Some (FNum (Qred (inject_Z n / inject_Z p)))) as H1.
  { destruct (n_cores s) as [v|] eqn:Hn.
    { injection E1 as <-. intros n Hn'. apply Hnodes. congruence. }
    unfold search_core_count in E1.
    destruct (Re.found (Re.lit "Number of MPI tasks:") line).
    - bind_inv E1 as m Em. bind_inv E1 as n0 En. rewrite Hp, bind_ret in E1.
      bind_inv E1 as x Ex. injection E1 as <-. cbn. intros n [= <-].
      unfold int_truediv in Ex. destruct (p =? 0); [done|].
      destruct (_ <? _); [|done]. by injection Ex as <-.
    - injection E1 as <-. intros n. by rewrite Hn. }
  assert (n_cores s2 = n_cores s1 /\ nodes s2 = nodes s1) as [N2 M2].
  { destruct (nxb s1); [by injection E2 as <-|]. bind_inv E2 as v Ev. by injection E2 as <-. }
  assert (n_cores s3 = n_cores s2 /\ nodes s3 = nodes s2) as [N3 M3].
  { destruct (nyb s2); [by injection E3 as <-|]. bind_inv E3 as v Ev. by injection E3 as <-. }
  assert (n_cores s' = n_cores s3 /\ nodes s' = nodes s3) as [N4 M4].
  { destruct (nzb s3); [by injection H as <-|]. bind_inv H as v Ev. by injection H as <-. }
  intros n Hn. rewrite M4, M3, M2. apply H1. congruence.
Qed.

Lemma scan_lines_nodes lines : forall s cnt s' p,
  n_cores_per_node s = Some p ->
  (forall n, n_cores s = Some n -> nodes s = Some (FNum (Qred (inject_Z n / inject_Z p)))) ->
  scan_lines s cnt lines = OK s' ->
  forall n, n_cores s' = Some n -> nodes s' = Some (FNum (Qred (inject_Z n / inject_Z p))).
Proof.
  induction lines as [|line rest IH]; intros s cnt s' p Hp Hnodes H.
  - by injection H as <-.
  - cbn [scan_lines] in H. bind_inv H as s1 E1. eapply IH; [| |done].
    + destruct (scan_line_spec _ _ _ _ E1) as (_ & _ & _ & _ & _ & _ & _ & Hnode). congruence.
    + by eapply scan_line_nodes.
Qed.

#[local] Transparent Re.found Re.lit Re.findall.

(** ** What [\d+] matches *)

Lemma plus_loop_digits (s : string) (n : nat) :
  Re.plus_loop Re.Digit (fun _ => Some O) s = Some n -> all_digits (Re.take n s) = true.
Proof.
  revert n. induction s as [|a s IH]; intros n H; cbn in H.
  - by injection H as <-.
  - destruct (Re.is_digit a) eqn:Ha.
    + destruct (Re.plus_loop Re.Digit (fun _ => Some O) s) as [m|] eqn:E.
      * injection H as <-. cbn. by rewrite Ha, (IH m).
      * by injection H as <-.
    + by injection H as <-.
Qed.

Lemma match_here_digits (s : string) (n : nat) :
  Re.match_here re_digits s = Some n -> all_digits (Re.take n s) = true.
Proof.
  destruct s as [|a s]; cbn; [done|]. destruct (Re.is_digit a) eqn:Ha; [|done].
  destruct (Re.plus_loop Re.Digit (fun _ => Some O) s) as [m|] eqn:E; [|done].
  intros [= <-]. cbn. by rewrite Ha, (plus_loop_digits _ _ E).
Qed.

Lemma search_digits (s m rest : string) :
  Re.search re_digits s = Some (m, rest) -> all_digits m = true.
Proof.
  induction s as [|a s IH]; cbn [Re.search].
  - destruct (Re.match_here re_digits "") as [n|] eqn:E; [|done].
    intros [= <- _]. by apply match_here_digits.
  - destruct (Re.match_here re_digits (String a s)) as [n|] eqn:E; [|done].
    intros [= <- _]. by apply match_here_digits.
Qed.

Lemma findall_from_digits (fuel : nat) : forall s,
  Forall (fun m => all_digits m = true) (Re.findall_from fuel re_digits s).
Proof.
  induction fuel as [|fuel IH]; intros s; cbn [Re.findall_from]; [constructor|].
  destruct (Re.search re_digits s) as [[m rest]|] eqn:E; [|constructor].
  apply Forall_cons. split; [by eapply search_digits | apply IH].
Qed.

Lemma digit_val_nonneg (a : ascii) : Re.is_digit a = true -> 0 <= digit_val a <= 9.
Proof.
  unfold Re.is_digit, digit_val. intros H. apply andb_true_iff in H as [H1 H2].
  apply Nat.leb_le in H1, H2. lia.
Qed.

Lemma fold_digits_nonneg (l : list ascii) : forall acc,
  0 <= acc -> forallb Re.is_digit l = true ->
  0 <= fold_left (fun acc a => 10 * acc + digit_val a) l acc.
Proof.
  induction l as [|a l IH]; intros acc Hacc Hl; [done|]. cbn in *.
  apply andb_true_iff in Hl as [Ha Hl]. apply IH; [|done].
  pose proof (digit_val_nonneg _ Ha). lia.
Qed.

Lemma all_digits_forallb (s : string) :
  all_digits s = true -> forallb Re.is_digit (list_ascii_of_string s) = true.
Proof. induction s as [|a s IH]; cbn; [done|]. intros H. apply andb_true_iff in H as [-> H]. by apply IH. Qed.

Lemma int_of_digits_nonneg (s : string) : all_digits s = true -> 0 <= int_of_digits s.
Proof. intros H. apply fold_digits_nonneg; [done | by apply all_digits_forallb]. Qed.

Lemma first_extraction_nonneg (label : string) (lines : list string) (v : Z) :
  first_extraction label lines = Some v -> 0 <= v.
Proof.
  induction lines as [|line rest IH]; [done|]. cbn [first_extraction].
  destruct (Re.found (Re.lit label) line); [|done].
  pose proof (findall_from_digits (S (String.length line)) line) as Hall.
  fold (Re.findall re_digits line) in Hall.
  destruct (Re.findall re_digits line) as [|m ms]; [done|].
  intros [= <-]. apply Forall_cons in Hall as [Hm _]. by apply int_of_digits_nonneg.
Qed.
#[local] Opaque Re.found Re.lit Re.findall.

(** ** The path of the file *)

Lemma scan_line_path s cnt line s' :
  scan_line s cnt line = OK s' -> turb_log_file_path s' = turb_log_file_path s.
Proof.
  intros H. unfold scan_line in H.
  bind_inv H as s1 E1. bind_inv H as s2 E2. bind_inv H as s3 E3.
  assert (turb_log_file_path s1 = turb_log_file_path s) as H1.
  { destruct (n_cores s); [by injection E1 as <-|]. unfold search_core_count in E1.
    destruct (Re.found (Re.lit "Number of MPI tasks:") line); [|by injection E1 as <-].
    bind_inv E1 as m Em. bind_inv E1 as n0 En. bind_inv E1 as p Ep. bind_inv E1 as x Ex.
    by injection E1 as <-. }
  assert (turb_log_file_path s2 = turb_log_file_path s1) as H2.
  { destruct (nxb s1); [by injection E2 as <-|]. bind_inv E2 as v Ev. by injection E2 as <-. }
  assert (turb_log_file_path s3 = turb_log_file_path s2) as H3.
  { destruct (nyb s2); [by injection E3 as <-|]. bind_inv E3 as v Ev. by injection E3 as <-. }
  assert (turb_log_file_path s' = turb_log_file_path s3) as H4.
  { destruct (nzb s3); [by injection H as <-|]. bind_inv H as v Ev. by injection H as <-. }
  congruence.
Qed.

Lemma scan_lines_path lines : forall s cnt s',
  scan_lines s cnt lines = OK s' -> turb_log_file_path s' = turb_log_file_path s.
Proof.
  induction lines as [|line rest IH]; intros s cnt s' H.
  - by injection H as <-.
  - cbn [scan_lines] in H. bind_inv H as s1 E1.
    rewrite (IH _ _ _ H). by eapply scan_line_path.
Qed.

Lemma compute_sim_parameters_path s lines s' :
  compute_sim_parameters s lines = OK s' -> turb_log_file_path s' = turb_log_file_path s.
Proof.
  intros H.
  destruct (compute_sim_parameters_spec _ _ _ H) as (s0 & x & y & z & n & E & _ & _ & _ & _ & ->).
  cbn. by eapply scan_lines_path.
Qed.

Lemma io_part_path st line st' :
  io_part st line = OK st' ->
  turb_log_file_path (self st') = turb_log_file_path (self st).
Proof.
  unfold io_part. intros H.
  destruct (Re.found (Re.lit "IO_writeCheckpoint") line || Re.found (Re.lit "IO_writePlotfile") line);
    [|by injection H as <-].
  destruct (write st).
  - bind_inv H as l El. bind_inv H as h Eh. bind_inv H as e Ee.
    destruct (FileIO.close e).
    + bind_inv H as norm En. by injection H as <-.
    + by injection H as <-.
  - cbn [alloc] in H. bind_inv H as h Eh. by injection H as <-.
Qed.

Lemma block_part_path st line st' :
  block_part st line = OK st' ->
  turb_log_file_path (self st') = turb_log_file_path (self st).
Proof.
  unfold block_part. intros H. bind_inv H as r Er. destruct r as [[t dt]|].
  - destruct (chunk st).
    + bind_inv H as h1 E1. bind_inv H as h2 E2. by injection H as <-.
    + cbn [alloc] in H. bind_inv H as h1 E1. bind_inv H as h2 E2. by injection H as <-.
  - destruct (chunk st); [|by injection H as <-].
    bind_inv H as bl Eb. bind_inv H as p Ep. destruct p as [sf h].
    cbn [alloc] in H. injection H as <-. cbn.
    unfold process_block_statistics in Ep.
    bind_inv Ep as ts Ets. bind_inv Ep as b Ebk. bind_inv Ep as ed Eed.
    bind_inv Ep as d Ed. bind_inv Ep as ch Ech. bind_inv Ep as pb Epb.
    bind_inv Ep as an Ean. bind_inv Ep as sn Esn.
    by injection Ep as <- <-.
Qed.

Lemma loop_body_path args st line st' :
  loop_body args st line = OK st' ->
  turb_log_file_path (self st') = turb_log_file_path (self st).
Proof.
  unfold loop_body. intros H. bind_inv H as st1 E1. bind_inv H as st2 E2.
  injection H as <-. cbn.
  assert (turb_log_file_path (self st1) = turb_log_file_path (self st)) as H1.
  { destruct (file_writes args); [by apply io_part_path in E1 | by injection E1 as <-]. }
  assert (turb_log_file_path (self st2) = turb_log_file_path (self st1)) as H2.
  { destruct (blocks_flag args); [by apply block_part_path in E2 | by injection E2 as <-]. }
  congruence.
Qed.

Lemma loop_path args lines : forall st st',
  loop args st lines = OK st' ->
  turb_log_file_path (self st') = turb_log_file_path (self st).
Proof.
  induction lines as [|line rest IH]; intros st st' H.
  - by injection H as <-.
  - cbn [loop] in H. bind_inv H as st1 E1. rewrite (IH _ _ H). by eapply loop_body_path.
Qed.

Lemma main_file_path args dbg file lines st :
  main_file args dbg file lines = OK st -> turb_log_file_path (self st) = file.
Proof.
  intros H. destruct (main_file_OK _ _ _ _ _ H) as (sf & Hc & _ & _ & _ & Hl).
  apply loop_path in Hl. apply compute_sim_parameters_path in Hc.
  rewrite Hl. cbn [enter alloc self]. by rewrite Hc.
Qed.

(** ** The frames of [create_dataset] *)

Lemma mapM_result {A B : Type} (f : A -> result B) (l : list A) :
  Forall (fun x => exists y, f x = OK y) l ->
  exists ys, mapM f l = OK ys /\ Forall2 (fun x y => f x = OK y) l ys.
Proof.
  induction 1 as [|x l [y Hy] _ (ys & IH1 & IH2)].
  - exists []. split; [done | constructor].
  - exists (y :: ys). split; [|by constructor].
    cbn [mapM]. by rewrite Hy, bind_ret, IH1.
Qed.

(** The cells of the records of a dictionary whose keys are the numbers
    below [n], when each record gives a row. *)
Lemma frames_dense (m : gmap Z loc) (n : Z) (x : string) (cell : loc -> result (list value)) :
  (forall k, is_Some (m !! k) <-> 0 <= k < n) -> 0 <= n ->
  (forall k l, m !! k = Some l -> exists row, cell l = OK row) ->
  exists ys,
    mapM (fun '(key, l) => _ ← np_getitem (Z.of_nat (size m)) x key; cell l) (dict_items m)
      = OK ys /\
    Z.of_nat (length ys) = n /\
    forall k l, m !! k = Some l -> exists row, cell l = OK row /\ ys !! Z.to_nat k = Some row.
Proof.
  intros Hm Hn Hcell.
  pose proof (dict_items_dense _ _ Hm) as Hitems.
  pose proof (size_dense _ _ Hm) as Hsize.
  set (f := fun '(key, l) => _ ← np_getitem (Z.of_nat (size m)) x key; cell l).
  assert (forall k l, m !! k = Some l -> f (k, l) = cell l) as Hf.
  { intros k l Hk. unfold f, np_getitem.
    assert (0 <= k < n) as Hr by (apply Hm; by eexists).
    rewrite Hsize, Z2Nat.id by done.
    destruct (andb_true_iff (- n <=? k) (k <? n)) as [_ ->]; [by rewrite bind_ret|].
    split; [apply Z.leb_le | apply Z.ltb_lt]; lia. }
  destruct (mapM_result f (dict_items m)) as (ys & Hys & Hall).
  { apply Forall_forall. intros [k l] Hin.
    apply list_elem_of_lookup in Hin as [i Hi].
    destruct (Forall2_lookup_r _ _ _ _ _ Hitems Hi) as (k' & _ & Hk' & Hl). cbn in Hk', Hl.
    subst k'. rewrite (Hf _ _ Hl). by eapply Hcell. }
  exists ys. split; [done|].
  pose proof (Forall2_length _ _ _ Hitems) as Hlen1.
  pose proof (Forall2_length _ _ _ Hall) as Hlen2.
  rewrite length_seqZ in Hlen1. split; [lia|].
  intros k l Hk. assert (0 <= k < n) as Hr by (apply Hm; by eexists).
  assert (seqZ 0 n !! Z.to_nat k = Some k) as Hseq.
  { rewrite lookup_seqZ. split; lia. }
  destruct (Forall2_lookup_l _ _ _ _ _ Hitems Hseq) as ([k' l'] & Hi & Hk' & Hl').
  cbn in Hk', Hl'. subst k'. rewrite Hk in Hl'. injection Hl' as <-.
  destruct (Forall2_lookup_l _ _ _ _ _ Hall Hi) as (row & Hrow & Hfrow).
  exists row. split; [|done]. by rewrite <- (Hf _ _ Hk).
Qed.

Lemma stored_block_row sf pre st k l :
  stored_block sf pre st k l ->
  exists row, (b ← get_block (heap st) l; block_row b) = OK row.
Proof.
  intros (b & wl & dl & ts & ds & t0 & tn & n & pb & s & Hl & _ & _ & _ & _ & _ & _ & _ & _ &
          _ & _ & _ & _ & F).
  rewrite (proj2 (get_block_OK _ _ _) Hl), bind_ret.
  destruct F as [_ _ _ _ Fs _ Fc _ _ _ _ Fan Fsn].
  unfold block_row, block_core_hrs. rewrite Fc, Fan, Fsn, Fs. cbn. by eexists.
Qed.

Lemma stored_event_row sf pre st k l :
  stored_event sf pre st k l ->
  exists row, (e ← get_fileIO (heap st) l; fileIO_row e) = OK row.
Proof.
  intros (t_o & t_c & norm & i & j & lo & lc & Hl & _).
  rewrite (proj2 (get_fileIO_OK _ _ _) Hl), bind_ret. cbn. by eexists.
Qed.

(** ** The file-I/O tracker, evaluated *)

(** The object the tracker works on when it meets a marker line: the
    tracked one, or a new one at the end of the heap. *)
Lemma io_part_eval sf pre st line :
  InvIO sf pre st -> is_marker line = true ->
  exists l e h0,
    (if write st then fileIO st = Some l /\ h0 = heap st
     else l = length (heap st) /\
          h0 = heap st ++ [OFileIO (FileIO.init (IO_id_counter st))] /\
          e = FileIO.init (IO_id_counter st)) /\
    h0 !! l = Some (OFileIO e) /\
    not_stored (fileIOs (self st)) l /\
    (forall l' o, heap st !! l' = Some o -> h0 !! l' = Some o) /\
    ((e = FileIO.init (IO_id_counter st) /\
      io_part st line =
        (t ← line_wall_time line;
         if Re.found (Re.lit "open:") line then
           OK (set_io (self st) (<[l := OFileIO (opened_event (IO_id_counter st) t)]> h0)
                 true (IO_id_counter st) (Some l) st)
         else if Re.found (Re.lit "close:") line then Raise TypeError
         else OK (set_io (self st) h0 true (IO_id_counter st) (Some l) st))) \/
     (exists t0, e = opened_event (IO_id_counter st) t0 /\
      io_part st line =
        (t ← line_wall_time line;
         if Re.found (Re.lit "open:") line then
           OK (set_io (self st) (<[l := OFileIO (opened_event (IO_id_counter st) t)]> h0)
                 true (IO_id_counter st) (Some l) st)
         else if Re.found (Re.lit "close:") line then
           if debug (self st) then Raise TypeError
           else
             norm ← py_truediv (VFloat (total_seconds (t - t0))) (n_cells_per_block (self st));
             OK (set_io (set_fileIOs (<[IO_id_counter st := l]> (fileIOs (self st))) (self st))
                   (<[l := OFileIO (closed_event (IO_id_counter st) t0 t
                                      (if Re.found (Re.lit "IO_writeCheckpoint") line
                                       then "chk" else "plt") norm)]> h0)
                   false (IO_id_counter st + 1) (Some l) st)
         else OK (set_io (self st) h0 true (IO_id_counter st) (Some l) st)))).
Proof.
  intros HI Hm. unfold io_part.
  pose proof Hm as Hm'. unfold is_marker in Hm'. rewrite Hm'.
  destruct (write st) eqn:Hw.
  - destruct (tracked_object _ _ _ HI Hw) as (l & e & Hf & Hl & Hns & He).
    exists l, e, (heap st). split_and!; [done..|].
    rewrite Hf. cbn [bound]. rewrite bind_ret. unfold search_file_write_stats.
    destruct He as [-> | [t0 ->]]; [left; split; [done|] | right; exists t0; split; [done|]].
    + destruct (line_wall_time line) as [t|ex]; [|done]. rewrite !bind_ret.
      rewrite (proj2 (get_fileIO_OK _ _ _) Hl), !bind_ret.
      destruct (Re.found (Re.lit "open:") line).
      * rewrite on_open_init, !bind_ret.
        rewrite (proj2 (get_fileIO_OK _ _ _) (insert_lookup_same _ _ _ _ Hl)), bind_ret.
        done.
      * destruct (Re.found (Re.lit "close:") line).
        -- by rewrite on_close_init.
        -- rewrite bind_ret, (proj2 (get_fileIO_OK _ _ _) Hl), bind_ret. done.
    + destruct (line_wall_time line) as [t|ex]; [|done]. rewrite !bind_ret.
      rewrite (proj2 (get_fileIO_OK _ _ _) Hl), !bind_ret.
      destruct (Re.found (Re.lit "open:") line).
      * rewrite on_open_open by done. rewrite !bind_ret.
        rewrite (proj2 (get_fileIO_OK _ _ _) (insert_lookup_same _ _ _ _ Hl)), bind_ret.
        done.
      * destruct (Re.found (Re.lit "close:") line).
        -- rewrite on_close_opened. destruct (debug (self st)); [done|]. rewrite !bind_ret.
           rewrite (proj2 (get_fileIO_OK _ _ _) (insert_lookup_same _ _ _ _ Hl)), bind_ret.
           cbn [closed_event FileIO.close FileIO.set_file_type FileIO.wall_time].
           destruct (py_truediv (VFloat (total_seconds (t - t0))) (n_cells_per_block (self st)))
             as [norm|ex]; [|done].
           rewrite !bind_ret, list_insert_insert_eq. done.
        -- rewrite bind_ret, (proj2 (get_fileIO_OK _ _ _) Hl), bind_ret. done.
  - pose proof (alloc_lookup_new (OFileIO (FileIO.init (IO_id_counter st))) (heap st)) as Hl.
    exists (length (heap st)), (FileIO.init (IO_id_counter st)),
           (heap st ++ [OFileIO (FileIO.init (IO_id_counter st))]).
    split_and!; [done | done | done | done | | |].
    + intros k Hk. apply (ii_stored _ _ _ HI), stored_lt in Hk. lia.
    + intros l' o Hl'. by apply alloc_lookup_old.
    + left. split; [done|]. cbn [alloc]. unfold search_file_write_stats.
      destruct (line_wall_time line) as [t|ex]; [|done]. rewrite !bind_ret.
      rewrite (proj2 (get_fileIO_OK _ _ _) Hl), !bind_ret.
      destruct (Re.found (Re.lit "open:") line).
      * rewrite on_open_init, !bind_ret. done.
      * destruct (Re.found (Re.lit "close:") line).
        -- by rewrite on_close_init.
        -- rewrite bind_ret. done.
Qed.

(** ** Two passes agree on the file-I/O side *)

Lemma fileIO_at_Some (h : list obj) (l : loc) (e : FileIO.t) :
  h !! l = Some (OFileIO e) -> fileIO_at h (Some l) = Some e.
Proof. intros H. unfold fileIO_at. cbn. by rewrite H. Qed.

Lemma fileIO_at_keep (h h' : list obj) (o : option loc) :
  (forall l, o = Some l -> h' !! l = h !! l) -> fileIO_at h' o = fileIO_at h o.
Proof. intros H. destruct o as [l|]; [|done]. unfold fileIO_at. cbn. by rewrite H. Qed.

(** The stored events seen through a heap that the tracker has worked on. *)
Lemma stored_keep sf pre st l o h0 k :
  InvIO sf pre st -> not_stored (fileIOs (self st)) l ->
  (forall l' o, heap st !! l' = Some o -> h0 !! l' = Some o) ->
  fileIO_at (<[l := o]> h0) (fileIOs (self st) !! k) =
  fileIO_at (heap st) (fileIOs (self st) !! k) /\
  fileIO_at h0 (fileIOs (self st) !! k) = fileIO_at (heap st) (fileIOs (self st) !! k).
Proof.
  intros HI Hns Hfr.
  assert (forall lk, fileIOs (self st) !! k = Some lk ->
            exists e, heap st !! lk = Some (OFileIO e) /\ lk ≠ l) as Hst.
  { intros lk Hk. destruct (ii_stored _ _ _ HI _ _ Hk) as (? & ? & ? & ? & ? & ? & ? & Hl & _).
    eexists. split; [done|]. intros ->. by apply (Hns k). }
  split; apply fileIO_at_keep; intros lk Hk; destruct (Hst _ Hk) as (e & He & Hne).
  - rewrite He. apply insert_lookup_other; [by apply Hfr | done].
  - rewrite He. by apply Hfr.
Qed.

Lemma io_part_sim sf sf1 pre st st1 line :
  InvIO sf pre st -> InvIO sf1 pre st1 -> io_sim st st1 ->
  match io_part st line, io_part st1 line with
  | OK a, OK b => io_sim a b
  | Raise e, Raise e1 => e = e1
  | _, _ => False
  end.
Proof.
  intros HI HI1 [Sd Sc Sw Si St Ss].
  destruct (is_marker line) eqn:Hm.
  2:{ rewrite !io_part_not_marker by done. by split. }
  destruct (io_part_eval _ _ _ _ HI Hm) as (l & e & h0 & Hsel & Hl & Hns & Hfr & Hev).
  destruct (io_part_eval _ _ _ _ HI1 Hm) as (l1 & e1 & h1 & Hsel1 & Hl1 & Hns1 & Hfr1 & Hev1).
  assert (e1 = e) as ->.
  { rewrite <- Sw in Hsel1. destruct (write st) eqn:Hw.
    - destruct Hsel as [Hf ->]. destruct Hsel1 as [Hf1 ->].
      specialize (St eq_refl). rewrite Hf, Hf1 in St.
      rewrite (fileIO_at_Some _ _ _ Hl), (fileIO_at_Some _ _ _ Hl1) in St. congruence.
    - destruct Hsel as (_ & _ & ->). destruct Hsel1 as (_ & _ & ->). by rewrite Si. }
  assert (forall o o1 k,
            fileIO_at (<[l := o]> h0) (fileIOs (self st) !! k) =
            fileIO_at (<[l1 := o1]> h1) (fileIOs (self st1) !! k)) as Hins.
  { intros o o1 k.
    rewrite (proj1 (stored_keep _ _ _ _ o _ k HI Hns Hfr)).
    rewrite (proj1 (stored_keep _ _ _ _ o1 _ k HI1 Hns1 Hfr1)). apply Ss. }
  assert (forall k, fileIO_at h0 (fileIOs (self st) !! k) =
                    fileIO_at h1 (fileIOs (self st1) !! k)) as Hsame.
  { intros k.
    rewrite (proj2 (stored_keep _ _ _ _ (OFileIO e) _ k HI Hns Hfr)).
    rewrite (proj2 (stored_keep _ _ _ _ (OFileIO e) _ k HI1 Hns1 Hfr1)). apply Ss. }
  assert (forall x, fileIO_at (<[l := OFileIO x]> h0) (Some l) =
                    fileIO_at (<[l1 := OFileIO x]> h1) (Some l1)) as Hnew.
  { intros x. erewrite !fileIO_at_Some; [done | by eapply insert_lookup_same..]. }
  assert (io_part st line = Raise TypeError -> io_part st1 line = Raise TypeError ->
          match io_part st line, io_part st1 line with
          | OK a, OK b => io_sim a b
          | Raise e, Raise e1 => e = e1
          | _, _ => False
          end) as Hraise.
  { by intros -> ->. }
  destruct Hev as [[He Hev] | (t0 & He & Hev)], Hev1 as [[He1 Hev1] | (t1 & He1 & Hev1)];
    try (rewrite He in He1; discriminate).
  - rewrite Hev, Hev1. destruct (line_wall_time line) as [t|ex]; [|done]. rewrite !bind_ret.
    destruct (Re.found (Re.lit "open:") line).
    + split; cbn [set_io set_fileIOs self heap write IO_id_counter fileIO fileIOs debug n_cells_per_block]; try done. intros _. rewrite Si. apply Hnew.
    + destruct (Re.found (Re.lit "close:") line); [done|].
      split; cbn [set_io set_fileIOs self heap write IO_id_counter fileIO fileIOs debug n_cells_per_block]; try done. intros _. by erewrite !fileIO_at_Some.
  - rewrite He in He1. injection He1 as <-.
    rewrite Hev, Hev1. destruct (line_wall_time line) as [t|ex]; [|done]. rewrite !bind_ret.
    destruct (Re.found (Re.lit "open:") line).
    + split; cbn [set_io set_fileIOs self heap write IO_id_counter fileIO fileIOs debug n_cells_per_block]; try done. intros _. rewrite Si. apply Hnew.
    + destruct (Re.found (Re.lit "close:") line).
      * rewrite <- Sd, <- Sc. destruct (debug (self st)) eqn:Hd; [done|].
        destruct (py_truediv (VFloat (total_seconds (t - t0))) (n_cells_per_block (self st)))
          as [norm|ex]; [|done].
        rewrite !bind_ret. split; cbn [set_io set_fileIOs self heap write IO_id_counter fileIO fileIOs debug n_cells_per_block]; try done; [congruence | lia |].
        intros k. rewrite <- Si. destruct (decide (IO_id_counter st = k)) as [<-|Hne].
        -- rewrite !lookup_insert_eq. apply Hnew.
        -- rewrite !lookup_insert_ne by done. apply Hins.
      * split; cbn [set_io set_fileIOs self heap write IO_id_counter fileIO fileIOs debug n_cells_per_block]; try done. intros _. by erewrite !fileIO_at_Some.
Qed.

(** ** Two passes agree on the block side *)

Lemma block_at_Some (h : list obj) (l : loc) (b : Block.t) :
  h !! l = Some (OBlock b) -> block_at h (Some l) = Some b.
Proof. intros H. unfold block_at. cbn. by rewrite H. Qed.

Lemma times_at_Some (h : list obj) (l : loc) (ts : list Z) :
  h !! l = Some (OTimes ts) -> times_at h l = Some ts.
Proof. intros H. unfold times_at. by rewrite H. Qed.

Lemma dts_at_Some (h : list obj) (l : loc) (ds : list pyfloat) :
  h !! l = Some (ODts ds) -> dts_at h l = Some ds.
Proof. intros H. unfold dts_at. by rewrite H. Qed.

(** The stored blocks and their lists, seen through a heap that agrees
    with the heap of the state outside the two current lists and the
    block being accumulated. *)
Lemma stored_blocks_keep sf pre c st h' k :
  InvBlk sf pre c st ->
  (forall l o, heap st !! l = Some o -> ~ is_fileIO o ->
     l ≠ wall_time_list st -> l ≠ dt_list st ->
     (chunk st = true -> block st ≠ Some l) -> h' !! l = Some o) ->
  block_at h' (blocks (self st) !! k) = block_at (heap st) (blocks (self st) !! k) /\
  block_lists h' <$> block_at h' (blocks (self st) !! k) =
  block_lists (heap st) <$> block_at (heap st) (blocks (self st) !! k).
Proof.
  intros HB Hh. destruct HB as [_ [ts Hts] [ds Hds] _ Hopen Hstored _].
  destruct (blocks (self st) !! k) as [l|] eqn:Hk; [|done].
  destruct (Hstored _ _ Hk)
    as (b & wl & dl & tsk & dsk & t0 & tn & n & pb & s & Hl & Hwl & Hdl & Hnw & Hnd & _ & _ &
        _ & _ & _ & _ & _ & _ & F).
  assert (forall l' o, heap st !! l' = Some o -> (exists x, o = OTimes x) \/ (exists x, o = ODts x) ->
            chunk st = true -> block st ≠ Some l') as Hlist.
  { intros l' o Hl' Hkind Hch Hb.
    destruct (Hopen Hch) as (l0 & ts0 & t00 & s0 & Hb0 & Hl0 & _).
    rewrite Hb in Hb0. injection Hb0 as <-. rewrite Hl0 in Hl'.
    destruct Hkind as [[y ->] | [y ->]]; discriminate. }
  assert (h' !! l = Some (OBlock b)) as Hl'.
  { apply Hh; [done | by intros [? ?] | congruence | congruence |].
    intros Hch Hb. destruct (Hopen Hch) as (l0 & ts0 & t00 & s0 & Hb0 & _ & Hns & _).
    rewrite Hb in Hb0. injection Hb0 as <-. by apply (Hns k). }
  assert (h' !! wl = Some (OTimes tsk)) as Hwl'.
  { apply Hh; [done | by intros [? ?] | done | congruence | eapply Hlist; eauto]. }
  assert (h' !! dl = Some (ODts dsk)) as Hdl'.
  { apply Hh; [done | by intros [? ?] | congruence | done | eapply Hlist; eauto]. }
  rewrite (block_at_Some _ _ _ Hl), (block_at_Some _ _ _ Hl'). split; [done|]. cbn.
  unfold block_lists. rewrite (bf_wall_time _ _ _ _ _ _ _ _ _ _ F), (bf_dt _ _ _ _ _ _ _ _ _ _ F).
  by rewrite (times_at_Some _ _ _ Hwl), (times_at_Some _ _ _ Hwl'),
    (dts_at_Some _ _ _ Hdl), (dts_at_Some _ _ _ Hdl').
Qed.

(** [process_block_statistics] on the same block and the same times. *)
Lemma process_block_statistics_sim sf sf1 h h1 bl bl1 wl wl1 dl dl1 c k b0 ts :
  n_cores sf = n_cores sf1 -> n_cells_per_block sf = n_cells_per_block sf1 ->
  h !! bl = Some (OBlock b0) -> h1 !! bl1 = Some (OBlock b0) ->
  h !! wl = Some (OTimes ts) -> h1 !! wl1 = Some (OTimes ts) ->
  match process_block_statistics sf h bl wl c dl k,
        process_block_statistics sf1 h1 bl1 wl1 c dl1 k with
  | OK (sf', h'), OK (sf1', h1') =>
      exists b' b1',
        sf' = set_blocks (<[k := bl]> (blocks sf)) sf /\ h' = <[bl := OBlock b']> h /\
        sf1' = set_blocks (<[k := bl1]> (blocks sf1)) sf1 /\ h1' = <[bl1 := OBlock b1']> h1 /\
        forget_lists b' = forget_lists b1' /\
        Block.wall_time b' = VRef wl /\ Block.dt b' = VRef dl /\
        Block.wall_time b1' = VRef wl1 /\ Block.dt b1' = VRef dl1
  | Raise e, Raise e1 => e = e1
  | _, _ => False
  end.
Proof.
  intros Hn Hc Hb Hb1 Hts Hts1. unfold process_block_statistics.
  rewrite (proj2 (get_times_OK _ _ _) Hts), (proj2 (get_times_OK _ _ _) Hts1), !bind_ret.
  rewrite (proj2 (get_block_OK _ _ _) Hb), (proj2 (get_block_OK _ _ _) Hb1), !bind_ret.
  destruct (last ts) as [tn|]; [|done]. rewrite !bind_ret.
  destruct (datetime_sub tn (Block.start_date b0)) as [d|e]; [|done]. rewrite !bind_ret.
  rewrite <- Hn, <- Hc.
  destruct (mul_int d (n_cores sf)) as [ch|e]; [|done]. rewrite !bind_ret.
  destruct (n_cells_per_block sf) as [pb|]; [|done]. rewrite !bind_ret.
  unfold np_truediv. destruct (fits_double pb); [|done]. rewrite !bind_ret.
  eexists _, _. split_and!; reflexivity.
Qed.

Ltac simpl_blk :=
  cbn [set_blk set_blocks self heap chunk block_id_counter cnt wall_time_list dt_list block
       blocks n_cores n_cells_per_block].

(** A step line, on a heap [h0] that holds the two current lists. *)
Lemma step_line_heap (h0 : list obj) (wl dl : loc) (ts : list Z) (ds : list pyfloat)
    (t : Z) (dt : pyfloat) :
  h0 !! wl = Some (OTimes ts) -> h0 !! dl = Some (ODts ds) ->
  append_time h0 wl t = OK (<[wl := OTimes (ts ++ [t])]> h0) /\
  append_dt (<[wl := OTimes (ts ++ [t])]> h0) dl dt =
    OK (<[dl := ODts (ds ++ [dt])]> (<[wl := OTimes (ts ++ [t])]> h0)) /\
  <[dl := ODts (ds ++ [dt])]> (<[wl := OTimes (ts ++ [t])]> h0) !! wl = Some (OTimes (ts ++ [t])) /\
  <[dl := ODts (ds ++ [dt])]> (<[wl := OTimes (ts ++ [t])]> h0) !! dl = Some (ODts (ds ++ [dt])) /\
  forall l o, h0 !! l = Some o -> l ≠ wl -> l ≠ dl ->
    <[dl := ODts (ds ++ [dt])]> (<[wl := OTimes (ts ++ [t])]> h0) !! l = Some o.
Proof.
  intros Hts Hds. assert (wl ≠ dl) as Hne by (intros ->; congruence).
  assert (<[wl := OTimes (ts ++ [t])]> h0 !! dl = Some (ODts ds)) as Hds'.
  { by apply insert_lookup_other. }
  split_and!.
  - unfold append_time. by rewrite (proj2 (get_times_OK _ _ _) Hts), !bind_ret.
  - unfold append_dt. by rewrite (proj2 (get_dts_OK _ _ _) Hds'), !bind_ret.
  - apply insert_lookup_other; [by eapply insert_lookup_same | done].
  - by eapply insert_lookup_same.
  - intros l o Hl H1 H2. apply insert_lookup_other; [|done]. by apply insert_lookup_other.
Qed.

Lemma block_part_sim sf sf2 pre pre2 st st2 line :
  InvBlk sf pre (cnt st) st -> InvBlk sf2 pre2 (cnt st2) st2 -> blk_sim st st2 ->
  match block_part st line, block_part st2 line with
  | OK a, OK b => blk_sim a b
  | Raise e, Raise e1 => e = e1
  | _, _ => False
  end.
Proof.
  intros HB HB2 HS. pose proof HS as [Sn Sc Sch Sid Scnt Sts Sds Sop Sst].
  pose proof HB as [_ [ts Hts] [ds Hds] _ Hopen _ _].
  pose proof HB2 as [_ [ts2 Hts2] [ds2 Hds2] _ Hopen2 _ _].
  rewrite (times_at_Some _ _ _ Hts), (times_at_Some _ _ _ Hts2) in Sts.
  rewrite (dts_at_Some _ _ _ Hds), (dts_at_Some _ _ _ Hds2) in Sds.
  assert (ts2 = ts) as -> by congruence. assert (ds2 = ds) as -> by congruence.
  unfold block_part. destruct (search_walltime line) as [[[t dt]|]|e]; [| |done];
    rewrite !bind_ret; rewrite <- Sch.
  - (* a step line *)
    destruct (chunk st) eqn:Hch.
    + destruct (step_line_heap _ _ _ _ _ t dt Hts Hds) as (E & E' & Hwl & Hdl & Hoth).
      destruct (step_line_heap _ _ _ _ _ t dt Hts2 Hds2) as (E2 & E2' & Hwl2 & Hdl2 & Hoth2).
      rewrite E, E2, !bind_ret, E', E2', !bind_ret.
      destruct (Hopen eq_refl) as (l & ts0 & t0 & s & Hb & Hl & _).
      destruct (Hopen2 (eq_trans (eq_sym Sch) eq_refl)) as (l2 & ts02 & t02 & s2 & Hb2 & Hl2 & _).
      split; simpl_blk; try done.
      * by rewrite (times_at_Some _ _ _ Hwl), (times_at_Some _ _ _ Hwl2).
      * by rewrite (dts_at_Some _ _ _ Hdl), (dts_at_Some _ _ _ Hdl2).
      * intros _. specialize (Sop eq_refl). rewrite Hb, Hb2 in *.
        rewrite (block_at_Some _ _ _ Hl), (block_at_Some _ _ _ Hl2) in Sop.
        assert (wall_time_list st ≠ l) by (intros <-; congruence).
        assert (dt_list st ≠ l) by (intros <-; congruence).
        assert (wall_time_list st2 ≠ l2) by (intros <-; congruence).
        assert (dt_list st2 ≠ l2) by (intros <-; congruence).
        rewrite (block_at_Some _ _ _ (Hoth _ _ Hl ltac:(done) ltac:(done))).
        by rewrite (block_at_Some _ _ _ (Hoth2 _ _ Hl2 ltac:(done) ltac:(done))).
      * intros k.
        destruct (stored_blocks_keep _ _ _ _
                    (<[dt_list st:=ODts (ds ++ [dt])]>
                       (<[wall_time_list st:=OTimes (ts ++ [t])]> (heap st))) k HB) as [K1 K2].
        { intros l' o Hl' _ H1 H2 _. by apply Hoth. }
        destruct (stored_blocks_keep _ _ _ _
                    (<[dt_list st2:=ODts (ds ++ [dt])]>
                       (<[wall_time_list st2:=OTimes (ts ++ [t])]> (heap st2))) k HB2) as [K3 K4].
        { intros l' o Hl' _ H1 H2 _. by apply Hoth2. }
        rewrite K2, K4, K1, K3. apply Sst.
    + cbn [alloc].
      set (nb := new_block (block_id_counter st) t (cnt st)).
      set (nb2 := new_block (block_id_counter st2) t (cnt st2)).
      assert (nb2 = nb) as Hnb by (unfold nb, nb2; congruence).
      destruct (step_line_heap (heap st ++ [OBlock nb]) _ _ _ _ t dt
                  (alloc_lookup_old _ _ _ _ Hts) (alloc_lookup_old _ _ _ _ Hds))
        as (E & E' & Hwl & Hdl & Hoth).
      destruct (step_line_heap (heap st2 ++ [OBlock nb2]) _ _ _ _ t dt
                  (alloc_lookup_old _ _ _ _ Hts2) (alloc_lookup_old _ _ _ _ Hds2))
        as (E2 & E2' & Hwl2 & Hdl2 & Hoth2).
      rewrite E, E2, !bind_ret, E', E2', !bind_ret.
      pose proof (lookup_lt_Some _ _ _ Hts) as Lw. pose proof (lookup_lt_Some _ _ _ Hds) as Ld.
      pose proof (lookup_lt_Some _ _ _ Hts2) as Lw2. pose proof (lookup_lt_Some _ _ _ Hds2) as Ld2.
      split; simpl_blk; try done.
      * by rewrite (times_at_Some _ _ _ Hwl), (times_at_Some _ _ _ Hwl2).
      * by rewrite (dts_at_Some _ _ _ Hdl), (dts_at_Some _ _ _ Hdl2).
      * intros _.
        assert (<[dt_list st:=ODts (ds ++ [dt])]>
                  (<[wall_time_list st:=OTimes (ts ++ [t])]> (heap st ++ [OBlock nb]))
                  !! length (heap st) = Some (OBlock nb)) as H1.
        { apply Hoth; [apply alloc_lookup_new | lia | lia]. }
        assert (<[dt_list st2:=ODts (ds ++ [dt])]>
                  (<[wall_time_list st2:=OTimes (ts ++ [t])]> (heap st2 ++ [OBlock nb2]))
                  !! length (heap st2) = Some (OBlock nb2)) as H2.
        { apply Hoth2; [apply alloc_lookup_new | lia | lia]. }
        by rewrite (block_at_Some _ _ _ H1), (block_at_Some _ _ _ H2), Hnb.
      * intros k.
        destruct (stored_blocks_keep _ _ _ _
                    (<[dt_list st:=ODts (ds ++ [dt])]>
                       (<[wall_time_list st:=OTimes (ts ++ [t])]> (heap st ++ [OBlock nb]))) k HB)
          as [K1 K2].
        { intros l' o Hl' _ H1 H2 _. apply Hoth; [by apply alloc_lookup_old | done..]. }
        destruct (stored_blocks_keep _ _ _ _
                    (<[dt_list st2:=ODts (ds ++ [dt])]>
                       (<[wall_time_list st2:=OTimes (ts ++ [t])]> (heap st2 ++ [OBlock nb2]))) k HB2)
          as [K3 K4].
        { intros l' o Hl' _ H1 H2 _. apply Hoth2; [by apply alloc_lookup_old | done..]. }
        rewrite K2, K4, K1, K3. apply Sst.
  - (* a line that is not a step line *)
    destruct (chunk st) eqn:Hch; [|done].
    destruct (Hopen eq_refl) as (l & ts0 & t0 & s & Hb & Hl & Hns & _).
    destruct (Hopen2 (eq_trans (eq_sym Sch) eq_refl)) as (l2 & ts02 & t02 & s2 & Hb2 & Hl2 & Hns2 & _).
    specialize (Sop eq_refl). rewrite Hb, Hb2 in *.
    rewrite (block_at_Some _ _ _ Hl), (block_at_Some _ _ _ Hl2) in Sop.
    assert (heap st2 !! l2 = Some (OBlock (new_block (block_id_counter st) t0 s))) as Hl2'.
    { rewrite Hl2. congruence. }
    clear Hl2. rename Hl2' into Hl2.
    cbn [bound]. rewrite !bind_ret, <- Sid, <- Scnt.
    pose proof (process_block_statistics_sim (self st) (self st2) (heap st) (heap st2) l l2
                  (wall_time_list st) (wall_time_list st2) (dt_list st) (dt_list st2)
                  (cnt st) (block_id_counter st) _ ts Sn Sc Hl Hl2 Hts Hts2) as Hp.
    destruct (process_block_statistics (self st) (heap st) l (wall_time_list st) (cnt st)
                (dt_list st) (block_id_counter st)) as [[sf' h']|e];
      destruct (process_block_statistics (self st2) (heap st2) l2 (wall_time_list st2) (cnt st)
                  (dt_list st2) (block_id_counter st)) as [[sf2' h2']|e2]; try done.
    destruct Hp as (b' & b2' & -> & -> & -> & -> & Hfg & Hw & Hd & Hw2 & Hd2).
    rewrite !bind_ret. cbn [alloc].
    assert (forall (h : list obj) (bl : loc) (b : Block.t) (l' : loc) (o : obj),
              h !! l' = Some o -> l' ≠ bl ->
              ((<[bl := OBlock b]> h ++ [OTimes []]) ++ [ODts []]) !! l' = Some o) as Hold.
    { intros h bl b l' o Hl' Hne. apply alloc_lookup_old, alloc_lookup_old.
      by apply insert_lookup_other. }
    assert (forall (h : list obj) (bl : loc) (b bx : Block.t),
              h !! bl = Some (OBlock bx) ->
              ((<[bl := OBlock b]> h ++ [OTimes []]) ++ [ODts []]) !! bl = Some (OBlock b)) as Hnew.
    { intros h bl b bx Hbl. apply alloc_lookup_old, alloc_lookup_old.
      by eapply insert_lookup_same. }
    split; simpl_blk; try done.
    + rewrite (times_at_Some _ _ []), (times_at_Some _ _ []); [done | |];
        apply alloc_lookup_old, alloc_lookup_new.
    + rewrite (dts_at_Some _ _ []), (dts_at_Some _ _ []); [done | |]; apply alloc_lookup_new.
    + intros k. destruct (decide (block_id_counter st = k)) as [<-|Hne].
      * rewrite !lookup_insert_eq.
        rewrite (block_at_Some _ _ _ (Hnew _ _ b' _ Hl)), (block_at_Some _ _ _ (Hnew _ _ b2' _ Hl2)).
        cbn [fmap option_fmap option_map]. split; [by rewrite Hfg|].
        unfold block_lists. rewrite Hw, Hd, Hw2, Hd2.
        assert (wall_time_list st ≠ l) by (intros <-; congruence).
        assert (dt_list st ≠ l) by (intros <-; congruence).
        assert (wall_time_list st2 ≠ l2) by (intros <-; congruence).
        assert (dt_list st2 ≠ l2) by (intros <-; congruence).
        by rewrite (times_at_Some _ _ _ (Hold _ l b' _ _ Hts ltac:(done))),
          (times_at_Some _ _ _ (Hold _ l2 b2' _ _ Hts2 ltac:(done))),
          (dts_at_Some _ _ _ (Hold _ l b' _ _ Hds ltac:(done))),
          (dts_at_Some _ _ _ (Hold _ l2 b2' _ _ Hds2 ltac:(done))).
      * rewrite !lookup_insert_ne by done.
        destruct (stored_blocks_keep _ _ _ _
                    ((<[l := OBlock b']> (heap st) ++ [OTimes []]) ++ [ODts []]) k HB) as [K1 K2].
        { intros l' o Hl' _ _ _ Hopen'. apply Hold; [done|]. intros ->. by apply Hopen'. }
        destruct (stored_blocks_keep _ _ _ _
                    ((<[l2 := OBlock b2']> (heap st2) ++ [OTimes []]) ++ [ODts []]) k HB2) as [K3 K4].
        { intros l' o Hl' _ _ _ Hopen'. apply Hold; [done|]. intros ->.
          apply Hopen'; [congruence | done]. }
        rewrite K2, K4, K1, K3. apply Sst.
Qed.

(** ** The two trackers side by side *)

Lemma fileIO_at_frame (h h' : list obj) (o : option loc) :
  (forall l e, h' !! l = Some (OFileIO e) <-> h !! l = Some (OFileIO e)) ->
  fileIO_at h' o = fileIO_at h o.
Proof.
  intros H. destruct o as [l|]; [|done]. unfold fileIO_at. cbn.
  destruct (h !! l) as [[e| | |]|] eqn:E.
  - by rewrite (proj2 (H l e) E).
  - destruct (h' !! l) as [[e'| | |]|] eqn:E'; try done.
    apply H in E'. congruence.
  - destruct (h' !! l) as [[e'| | |]|] eqn:E'; try done.
    apply H in E'. congruence.
  - destruct (h' !! l) as [[e'| | |]|] eqn:E'; try done.
    apply H in E'. congruence.
  - destruct (h' !! l) as [[e'| | |]|] eqn:E'; try done.
    apply H in E'. congruence.
Qed.

(** The block tracker does not change what the file-I/O side shows. *)
Lemma io_sim_blk_frame st st' st1 :
  blk_frame st st' -> io_sim st st1 -> io_sim (set_cnt (cnt st' + 1) st') st1.
Proof.
  intros [Hf (_ & Hc & Hd) (Hw & Hi & Hfio & _) Hh _] [Sd Sc Sw Si St Ss].
  split; cbn [set_cnt self heap write IO_id_counter fileIO]; try congruence.
  - intros Hw'. rewrite Hfio, (fileIO_at_frame _ _ _ Hh). apply St. congruence.
  - intros k. rewrite Hf, (fileIO_at_frame _ _ _ Hh). apply Ss.
Qed.

Lemma io_sim_set_cnt_r st st1 n : io_sim st st1 -> io_sim st (set_cnt n st1).
Proof. intros [Sd Sc Sw Si St Ss]. by split. Qed.

Lemma io_sim_sym st st1 : io_sim st st1 -> io_sim st1 st.
Proof.
  intros [Sd Sc Sw Si St Ss]. split; try done.
  - intros Hw. symmetry. apply St. congruence.
Qed.

(** The file-I/O tracker does not change what the block side shows. *)
Lemma blk_sim_io_frame sf pre st st' st2 :
  InvBlk sf pre (cnt st) st -> io_frame st st' -> blk_sim st st2 -> blk_sim st' st2.
Proof.
  intros HB [Hb (Hn & Hc & Hd) (Hch & Hid & Hwl & Hdl & Hbl & Hcnt) Hh _]
    [Sn Sc Sch Sid Scnt Sts Sds Sop Sst].
  pose proof HB as [_ [ts Hts] [ds Hds] _ Hopen _ _].
  split; rewrite ?Hb, ?Hn, ?Hc, ?Hch, ?Hid, ?Hwl, ?Hdl, ?Hbl, ?Hcnt; try done.
  - rewrite <- Sts, (times_at_Some _ _ _ Hts). apply times_at_Some, Hh; [done | by intros [? ?]].
  - rewrite <- Sds, (dts_at_Some _ _ _ Hds). apply dts_at_Some, Hh; [done | by intros [? ?]].
  - intros Hch'. rewrite <- (Sop Hch').
    destruct (Hopen Hch') as (l & ts0 & t0 & s & Hblk & Hl & _).
    rewrite Hblk, (block_at_Some _ _ _ Hl). apply block_at_Some, Hh; [done | by intros [? ?]].
  - intros k. destruct (stored_blocks_keep _ _ _ _ (heap st') k HB) as [K1 K2].
    { intros l o Hl Hno _ _ _. by apply Hh. }
    rewrite K2, K1. apply Sst.
Qed.

Lemma blk_sim_set_cnt st st2 n :
  blk_sim st st2 -> blk_sim (set_cnt (cnt st + n) st) (set_cnt (cnt st2 + n) st2).
Proof.
  intros [Sn Sc Sch Sid Scnt Sts Sds Sop Sst]. split; cbn; try done. by rewrite Scnt.
Qed.

Lemma loop_body_three sf sf1 sf2 pre st st1 st2 line :
  Inv both_on sf pre st -> Inv io_only sf1 pre st1 -> Inv blocks_only sf2 pre st2 ->
  io_sim st st1 -> blk_sim st st2 ->
  match loop_body both_on st line with
  | OK st' =>
      exists st1' st2', loop_body io_only st1 line = OK st1' /\
        loop_body blocks_only st2 line = OK st2' /\ io_sim st' st1' /\ blk_sim st' st2'
  | Raise _ =>
      (exists e, loop_body io_only st1 line = Raise e) \/
      (exists e, loop_body blocks_only st2 line = Raise e)
  end.
Proof.
  intros HInv HInv1 HInv2 Sio Sblk.
  pose proof (io_part_sim _ _ _ _ _ line (inv_io _ _ _ _ HInv) (inv_io _ _ _ _ HInv1) Sio) as Hio.
  unfold loop_body. cbn [both_on io_only blocks_only file_writes blocks_flag].
  rewrite !bind_ret.
  revert Hio.
  destruct (io_part st line) as [stA|e] eqn:EA; destruct (io_part st1 line) as [stA1|e1] eqn:EA1;
    intros Hio; try done.
  2:{ cbn. left. by eexists. }
  destruct (io_part_between both_on _ _ _ line stA HInv EA) as [Hf HBA].
  pose proof (blk_sim_io_frame _ _ _ _ _ (inv_blk _ _ _ _ HInv) Hf Sblk) as SblkA.
  pose proof (inv_blk _ _ _ _ HInv2) as HB2.
  pose proof (block_part_sim _ _ _ _ _ _ line HBA HB2 SblkA) as Hblk.
  rewrite !bind_ret. revert Hblk.
  destruct (block_part stA line) as [stB|e] eqn:EB;
    destruct (block_part st2 line) as [stB2|e2] eqn:EB2; intros Hblk; try done.
  2:{ cbn. right. by eexists. }
  rewrite !bind_ret. eexists _, _. split_and!; [done | done | |].
  - apply io_sim_set_cnt_r. apply (io_sim_blk_frame stA); [|done].
    assert (cnt stA = Z.of_nat (length pre) + 1) as HcA.
    { destruct Hf as [_ _ (_ & _ & _ & _ & _ & ->) _ _]. apply (inv_cnt _ _ _ _ HInv). }
    by destruct (block_part_inv _ _ _ _ _ HBA HcA EB) as (_ & ? & _).
  - by apply blk_sim_set_cnt.
Qed.

Lemma loop_three sf sf1 sf2 lines : forall pre st st1 st2,
  Inv both_on sf pre st -> Inv io_only sf1 pre st1 -> Inv blocks_only sf2 pre st2 ->
  io_sim st st1 -> blk_sim st st2 ->
  match loop both_on st lines with
  | OK st' =>
      exists st1' st2', loop io_only st1 lines = OK st1' /\
        loop blocks_only st2 lines = OK st2' /\ io_sim st' st1' /\ blk_sim st' st2'
  | Raise _ =>
      (exists e, loop io_only st1 lines = Raise e) \/
      (exists e, loop blocks_only st2 lines = Raise e)
  end.
Proof.
  induction lines as [|line rest IH]; intros pre st st1 st2 HInv HInv1 HInv2 Sio Sblk.
  - cbn. by eexists _, _.
  - cbn [loop].
    pose proof (loop_body_three _ _ _ _ _ _ _ line HInv HInv1 HInv2 Sio Sblk) as Hbody.
    destruct (loop_body both_on st line) as [st'|e] eqn:E.
    + destruct Hbody as (st1' & st2' & E1 & E2 & Sio' & Sblk').
      rewrite E1, E2, !bind_ret.
      destruct (loop_body_inv _ _ _ _ _ _ HInv E) as [HInv' _].
      destruct (loop_body_inv _ _ _ _ _ _ HInv1 E1) as [HInv1' _].
      destruct (loop_body_inv _ _ _ _ _ _ HInv2 E2) as [HInv2' _].
      by eapply IH.
    + destruct Hbody as [[e1 H1] | [e2 H2]]; [left; rewrite H1 | right; rewrite H2];
        by eexists.
Qed.

Lemma io_sim_refl st : io_sim st st.
Proof. by split. Qed.

Lemma blk_sim_refl st : blk_sim st st.
Proof. by split. Qed.

(** [main_file] is the loop, once the scan has succeeded. *)
Lemma main_file_loop args dbg file lines :
  main_file args dbg file lines =
  (sf ← compute_sim_parameters (FLASHLogStats_init file dbg "superMUC-NG") lines;
   loop args (enter sf) lines).
Proof.
  unfold main_file.
  destruct (compute_sim_parameters (FLASHLogStats_init file dbg "superMUC-NG") lines)
    as [sf|e] eqn:E; [|done].
  rewrite !bind_ret. unfold deconstruct_log_file.
  destruct (compute_sim_parameters_spec _ _ _ E) as (s0 & x & y & z & n & _ & _ & _ & _ & _ & ->).
  done.
Qed.

(** ** The frames of two passes that agree *)

Lemma block_row_forget (b : Block.t) : block_row (forget_lists b) = block_row b.
Proof. done. Qed.

Lemma frames_eq (m m' : gmap Z loc) (n : Z) (x : string) (cell cell' : loc -> result (list value)) :
  (forall k, is_Some (m !! k) <-> 0 <= k < n) ->
  (forall k, is_Some (m' !! k) <-> 0 <= k < n) -> 0 <= n ->
  (forall k l, m !! k = Some l -> exists row, cell l = OK row) ->
  (forall k l l', m !! k = Some l -> m' !! k = Some l' -> cell l = cell' l') ->
  mapM (fun '(key, l) => _ ← np_getitem (Z.of_nat (size m)) x key; cell l) (dict_items m) =
  mapM (fun '(key, l) => _ ← np_getitem (Z.of_nat (size m')) x key; cell' l) (dict_items m').
Proof.
  intros Hm Hm' Hn Hcell Heq.
  assert (forall k l', m' !! k = Some l' -> exists row, cell' l' = OK row) as Hcell'.
  { intros k l' Hk. assert (is_Some (m !! k)) as [l Hl] by (apply Hm, Hm'; by eexists).
    rewrite <- (Heq _ _ _ Hl Hk). by eapply Hcell. }
  destruct (frames_dense m n x cell Hm Hn Hcell) as (ys & -> & Hlen & Hrow).
  destruct (frames_dense m' n x cell' Hm' Hn Hcell') as (ys' & -> & Hlen' & Hrow').
  f_equal. apply list_eq. intros i.
  destruct (decide (Z.of_nat i < n)) as [Hi|Hi].
  - assert (is_Some (m !! Z.of_nat i)) as [l Hl] by (apply Hm; lia).
    assert (is_Some (m' !! Z.of_nat i)) as [l' Hl'] by (apply Hm'; lia).
    destruct (Hrow _ _ Hl) as (row & Hr & Hy). destruct (Hrow' _ _ Hl') as (row' & Hr' & Hy').
    rewrite Nat2Z.id in Hy, Hy'. rewrite Hy, Hy'.
    rewrite (Heq _ _ _ Hl Hl') in Hr. congruence.
  - rewrite !(proj2 (lookup_ge_None _ _)); [done | lia | lia].
Qed.

Lemma block_data_frame_sim sf sf2 pre st st2 :
  Inv both_on sf pre st -> Inv blocks_only sf2 pre st2 ->
  Tidy both_on pre st -> Tidy blocks_only pre st2 -> blk_sim st st2 ->
  block_data_frame (self st) (heap st) = block_data_frame (self st2) (heap st2).
Proof.
  intros HInv HInv2 HT HT2 HS. unfold block_data_frame.
  pose proof (td_blk_keys _ _ _ HT) as Hk. pose proof (td_blk_keys _ _ _ HT2) as Hk2.
  rewrite <- (bs_counter _ _ HS) in Hk2.
  erewrite (frames_eq _ _ _ _ _ _ Hk Hk2); [done | | |].
  - apply (ib_counter _ _ _ _ (inv_blk _ _ _ _ HInv)).
  - intros k l Hl. eapply stored_block_row. by apply (ib_stored _ _ _ _ (inv_blk _ _ _ _ HInv)).
  - intros k l l' Hl Hl'.
    destruct (ib_stored _ _ _ _ (inv_blk _ _ _ _ HInv) _ _ Hl) as (b & ? & ? & ? & ? & ? & ? & ? & ? & ? & Hb & _).
    destruct (ib_stored _ _ _ _ (inv_blk _ _ _ _ HInv2) _ _ Hl') as (b' & ? & ? & ? & ? & ? & ? & ? & ? & ? & Hb' & _).
    destruct (bs_stored _ _ HS k) as [Hfg _]. rewrite Hl, Hl' in Hfg.
    rewrite (block_at_Some _ _ _ Hb), (block_at_Some _ _ _ Hb') in Hfg.
    rewrite (proj2 (get_block_OK _ _ _) Hb), (proj2 (get_block_OK _ _ _) Hb'), !bind_ret.
    rewrite <- (block_row_forget b), <- (block_row_forget b'). cbn in Hfg. congruence.
Qed.

Lemma fileIO_data_frame_sim sf sf1 pre st st1 :
  Inv both_on sf pre st -> Inv io_only sf1 pre st1 ->
  Tidy both_on pre st -> Tidy io_only pre st1 -> io_sim st st1 ->
  fileIO_data_frame (self st) (heap st) = fileIO_data_frame (self st1) (heap st1).
Proof.
  intros HInv HInv1 HT HT1 HS. unfold fileIO_data_frame.
  pose proof (td_io_keys _ _ _ HT) as Hk. pose proof (td_io_keys _ _ _ HT1) as Hk1.
  rewrite <- (is_counter _ _ HS) in Hk1.
  erewrite (frames_eq _ _ _ _ _ _ Hk Hk1); [done | | |].
  - apply (ii_counter _ _ _ (inv_io _ _ _ _ HInv)).
  - intros k l Hl. eapply stored_event_row. by apply (ii_stored _ _ _ (inv_io _ _ _ _ HInv)).
  - intros k l l' Hl Hl'.
    destruct (ii_stored _ _ _ (inv_io _ _ _ _ HInv) _ _ Hl) as (? & ? & ? & ? & ? & ? & ? & He & _).
    destruct (ii_stored _ _ _ (inv_io _ _ _ _ HInv1) _ _ Hl') as (? & ? & ? & ? & ? & ? & ? & He' & _).
    pose proof (is_stored _ _ HS k) as Hst. rewrite Hl, Hl' in Hst.
    rewrite (fileIO_at_Some _ _ _ He), (fileIO_at_Some _ _ _ He') in Hst.
    rewrite (proj2 (get_fileIO_OK _ _ _) He), (proj2 (get_fileIO_OK _ _ _) He'), !bind_ret.
    congruence.
Qed.

(** ** The range of the times that are read *)

Lemma span_digits_digits (s : string) : all_digits (span_digits s).1 = true.
Proof.
  induction s as [|a s IH]; cbn; [done|].
  destruct (Re.is_digit a) eqn:Ha; [|done].
  destruct (span_digits s) as [d r]. cbn in *. by rewrite Ha.
Qed.

Lemma field_digits (s d r : string) : field s = Some (d, r) -> all_digits d = true.
Proof.
  unfold field. pose proof (span_digits_digits s) as H.
  destruct (span_digits s) as [d' r']. cbn in H. destruct d'; [done|].
  by intros [= <- <-].
Qed.

Lemma split_fields_digits (s : string) (f : strptime_fields) :
  split_fields s = Some f ->
  all_digits (f_year f) = true /\ all_digits (f_micro f) = true.
Proof.
  unfold split_fields. intros H.
  repeat match type of H with
         | context [field ?x] =>
             let E := fresh "E" in
             destruct (field x) as [[? ?]|] eqn:E; cbn in H; [|discriminate]
         | context [expect ?c ?x] => destruct (expect c x); cbn in H; [|discriminate]
         | context [spaces1 ?x] => destruct (spaces1 x); cbn in H; [|discriminate]
         end.
  match type of H with context [match ?r with EmptyString => _ | _ => _ end] =>
    destruct r; [|discriminate] end.
  injection H as <-. cbn. split; by eapply field_digits.
Qed.

Lemma fold_digits_bound (l : list ascii) : forall acc,
  0 <= acc -> forallb Re.is_digit l = true ->
  acc * 10 ^ Z.of_nat (length l) <=
    fold_left (fun acc a => 10 * acc + digit_val a) l acc
  < (acc + 1) * 10 ^ Z.of_nat (length l).
Proof.
  induction l as [|a l IH]; intros acc Hacc Hl.
  - cbn. lia.
  - cbn [fold_left length forallb] in *. apply andb_true_iff in Hl as [Ha Hl].
    pose proof (digit_val_nonneg _ Ha) as Hd.
    specialize (IH (10 * acc + digit_val a) ltac:(lia) Hl).
    rewrite Nat2Z.inj_succ, Z.pow_succ_r by lia.
    assert (0 < 10 ^ Z.of_nat (length l)) by (apply Z.pow_pos_nonneg; lia). nia.
Qed.

Lemma strlen_length (s : string) : strlen s = Z.of_nat (length (list_ascii_of_string s)).
Proof. unfold strlen. f_equal. induction s; cbn; congruence. Qed.

Lemma int_of_digits_bound (s : string) :
  all_digits s = true -> 0 <= int_of_digits s < 10 ^ strlen s.
Proof.
  intros H. apply all_digits_forallb in H.
  pose proof (fold_digits_bound _ 0 ltac:(lia) H) as Hb.
  rewrite strlen_length. unfold int_of_digits. lia.
Qed.

Lemma days_before_year_bound (y : Z) :
  1 <= y <= 9998 -> 0 <= days_before_year y <= 3651330.
Proof. intros Hy. unfold days_before_year. Z.div_mod_to_equations. lia. Qed.

Lemma days_in_year_bound (y m d : Z) :
  1 <= m <= 12 -> 1 <= d <= days_in_month y m ->
  1 <= days_before_month y m + d <= (if is_leap y then 366 else 365).
Proof.
  intros Hm Hd.
  assert (m = 1 \/ m = 2 \/ m = 3 \/ m = 4 \/ m = 5 \/ m = 6 \/ m = 7 \/ m = 8 \/ m = 9 \/
          m = 10 \/ m = 11 \/ m = 12) as Hcase by lia.
  unfold days_before_month, days_in_month in *.
  destruct Hcase as [-> | [-> | [-> | [-> | [-> | [-> | [-> | [-> | [-> | [-> | [-> | ->]]]]]]]]]]];
    simpl in *; destruct (is_leap y); lia.
Qed.

Lemma ymd2ord_bound (y m d : Z) :
  1 <= y <= 9999 -> 1 <= m <= 12 -> 1 <= d <= days_in_month y m ->
  1 <= ymd2ord y m d <= 3652059.
Proof.
  intros Hy Hm Hd. pose proof (days_in_year_bound y m d Hm Hd) as Hb. unfold ymd2ord.
  destruct (decide (y = 9999)) as [->|Hne].
  - change (is_leap 9999) with false in Hb. change (days_before_year 9999) with 3651694. lia.
  - pose proof (days_before_year_bound y ltac:(lia)). destruct (is_leap y); lia.
Qed.

Lemma directive_ok_bound (lo hi : Z) (s : string) :
  directive_ok lo hi s = true -> lo <= int_of_digits s <= hi.
Proof.
  unfold directive_ok. intros H. apply andb_true_iff in H as [H H2].
  apply andb_true_iff in H as [_ H1]. lia.
Qed.

Lemma strptime_range (s : string) (t : Z) :
  strptime s = OK t -> 0 <= t <= datetime_max_us.
Proof.
  unfold strptime. destruct (split_fields s) as [f|] eqn:Ef; [|done].
  destruct (split_fields_digits _ _ Ef) as [Hy Hus].
  match goal with |- (if ?c then _ else _) = _ -> _ => destruct c eqn:Hc; [|done] end.
  intros [= <-].
  repeat (apply andb_true_iff in Hc as [Hc ?]).
  repeat match goal with
         | H : directive_ok _ _ _ = true |- _ => apply directive_ok_bound in H
         end.
  assert (strlen (f_year f) = 4) as Hlen by lia.
  pose proof (int_of_digits_bound _ Hy) as By. rewrite Hlen in By.
  pose proof (int_of_digits_bound _ Hus) as Bus.
  assert (1 <= strlen (f_micro f) <= 6) as Hlu.
  { split; [|lia]. unfold split_fields in Ef. clear -Ef Hus.
    destruct (f_micro f) eqn:E; [|unfold strlen; cbn; lia].
    exfalso. revert Ef.
    repeat match goal with
           | |- context [field ?x] =>
               let E := fresh "E" in
               destruct (field x) as [[? ?]|] eqn:E; cbn; [|discriminate]
           | |- context [expect ?c ?x] => destruct (expect c x); cbn; [|discriminate]
           | |- context [spaces1 ?x] => destruct (spaces1 x); cbn; [|discriminate]
           end.
    match goal with |- context [match ?r with EmptyString => _ | _ => _ end] =>
      destruct r; [|discriminate] end.
    intros [= <-]. cbn in E. subst.
    match goal with H : field _ = Some (EmptyString, _) |- _ =>
      unfold field in H; destruct (span_digits _) as [[|] ?]; discriminate end. }
  assert (0 <= int_of_digits (f_micro f) * 10 ^ (6 - strlen (f_micro f)) <= 999999) as Bmicro.
  { assert (10 ^ strlen (f_micro f) * 10 ^ (6 - strlen (f_micro f)) = 10 ^ 6) as Hp.
    { rewrite <- Z.pow_add_r by lia. f_equal. lia. }
    assert (0 < 10 ^ (6 - strlen (f_micro f))) by (apply Z.pow_pos_nonneg; lia).
    change (10 ^ 6) with 1000000 in Hp. nia. }
  pose proof (ymd2ord_bound (int_of_digits (f_year f)) (int_of_digits (f_month f))
                (int_of_digits (f_day f)) ltac:(lia) ltac:(lia) ltac:(lia)) as Bord.
  unfold datetime_max_us, datetime_us, us_per_second in *.
  change (ymd2ord 9999 12 31) with 3652059. lia.
Qed.

#[local] Transparent line_wall_time search_walltime.

Lemma line_wall_time_range (line : string) (t : Z) :
  line_wall_time line = OK t -> 0 <= t <= datetime_max_us.
Proof.
  unfold line_wall_time. intros H. bind_inv H as d Ed. bind_inv H as tm Et.
  by eapply strptime_range.
Qed.

Lemma is_step_range (line : string) (t : Z) :
  is_step line t -> 0 <= t <= datetime_max_us.
Proof.
  intros [dt H]. unfold search_walltime in H.
  destruct (Re.found re_step line); [|done].
  bind_inv H as t' Et. bind_inv H as m Em. bind_inv H as tok Etok. bind_inv H as x Ex.
  injection H as -> _. by eapply line_wall_time_range.
Qed.

#[local] Opaque line_wall_time search_walltime.

Lemma datetime_max_us_value : datetime_max_us = 315537897599999999.
Proof. reflexivity. Qed.

Lemma timedelta_of_times (a b : Z) :
  0 <= a <= datetime_max_us -> 0 <= b <= datetime_max_us ->
  timedelta_in_range (a - b) = true.
Proof.
  rewrite datetime_max_us_value. intros Ha Hb. unfold timedelta_in_range, us_per_day, us_per_second.
  apply andb_true_iff. split; [apply Z.leb_le | apply Z.leb_le];
    Z.div_mod_to_equations; lia.
Qed.

Lemma core_time_in_range (t0 tn n : Z) :
  0 <= t0 <= datetime_max_us -> 0 <= tn <= datetime_max_us -> -273 <= n <= 273 ->
  timedelta_in_range ((tn - t0) * n) = true.
Proof.
  rewrite datetime_max_us_value. intros H0 Hn Hc.
  assert (- (315537897599999999 * 273) <= (tn - t0) * n <= 315537897599999999 * 273) as Hb by nia.
  unfold timedelta_in_range, us_per_day, us_per_second.
  apply andb_true_iff. split; [apply Z.leb_le | apply Z.leb_le];
    Z.div_mod_to_equations; lia.
Qed.

(** The times of the block being accumulated were read from step lines. *)
Lemma open_times_range sf pre st ts t (i : nat) :
  InvBlk sf pre (cnt st) st -> chunk st = true ->
  heap st !! wall_time_list st = Some (OTimes ts) -> ts !! i = Some t ->
  0 <= t <= datetime_max_us.
Proof.
  intros HB Hch Hts Hi.
  destruct (ib_open _ _ _ _ HB Hch) as (l & ts' & t0 & s & _ & _ & _ & Hts' & _ & _ & _ & Hrun).
  rewrite Hts in Hts'. injection Hts' as <-.
  destruct (Hrun _ _ Hi) as (line & _ & Hstep). by eapply is_step_range.
Qed.

Lemma head_lookup {A : Type} (l : list A) (x : A) : head l = Some x -> l !! 0%nat = Some x.
Proof. by destruct l. Qed.

Lemma last_lookup_Some {A : Type} (l : list A) (x : A) :
  last l = Some x -> exists i, l !! i = Some x.
Proof. rewrite last_lookup. eauto. Qed.

(** With at most 273 cores and a cell count that has a float, a
    classified line is accepted by the block tracker. *)
Lemma loop_body_blocks_ok args sf pre st line n pb r :
  Inv args sf pre st -> blocks_flag args = true ->
  (file_writes args = true -> exists st1, io_part st line = OK st1) ->
  n_cores sf = Some n -> -273 <= n <= 273 -> n_cells_per_block sf = Some pb ->
  fits_double pb = true ->
  search_walltime line = OK r ->
  exists st', loop_body args st line = OK st'.
Proof.
  intros HInv Hbf Hio Hn Hr Hpb Hfit Hcl.
  pose proof (loop_body_block_outcomes _ _ _ _ line HInv Hbf Hio) as Hout.
  destruct (ib_params _ _ _ _ (inv_blk _ _ _ _ HInv)) as [Hn' Hpb'].
  rewrite Hcl in Hout. destruct r as [[t dt]|]; [done|].
  destruct (chunk st) eqn:Hch; [|done].
  destruct Hout as (ts & t0 & tn & Hts & Hhd & Hlast & Hout).
  rewrite Hn', Hn, Hpb', Hpb, Hfit in Hout.
  apply head_lookup in Hhd. apply last_lookup_Some in Hlast as [i Hlast].
  rewrite core_time_in_range in Hout; [done | | | done];
    eapply open_times_range; eauto using inv_blk.
Qed.

Lemma loop_blocks_only_ok sf n pb lines : forall pre st,
  Inv blocks_only sf pre st ->
  n_cores sf = Some n -> -273 <= n <= 273 -> n_cells_per_block sf = Some pb ->
  fits_double pb = true ->
  Forall (fun line => exists r, search_walltime line = OK r) lines ->
  exists st', loop blocks_only st lines = OK st'.
Proof.
  induction lines as [|line rest IH]; intros pre st HInv Hn Hr Hpb Hfit Hall; [by eexists|].
  apply Forall_cons in Hall as [[r Hcl] Hall].
  destruct (loop_body_blocks_ok _ _ _ _ line _ _ _ HInv eq_refl ltac:(done) Hn Hr Hpb Hfit Hcl)
    as [st1 E1].
  cbn [loop]. rewrite E1, bind_ret.
  destruct (loop_body_inv _ _ _ _ _ _ HInv E1) as [HInv1 _]. by eapply IH.
Qed.

Lemma loop_classified args sf lines : forall pre st st',
  Inv args sf pre st -> blocks_flag args = true -> loop args st lines = OK st' ->
  Forall (fun line => exists r, search_walltime line = OK r) lines.
Proof.
  induction lines as [|line rest IH]; intros pre st st' HInv Hbf H; [constructor|].
  cbn [loop] in H. bind_inv H as st1 E1.
  destruct (loop_body_inv _ _ _ _ _ _ HInv E1) as [HInv1 _].
  apply Forall_cons. split; [|by eapply IH].
  destruct (loop_body_classified _ _ _ _ _ _ HInv Hbf E1) as [[t [dt Hs]] | Hn]; by eexists.
Qed.

(** ** When the file-I/O tracker gets through a file *)

Lemma tracked_open_set_io sf h w idc l e st :
  h !! l = Some (OFileIO e) ->
  tracked_open (set_io sf h w idc (Some l) st) = w && FileIO.open e.
Proof. intros Hl. unfold tracked_open. cbn. by rewrite Hl. Qed.

Lemma io_part_accepts sf pre st line pb :
  InvIO sf pre st -> n_cells_per_block (self st) = Some pb -> fits_double pb = true ->
  is_marker line = true ->
  match line_wall_time line with
  | Raise e => io_part st line = Raise e
  | OK _ =>
      if Re.found (Re.lit "open:") line then
        exists st', io_part st line = OK st' /\ tracked_open st' = true
      else if Re.found (Re.lit "close:") line then
        if negb (debug (self st)) && negb (pb =? 0) && tracked_open st then
          exists st', io_part st line = OK st' /\ tracked_open st' = false
        else exists e, io_part st line = Raise e
      else exists st', io_part st line = OK st' /\ tracked_open st' = tracked_open st
  end.
Proof.
  intros HI Hpb Hfit Hm.
  destruct (io_part_eval _ _ _ _ HI Hm) as (l & e & h0 & Hsel & Hl & Hns & Hfr & Hev).
  assert (tracked_open st = FileIO.open e) as Hto.
  { unfold tracked_open. destruct (write st) eqn:Hw.
    - destruct Hsel as [-> ->]. by rewrite Hl.
    - by destruct Hsel as (_ & _ & ->). }
  destruct Hev as [[-> Hev] | (t0 & -> & Hev)]; rewrite Hev, Hto.
  - destruct (line_wall_time line) as [t|ex]; [|reflexivity]. rewrite bind_ret.
    destruct (Re.found (Re.lit "open:") line).
    + eexists. split; [done|]. by erewrite tracked_open_set_io by (by eapply insert_lookup_same).
    + destruct (Re.found (Re.lit "close:") line).
      * rewrite andb_false_r. by eexists.
      * eexists. split; [done|]. by erewrite tracked_open_set_io by done.
  - destruct (line_wall_time line) as [t|ex]; [|reflexivity]. rewrite bind_ret.
    destruct (Re.found (Re.lit "open:") line).
    + eexists. split; [done|]. by erewrite tracked_open_set_io by (by eapply insert_lookup_same).
    + destruct (Re.found (Re.lit "close:") line).
      * rewrite andb_true_r. destruct (debug (self st)); [by eexists|]. cbn [negb andb].
        rewrite Hpb, py_truediv_float, Hfit. destruct (pb =? 0) eqn:Hz; [by eexists|].
        unfold float_truediv. rewrite Hfit, Hz. cbn [fmap result_fmap negb]. rewrite bind_ret.
        eexists. split; [done|]. unfold tracked_open. done.
      * eexists. split; [done|]. by erewrite tracked_open_set_io by done.
Qed.

Lemma tracked_open_set_cnt n st : tracked_open (set_cnt n st) = tracked_open st.
Proof. done. Qed.

Lemma loop_io_only_accepts sf pb lines : forall pre st,
  Inv io_only sf pre st -> n_cells_per_block sf = Some pb -> fits_double pb = true ->
  (exists st', loop io_only st lines = OK st') <->
  io_accepts (negb (debug sf) && negb (pb =? 0)) (tracked_open st) lines = true.
Proof.
  induction lines as [|line rest IH]; intros pre st HInv Hpb Hfit.
  - cbn. split; [done | by eexists].
  - destruct (ii_params _ _ _ (inv_io _ _ _ _ HInv)) as [Hp Hd].
    assert (forall st1, io_part st line = OK st1 ->
              ((exists st', loop io_only st (line :: rest) = OK st') <->
               io_accepts (negb (debug sf) && negb (pb =? 0)) (tracked_open st1) rest = true))
      as Hstep.
    { intros st1 E1.
      assert (loop_body io_only st line = OK (set_cnt (cnt st1 + 1) st1)) as Eb.
      { unfold loop_body. cbn [io_only file_writes blocks_flag]. by rewrite E1, !bind_ret. }
      destruct (loop_body_inv _ _ _ _ _ _ HInv Eb) as [HInv1 _].
      cbn [loop]. rewrite Eb, bind_ret, <- (tracked_open_set_cnt (cnt st1 + 1) st1).
      by eapply IH. }
    assert (forall e, io_part st line = Raise e ->
              ~ exists st', loop io_only st (line :: rest) = OK st') as Hfail.
    { intros e E1 [st' H]. cbn [loop] in H. unfold loop_body in H.
      cbn [io_only file_writes blocks_flag] in H. by rewrite E1 in H. }
    cbn [io_accepts]. destruct (is_marker line) eqn:Hm.
    2:{ apply Hstep. by apply io_part_not_marker. }
    pose proof (io_part_accepts _ _ _ line pb (inv_io _ _ _ _ HInv) ltac:(congruence) Hfit Hm)
      as Hacc.
    rewrite Hd in Hacc.
    destruct (line_wall_time line) as [t|ex].
    2:{ split; [intros H; by destruct (Hfail _ Hacc) | done]. }
    destruct (Re.found (Re.lit "open:") line).
    { destruct Hacc as (st1 & E1 & Hto1). pose proof (Hstep _ E1) as Hs.
      by rewrite Hto1 in Hs. }
    destruct (Re.found (Re.lit "close:") line).
    + destruct (negb (debug sf) && negb (pb =? 0)) eqn:Hcl; cbn [andb] in *.
      * destruct (tracked_open st) eqn:Hto.
        -- destruct Hacc as (st1 & E1 & Hto1). pose proof (Hstep _ E1) as Hs.
           by rewrite Hto1 in Hs.
        -- destruct Hacc as [e E1]. split; [intros H; by destruct (Hfail _ E1) | done].
      * destruct Hacc as [e E1]. split; [intros H; by destruct (Hfail _ E1) | done].
    + destruct Hacc as (st1 & E1 & Hto1). pose proof (Hstep _ E1) as Hs.
      by rewrite Hto1 in Hs.
Qed.

#[local] Transparent Re.found Re.lit Re.findall.

(** ** Patterns without metacharacters *)

Lemma match_here_lit (s t : string) (n : nat) :
  Re.match_here (Re.lit s) t = Some n <->
  n = String.length s /\ exists suf, t = (s ++ suf)%string.
Proof.
  revert t n. induction s as [|a s IH]; intros t n; cbn.
  - split; [intros [= <-]; split; [done | by exists t] | by intros [-> _]].
  - destruct t as [|b t]; [split; [done | intros [_ [suf H]]; discriminate]|].
    destruct (Ascii.eqb b a) eqn:Hab.
    + apply Ascii.eqb_eq in Hab as ->.
      destruct (Re.match_here (Re.lit s) t) as [m|] eqn:E; cbn.
      * apply IH in E as [-> [suf ->]]. split.
        -- intros [= <-]. split; [done | by exists suf].
        -- by intros [-> _].
      * split; [done|]. intros [_ [suf [= ->]]].
        assert (Re.match_here (Re.lit s) (s ++ suf) = Some (String.length s)) as E'.
        { apply IH. split; [done | by exists suf]. }
        congruence.
    + split; [done|]. intros [_ [suf [= -> _]]]. by rewrite Ascii.eqb_refl in Hab.
Qed.

Lemma found_lit_suffix (s t : string) :
  (exists suf, t = (s ++ suf)%string) -> Re.found (Re.lit s) t = true.
Proof.
  intros H. unfold Re.found.
  assert (Re.match_here (Re.lit s) t = Some (String.length s)) as E.
  { apply match_here_lit. by split. }
  destruct t; cbn; by rewrite E.
Qed.

Lemma found_tail (re : Re.regex) (a : ascii) (t : string) :
  Re.found re t = true -> Re.found re (String a t) = true.
Proof.
  unfold Re.found. cbn [Re.search]. intros H.
  destruct (Re.match_here re (String a t)); [done|]. exact H.
Qed.

Lemma found_lit_substring (s line : string) :
  Re.found (Re.lit s) line = true <->
  exists pre suf, line = (pre ++ s ++ suf)%string.
Proof.
  split.
  - induction line as [|a line IH]; unfold Re.found; cbn [Re.search].
    + destruct (Re.match_here (Re.lit s) "") as [n|] eqn:E; [|done].
      intros _. apply match_here_lit in E as [_ [suf E]]. by exists ""%string, suf.
    + destruct (Re.match_here (Re.lit s) (String a line)) as [n|] eqn:E.
      * intros _. apply match_here_lit in E as [_ [suf E]]. by exists ""%string, suf.
      * intros H. destruct IH as (pre & suf & ->); [exact H|].
        by exists (String a pre), suf.
  - intros (pre & suf & ->). induction pre as [|a pre IH].
    + apply found_lit_suffix. by exists suf.
    + cbn. by apply found_tail.
Qed.
#[local] Opaque Re.found Re.lit Re.findall.

#[local] Transparent Re.found Re.lit Re.findall.

(** ** The first number of a line *)

Lemma plus_loop_run (s : string) :
  exists n, Re.plus_loop Re.Digit (fun _ => Some O) s = Some n /\
    all_digits (Re.take n s) = true /\ starts_with_digit (Re.drop n s) = false /\
    s = (Re.take n s ++ Re.drop n s)%string.
Proof.
  induction s as [|a s (n & IH1 & IH2 & IH3 & IH4)]; cbn.
  - by exists O.
  - destruct (Re.is_digit a) eqn:Ha.
    + rewrite IH1. exists (S n). cbn. rewrite Ha, IH2. split_and!; try done.
      change (String a s = String a (Re.take n s +:+ Re.drop n s)). congruence.
    + exists O. cbn. by rewrite Ha.
Qed.

Lemma match_here_run (s : string) :
  match Re.match_here re_digits s with
  | Some n =>
      Re.take n s ≠ ""%string /\ all_digits (Re.take n s) = true /\
      starts_with_digit (Re.drop n s) = false /\ s = (Re.take n s ++ Re.drop n s)%string
  | None => starts_with_digit s = false
  end.
Proof.
  destruct s as [|a s]; cbn; [done|]. destruct (Re.is_digit a) eqn:Ha; [|done].
  destruct (plus_loop_run s) as (n & -> & H1 & H2 & H3). cbn. rewrite Ha, H1.
  split_and!; try done.
  change (String a s = String a (Re.take n s +:+ Re.drop n s)). congruence.
Qed.

Lemma search_run (s : string) :
  match Re.search re_digits s with
  | Some (m, rest) =>
      exists pre, s = (pre ++ m ++ rest)%string /\ no_digits pre = true /\
        m ≠ ""%string /\ all_digits m = true /\ starts_with_digit rest = false
  | None => no_digits s = true
  end.
Proof.
  induction s as [|a s IH]; cbn [Re.search].
  - pose proof (match_here_run "") as H.
    destruct (Re.match_here re_digits "") as [n|]; [|done].
    destruct H as (H1 & H2 & H3 & H4). exists ""%string. by split_and!.
  - pose proof (match_here_run (String a s)) as H.
    destruct (Re.match_here re_digits (String a s)) as [n|].
    + destruct H as (H1 & H2 & H3 & H4). exists ""%string. by split_and!.
    + cbn in H. destruct (Re.search re_digits s) as [[m rest]|].
      * destruct IH as (pre & -> & P1 & P2 & P3 & P4).
        exists (String a pre). cbn. rewrite H, P1. by split_and!.
      * cbn. by rewrite H, IH.
Qed.

Lemma first_findall_run (line : string) :
  match first (Re.findall re_digits line) with
  | OK m =>
      exists pre suf, line = (pre ++ m ++ suf)%string /\ no_digits pre = true /\
        m ≠ ""%string /\ all_digits m = true /\ starts_with_digit suf = false
  | Raise e => e = IndexError /\ no_digits line = true
  end.
Proof.
  unfold Re.findall. cbn [Re.findall_from]. pose proof (search_run line) as H.
  destruct (Re.search re_digits line) as [[m rest]|]; cbn [first].
  - destruct H as (pre & H). by exists pre, rest.
  - done.
Qed.
#[local] Opaque Re.found Re.lit Re.findall.

(** ** The exceptions of the parameter scan *)

Lemma strlen_app (s t : string) : strlen (s ++ t) = strlen s + strlen t.
Proof.
  unfold strlen. induction s as [|a s IH]; [reflexivity|].
  change (Z.of_nat (S (String.length (s ++ t))) =
          Z.of_nat (S (String.length s)) + Z.of_nat (String.length t)). lia.
Qed.

Lemma strlen_nonneg (s : string) : 0 <= strlen s.
Proof. unfold strlen. lia. Qed.

(** The first number of a line is a text of digits, no longer than the
    line. *)
Lemma first_number_len (line m : string) :
  first (Re.findall re_digits line) = OK m ->
  all_digits m = true /\ strlen m <= strlen line.
Proof.
  intros H. pose proof (first_findall_run line) as Hrun. rewrite H in Hrun.
  destruct Hrun as (pre & suf & -> & _ & _ & Hm & _). split; [done|].
  rewrite !strlen_app. pose proof (strlen_nonneg pre). pose proof (strlen_nonneg suf). lia.
Qed.

Lemma py_int_cases (m : string) :
  match py_int m with
  | OK v => v = int_of_digits m /\ strlen m <= int_max_str_digits
  | Raise e => e = ValueError /\ int_max_str_digits < strlen m
  end.
Proof.
  unfold py_int. change (Z.of_nat (String.length m)) with (strlen m).
  destruct (int_max_str_digits <? strlen m) eqn:E; [split; [done|lia] | split; [done|lia]].
Qed.

Lemma double_overflow_digits : 10 ^ 308 <= double_overflow.
Proof. apply Z.leb_le. vm_compute. reflexivity. Qed.

(** A number of digits whose quotient by a count of one or more has no
    float has more than 308 digits. *)
Lemma int_truediv_cases (m : string) (p : Z) :
  all_digits m = true -> 1 <= p ->
  match int_truediv (int_of_digits m) p with
  | OK x => x = FNum (Qred (inject_Z (int_of_digits m) / inject_Z p))
  | Raise e => e = OverflowError /\ 308 < strlen m
  end.
Proof.
  intros Hm Hp. unfold int_truediv. destruct (p =? 0) eqn:Hz; [lia|].
  destruct (_ <? _) eqn:E; [done|]. split; [done|].
  apply Z.ltb_ge in E. pose proof (int_of_digits_bound _ Hm) as Hb.
  pose proof double_overflow_digits as Hd.
  assert (10 ^ 308 < 10 ^ strlen m) as Hlt by nia.
  apply Z.pow_lt_mono_r_iff in Hlt; [done | lia | apply strlen_nonneg].
Qed.

Lemma search_core_count_raise s cnt line p e :
  n_cores_per_node s = Some p -> 1 <= p ->
  search_core_count s cnt line = Raise e -> scan_failure line e.
Proof.
  intros Hp Hp1. unfold search_core_count, scan_failure.
  destruct (Re.found (Re.lit "Number of MPI tasks:") line); [|done].
  destruct (Re.findall re_digits line) as [|m ms] eqn:Hf; cbn [first].
  { intros [= <-]. by left. }
  assert (first (Re.findall re_digits line) = OK m) as Hfirst by (by rewrite Hf).
  destruct (first_number_len _ _ Hfirst) as [Hm _].
  rewrite bind_ret. pose proof (py_int_cases m) as Hint.
  destruct (py_int m) as [n|e'].
  - destruct Hint as [-> _]. rewrite bind_ret, Hp, bind_ret.
    pose proof (int_truediv_cases m p Hm Hp1) as Hdiv.
    destruct (int_truediv (int_of_digits m) p) as [x|e']; [done|].
    destruct Hdiv as [-> Hlen]. intros [= <-]. right. exists m. split; [done|]. by right.
  - destruct Hint as [-> Hlen]. intros [= <-]. right. exists m. split; [done|]. by left.
Qed.

Lemma search_block_cell_count_raise cnt line label e :
  search_block_cell_count cnt line label = Raise e -> scan_failure line e.
Proof.
  unfold search_block_cell_count, scan_failure.
  destruct (Re.found (Re.lit label) line); [|done].
  destruct (Re.findall re_digits line) as [|m ms] eqn:Hf; cbn [first].
  { intros [= <-]. by left. }
  rewrite bind_ret. pose proof (py_int_cases m) as Hint.
  destruct (py_int m) as [n|e']; [done|].
  destruct Hint as [-> Hlen]. intros [= <-]. right. exists m. split; [done|]. by left.
Qed.

Lemma scan_line_raise s cnt line p e :
  n_cores_per_node s = Some p -> 1 <= p ->
  scan_line s cnt line = Raise e -> scan_failure line e.
Proof.
  intros Hp Hp1. unfold scan_line.
  assert (forall label (set : option Z -> FLASHLogStats -> FLASHLogStats) (s0 : FLASHLogStats)
            (o : option Z),
            (if o is None
             then v ← search_block_cell_count cnt line label; OK (set v s0)
             else OK s0) = Raise e -> scan_failure line e) as Hzone.
  { intros label set s0 o. destruct o; [done|].
    destruct (search_block_cell_count cnt line label) as [v|e'] eqn:E; [done|].
    intros [= <-]. by eapply search_block_cell_count_raise. }
  destruct (if n_cores s is None then search_core_count s cnt line else OK s) as [s1|e1] eqn:E1.
  2:{ intros [= <-]. destruct (n_cores s); [done|]. by eapply search_core_count_raise. }
  rewrite bind_ret.
  destruct (if nxb s1 is None
            then v ← search_block_cell_count cnt line "Number x zones:"; OK (set_nxb v s1)
            else OK s1) as [s2|e2] eqn:E2.
  2:{ intros [= <-]. by eapply Hzone. }
  rewrite bind_ret.
  destruct (if nyb s2 is None
            then v ← search_block_cell_count cnt line "Number y zones:"; OK (set_nyb v s2)
            else OK s2) as [s3|e3] eqn:E3.
  2:{ intros [= <-]. by eapply Hzone. }
  rewrite bind_ret. by apply Hzone.
Qed.

Lemma scan_lines_raise lines : forall s cnt p e,
  n_cores_per_node s = Some p -> 1 <= p ->
  scan_lines s cnt lines = Raise e -> Exists (fun line => scan_failure line e) lines.
Proof.
  induction lines as [|line rest IH]; intros s cnt p e Hp Hp1 H; [done|].
  cbn [scan_lines] in H. destruct (scan_line s cnt line) as [s1|e1] eqn:E1.
  - rewrite bind_ret in H. apply Exists_cons_tl. eapply IH; [|done|done].
    destruct (scan_line_spec _ _ _ _ E1) as (_ & _ & _ & _ & _ & _ & _ & Hnode). congruence.
  - injection H as <-. apply Exists_cons_hd. by eapply scan_line_raise.
Qed.

Lemma scan_lines_app pre : forall s cnt suf,
  scan_lines s cnt (pre ++ suf) =
  s1 ← scan_lines s cnt pre; scan_lines s1 (cnt + Z.of_nat (length pre)) suf.
Proof.
  induction pre as [|x pre IH]; intros s cnt suf.
  - cbn. by rewrite Z.add_0_r.
  - cbn [app scan_lines length]. destruct (scan_line s cnt x) as [s1|e]; [|done].
    rewrite !bind_ret, IH.
    by replace (cnt + Z.of_nat (S (length pre))) with (cnt + 1 + Z.of_nat (length pre)) by lia.
Qed.

(** ** Further properties of the pass *)

Lemma sample_reachable (pre : list string) (st : State) :
  loop Sample.both (enter Sample.stats) pre = OK st -> reachable Sample.both pre st.
Proof. intros H. exists Sample.stats. by split_and!. Qed.

(** X1: what the file-I/O tracker does with a marker line in a state of
    the pass.  A timestamp that cannot be read raises its exception,
    whatever else the line holds.  A line with [open:], and a line with
    neither [open:] nor [close:], is accepted.  A closing line raises
    [TypeError] when no opened event is being tracked, and also when
    [debug] is set (the value that is printed cannot be computed);
    otherwise it raises [TypeError] for a missing cell count,
    [OverflowError] for a cell count that has no float (from
    [2^1024 - 2^970] on), [ZeroDivisionError] for a cell count of zero,
    and is accepted in the remaining case. *)
Theorem io_tracker_outcomes (args : Args) (pre : list string) (st : State) (line : string) :
  reachable args pre st -> is_marker line = true ->
  match line_wall_time line with
  | Raise e => io_part st line = Raise e
  | OK _ =>
      if closes line then
        if tracked_open st then
          if debug (self st) then io_part st line = Raise TypeError
          else match n_cells_per_block (self st) with
               | None => io_part st line = Raise TypeError
               | Some pb =>
                   if fits_double pb then
                     if pb =? 0 then io_part st line = Raise ZeroDivisionError
                     else exists st', io_part st line = OK st'
                   else io_part st line = Raise OverflowError
               end
        else io_part st line = Raise TypeError
      else exists st', io_part st line = OK st'
  end.
Proof.
  intros Hr Hm. destruct (reachable_inv _ _ _ Hr) as [sf HInv].
  eapply io_part_outcomes; [by apply (inv_io _ _ _ _ HInv) | done].
Qed.

Lemma io_tracker_outcomes_witness :
  exists st', io_part (Sample.after [Sample.open1]) Sample.close1 = OK st'.
Proof.
  assert (reachable Sample.both [Sample.open1] (Sample.after [Sample.open1])) as Hr.
  { apply sample_reachable. vm_compute. reflexivity. }
  assert (is_marker Sample.close1 = true) as Hm by (vm_compute; reflexivity).
  generalize (io_tracker_outcomes Sample.both [Sample.open1] (Sample.after [Sample.open1])
                Sample.close1 Hr Hm).
  vm_compute. intros H. exact H.
Defined.

(** X2: what an iteration does with a line when the block tracker is on
    and the file-I/O tracker accepts the line.  An exception of
    [search_walltime] is the exception of the iteration; a step line is
    always accepted, and so is a line that is not one while no block is
    being accumulated.  A line that ends a block raises [OverflowError]
    when the duration of the block times the number of cores is not a
    [timedelta], [TypeError] when the number of cores or the cell count
    is missing, [OverflowError] when the cell count has no float (from
    [2^1024 - 2^970] on), and is accepted otherwise: a cell count of
    zero does not stop the block tracker. *)
Theorem block_tracker_outcomes (args : Args) (pre : list string) (st : State) (line : string) :
  reachable args pre st -> blocks_flag args = true ->
  (file_writes args = true -> exists st1, io_part st line = OK st1) ->
  match search_walltime line with
  | Raise e => loop_body args st line = Raise e
  | OK (Some _) => exists st', loop_body args st line = OK st'
  | OK None =>
      if chunk st then
        exists ts t0 tn, heap st !! wall_time_list st = Some (OTimes ts) /\
          head ts = Some t0 /\ last ts = Some tn /\
          match n_cores (self st) with
          | None => loop_body args st line = Raise TypeError
          | Some n =>
              if timedelta_in_range ((tn - t0) * n) then
                match n_cells_per_block (self st) with
                | None => loop_body args st line = Raise TypeError
                | Some pb =>
                    if fits_double pb then exists st', loop_body args st line = OK st'
                    else loop_body args st line = Raise OverflowError
                end
              else loop_body args st line = Raise OverflowError
          end
      else exists st', loop_body args st line = OK st'
  end.
Proof.
  intros Hr Hbf Hio. destruct (reachable_inv _ _ _ Hr) as [sf HInv].
  by eapply loop_body_block_outcomes.
Qed.

Lemma block_tracker_outcomes_witness :
  exists st', loop_body Sample.both (Sample.after [Sample.step1]) Sample.step2 = OK st'.
Proof.
  assert (reachable Sample.both [Sample.step1] (Sample.after [Sample.step1])) as Hr.
  { apply sample_reachable. vm_compute. reflexivity. }
  assert (file_writes Sample.both = true ->
          exists st1, io_part (Sample.after [Sample.step1]) Sample.step2 = OK st1) as Hio.
  { intros _. eexists. vm_compute. reflexivity. }
  generalize (block_tracker_outcomes Sample.both [Sample.step1] (Sample.after [Sample.step1])
                Sample.step2 Hr eq_refl Hio).
  vm_compute. intros H. exact H.
Defined.

(** X3: in every state of the pass the keys of [self.blocks] are the
    numbers from 0 up to [block_id_counter - 1] and the keys of
    [self.fileIOs] those up to [IO_id_counter - 1]; the record under a
    key carries the key as its id; and two keys never hold the same
    object. *)
Theorem store_keys_consecutive (args : Args) (pre : list string) (st : State) :
  reachable args pre st ->
  (forall k, is_Some (blocks (self st) !! k) <-> 0 <= k < block_id_counter st) /\
  (forall k, is_Some (fileIOs (self st) !! k) <-> 0 <= k < IO_id_counter st) /\
  (forall k l, blocks (self st) !! k = Some l ->
     exists b, heap st !! l = Some (OBlock b) /\ Block.block_id b = k) /\
  (forall k l, fileIOs (self st) !! k = Some l ->
     exists e, heap st !! l = Some (OFileIO e) /\ FileIO.write_id e = k) /\
  (forall k k' l, blocks (self st) !! k = Some l -> blocks (self st) !! k' = Some l -> k = k') /\
  (forall k k' l, fileIOs (self st) !! k = Some l -> fileIOs (self st) !! k' = Some l -> k = k').
Proof.
  intros Hr. pose proof (reachable_tidy _ _ _ Hr) as HT.
  destruct (reachable_inv _ _ _ Hr) as [sf HInv].
  split_and!; [apply HT | apply HT | | | apply HT | apply HT].
  - intros k l Hk.
    destruct (ib_stored _ _ _ _ (inv_blk _ _ _ _ HInv) _ _ Hk)
      as (b & wl & dl & ts & ds & t0 & tn & n & pb & s & Hl & _ & _ & _ & _ & _ & _ & _ & _ &
          _ & _ & _ & _ & Hfacts).
    exists b. split; [done | by destruct Hfacts].
  - intros k l Hk.
    destruct (ii_stored _ _ _ (inv_io _ _ _ _ HInv) _ _ Hk)
      as (t_o & t_c & norm & i & j & lo & lc & Hl & _).
    eexists. split; [done | reflexivity].
Qed.

Lemma store_keys_consecutive_witness :
  is_Some (blocks (self (Sample.after [Sample.step1; Sample.other; Sample.step2; Sample.other]))
             !! 1) <->
  0 <= 1 < block_id_counter (Sample.after [Sample.step1; Sample.other; Sample.step2; Sample.other]).
Proof.
  assert (reachable Sample.both [Sample.step1; Sample.other; Sample.step2; Sample.other]
            (Sample.after [Sample.step1; Sample.other; Sample.step2; Sample.other])) as Hr.
  { apply sample_reachable. vm_compute. reflexivity. }
  apply (proj1 (store_keys_consecutive _ _ _ Hr)).
Defined.

(** X4: after [compute_sim_parameters] and [deconstruct_log_file] on a
    file, the number of blocks in [self.blocks] is the number of step
    lines that are directly followed by a line that is not a step line,
    and the number of events in [self.fileIOs] is the number of closing
    marker lines; a store whose switch is off is empty.  The pass ends
    inside a block exactly when the last line is a step line. *)
Theorem record_counts (args : Args) (dbg : bool) (file : string) (lines : list string)
    (st : State) :
  main_file args dbg file lines = OK st ->
  Z.of_nat (size (blocks (self st))) = (if blocks_flag args then block_ends false lines else 0) /\
  Z.of_nat (size (fileIOs (self st))) = (if file_writes args then count_closes lines else 0) /\
  block_id_counter st = Z.of_nat (size (blocks (self st))) /\
  IO_id_counter st = Z.of_nat (size (fileIOs (self st))) /\
  chunk st = blocks_flag args && ends_in_block false lines.
Proof.
  intros H. apply main_file_reachable in H.
  pose proof (reachable_tidy _ _ _ H) as [T1 T2 T3 T4 T5 _ _ _ _ _].
  destruct (reachable_inv _ _ _ H) as [sf HInv].
  pose proof (ii_counter _ _ _ (inv_io _ _ _ _ HInv)) as Hidc.
  pose proof (ib_counter _ _ _ _ (inv_blk _ _ _ _ HInv)) as Hbdc.
  rewrite (size_dense _ _ T5), (size_dense _ _ T4), !Z2Nat.id by done.
  by split_and!.
Qed.

Lemma record_counts_witness :
  Z.of_nat (size (blocks (self (Sample.after
     (Sample.header ++ [Sample.step1; Sample.other; Sample.step2; Sample.other]))))) = 2.
Proof.
  assert (main_file Sample.both false "Turb.log"
            (Sample.header ++ [Sample.step1; Sample.other; Sample.step2; Sample.other])
          = OK (Sample.after
                  (Sample.header ++ [Sample.step1; Sample.other; Sample.step2; Sample.other])))
    as H by (vm_compute; reflexivity).
  rewrite (proj1 (record_counts _ _ _ _ _ H)). vm_compute. reflexivity.
Defined.

(** X5: the blocks of [self.blocks] lie in the file in the order of
    their keys and do not touch: a block starts at line 1 or later and
    ends where it starts or later, the block under a greater key starts
    at least two lines after the end of the block under a smaller one,
    and every block ends before the last line read. *)
Theorem blocks_in_file_order (args : Args) (pre : list string) (st : State)
    (k k' : Z) (l l' : loc) (b b' : Block.t) :
  reachable args pre st ->
  blocks (self st) !! k = Some l -> heap st !! l = Some (OBlock b) ->
  blocks (self st) !! k' = Some l' -> heap st !! l' = Some (OBlock b') ->
  k < k' ->
  1 <= Block.start_line b <= Block.end_line b /\
  Block.end_line b + 2 <= Block.start_line b' /\
  Block.start_line b' <= Block.end_line b' < Z.of_nat (length pre).
Proof.
  intros Hr Hk Hl Hk' Hl' Hlt. pose proof (reachable_tidy _ _ _ Hr) as HT.
  destruct (reachable_inv _ _ _ Hr) as [sf HInv].
  pose proof (inv_cnt _ _ _ _ HInv) as Hcnt.
  destruct (td_stored _ _ _ HT _ _ _ Hk Hl) as [H1 H2].
  destruct (td_stored _ _ _ HT _ _ _ Hk' Hl') as [H3 H4].
  pose proof (td_pairs _ _ _ HT _ _ _ _ _ _ Hlt Hk Hk' Hl Hl'). lia.
Qed.

Lemma blocks_in_file_order_witness :
  exists b b',
    heap (Sample.after [Sample.step1; Sample.other; Sample.step2; Sample.other]) !! 2%nat
      = Some (OBlock b) /\
    heap (Sample.after [Sample.step1; Sample.other; Sample.step2; Sample.other]) !! 5%nat
      = Some (OBlock b') /\
    Block.end_line b + 2 <= Block.start_line b'.
Proof.
  eexists _, _. split; [vm_compute; reflexivity|]. split; [vm_compute; reflexivity|].
  eapply (blocks_in_file_order Sample.both
            [Sample.step1; Sample.other; Sample.step2; Sample.other] _ 0 1 2%nat 5%nat);
    first [ apply sample_reachable; vm_compute; reflexivity
          | vm_compute; reflexivity | lia ].
Defined.

(** X6: when the file-I/O tracker is on and [debug] is set, or the cell
    count of a block is zero, a file that [main] gets through the two
    passes has no closing marker line and [self.fileIOs] is empty: no
    event can be stored. *)
Theorem no_event_with_debug_or_zero_cells (args : Args) (dbg : bool) (file : string)
    (lines : list string) (st : State) :
  main_file args dbg file lines = OK st -> file_writes args = true ->
  dbg = true \/ n_cells_per_block (self st) = Some 0 ->
  Forall (fun line => closes line = false) lines /\ fileIOs (self st) = ∅.
Proof.
  intros H Hfw Hcase.
  pose proof (reachable_tidy _ _ _ (main_file_reachable _ _ _ _ _ H)) as HT.
  destruct (main_file_OK _ _ _ _ _ H) as (sf & _ & Hb & Hf & Hd & Hloop).
  pose proof (run_inv _ _ _ _ Hb Hf Hloop) as HInv.
  destruct (ii_params _ _ _ (inv_io _ _ _ _ HInv)) as [Hp _].
  assert (Forall (fun line => closes line = false) lines) as Hno.
  { eapply Forall_impl; [by eapply loop_closes|]. cbn. intros line Hc.
    destruct (closes line); [|done].
    destruct (Hc eq_refl) as (Hd' & pb & Hpb & Hne & _).
    destruct Hcase as [-> | Hz]; [congruence|]. rewrite Hp, Hpb in Hz. congruence. }
  split; [done|]. eapply no_keys_empty; [apply HT|].
  rewrite (td_io_counter _ _ _ HT), Hfw. by apply count_closes_none.
Qed.

Lemma no_event_with_debug_or_zero_cells_witness :
  exists st,
    main_file Sample.both true "Turb.log" (Sample.header ++ [Sample.open1]) = OK st /\
    fileIOs (self st) = ∅.
Proof.
  eexists. split; [vm_compute; reflexivity|].
  eapply (proj2 (no_event_with_debug_or_zero_cells Sample.both true "Turb.log"
                   (Sample.header ++ [Sample.open1]) _ ltac:(vm_compute; reflexivity)
                   eq_refl (or_introl eq_refl))).
Defined.

Lemma set_cnt_same (st : State) : set_cnt (cnt st + 0) st = st.
Proof. destruct st. unfold set_cnt. cbn. f_equal. lia. Qed.

(** X7: a tracker whose switch is off does nothing.  With both switches
    off the pass only counts the lines and cannot raise; a store whose
    switch is off stays empty, with its counter at 0; and with only the
    file-I/O tracker on, a line that is not a marker line is accepted
    whatever it holds, since it is not searched for a step. *)
Theorem switched_off_tracker_idle :
  (forall st lines,
     loop {| file_writes := false; blocks_flag := false |} st lines =
     OK (set_cnt (cnt st + Z.of_nat (length lines)) st)) /\
  (forall args pre st, reachable args pre st -> blocks_flag args = false ->
     blocks (self st) = ∅ /\ block_id_counter st = 0 /\ chunk st = false) /\
  (forall args pre st, reachable args pre st -> file_writes args = false ->
     fileIOs (self st) = ∅ /\ IO_id_counter st = 0 /\ write st = false) /\
  (forall st line, is_marker line = false ->
     loop_body {| file_writes := true; blocks_flag := false |} st line =
     OK (set_cnt (cnt st + 1) st)).
Proof.
  split_and!.
  - intros st lines. rewrite loop_both_off. destruct lines; [by rewrite set_cnt_same | done].
  - intros args pre st Hr Hoff. pose proof (reachable_tidy _ _ _ Hr) as HT.
    destruct (reachable_inv _ _ _ Hr) as [sf HInv].
    pose proof (td_blk_counter _ _ _ HT) as Hc. rewrite Hoff in Hc.
    split_and!; [|done|by apply (inv_chunk _ _ _ _ HInv)].
    eapply no_keys_empty; [apply HT | done].
  - intros args pre st Hr Hoff. pose proof (reachable_tidy _ _ _ Hr) as HT.
    destruct (reachable_inv _ _ _ Hr) as [sf HInv].
    pose proof (td_io_counter _ _ _ HT) as Hc. rewrite Hoff in Hc.
    split_and!; [|done|by apply (inv_write _ _ _ _ HInv)].
    eapply no_keys_empty; [apply HT | done].
  - intros st line Hm. unfold loop_body. cbn [file_writes blocks_flag].
    by rewrite io_part_not_marker, !bind_ret.
Qed.

Lemma switched_off_tracker_idle_witness :
  exists st,
    loop {| file_writes := true; blocks_flag := false |} (enter Sample.stats)
      [Sample.step1; Sample.other] = OK st /\
    blocks (self st) = ∅.
Proof.
  eexists. split; [vm_compute; reflexivity|].
  eapply (proj1 (proj2 switched_off_tracker_idle)
            {| file_writes := true; blocks_flag := false |} [Sample.step1; Sample.other]).
  - exists Sample.stats. split_and!; [reflexivity | reflexivity | vm_compute; reflexivity].
  - reflexivity.
Defined.

(** ** The statistics of a block *)

(** The timedeltas between the times of a block add up to its duration:
    the sum telescopes. *)
Lemma np_diff_sum (ts : list Z) : forall t0 tn,
  head ts = Some t0 -> last ts = Some tn -> foldr Z.add 0 (np_diff ts) = tn - t0.
Proof.
  induction ts as [|a ts IH]; intros t0 tn Hhd Hlast; [done|].
  cbn in Hhd. assert (a = t0) as -> by congruence. clear Hhd. destruct ts as [|b ts].
  - cbn in Hlast. assert (tn = t0) as -> by congruence. cbn. lia.
  - change (np_diff (t0 :: b :: ts)) with ((b - t0) :: np_diff (b :: ts)).
    cbn [foldr]. rewrite (IH b tn eq_refl Hlast). lia.
Qed.

Lemma deltas_length (ts : list Z) : length (deltas ts) = pred (length ts).
Proof. unfold deltas. by rewrite length_map, np_diff_length. Qed.

(** X8: the intervals of a block of [self.blocks].  The mean
    [avg_wall_time_diff] and the standard deviation [std_wall_time_diff]
    are taken over the [n_steps] timedeltas between the successive times
    of the block, each turned into seconds; as timedeltas, which are
    exact, these intervals add up to [end_date - start_date].  So the
    mean is the duration of the block over [n_steps], up to the rounding
    of the floats. *)
Theorem block_intervals_add_up (args : Args) (pre : list string) (st : State)
    (k : Z) (l : loc) (b : Block.t) :
  reachable args pre st ->
  blocks (self st) !! k = Some l -> heap st !! l = Some (OBlock b) ->
  exists wl ts t0 tn,
    Block.wall_time b = VRef wl /\ heap st !! wl = Some (OTimes ts) /\
    Block.start_date b = VDatetime t0 /\ Block.end_date b = VDatetime tn /\
    Z.of_nat (length (np_diff ts)) = Block.n_steps b /\
    foldr Z.add 0 (np_diff ts) = tn - t0 /\
    Block.avg_wall_time_diff b = VFloat (np_mean (map total_seconds_q (np_diff ts))) /\
    Block.std_wall_time_diff b = VFloat (np_std (map total_seconds_q (np_diff ts))).
Proof.
  intros Hr Hk Hl. destruct (reachable_inv _ _ _ Hr) as [sf HInv].
  pose proof (ib_stored _ _ _ _ (inv_blk _ _ _ _ HInv) _ _ Hk) as Hst.
  destruct (stored_block_of _ _ _ _ _ _ Hst Hl)
    as (wl & dl & ts & ds & t0 & tn & n & pb & s & Hwl & _ & Hhd & Hlast & _ & _ & _ & _ & _ & F).
  destruct F as [_ _ _ Fn Fs Fe _ Fw _ Fa Fsd _ _].
  exists wl, ts, t0, tn. split_and!; try done.
  - rewrite Fn, np_diff_length. destruct ts; [done | cbn; lia].
  - by apply np_diff_sum.
Qed.

Lemma block_intervals_add_up_witness :
  exists b wl ts t0 tn,
    heap (Sample.after [Sample.step1; Sample.step2; Sample.other]) !! 2%nat = Some (OBlock b) /\
    Block.wall_time b = VRef wl /\
    heap (Sample.after [Sample.step1; Sample.step2; Sample.other]) !! wl = Some (OTimes ts) /\
    Block.start_date b = VDatetime t0 /\ Block.end_date b = VDatetime tn /\
    foldr Z.add 0 (np_diff ts) = tn - t0.
Proof.
  eexists.
  assert (reachable Sample.both [Sample.step1; Sample.step2; Sample.other]
            (Sample.after [Sample.step1; Sample.step2; Sample.other])) as Hr.
  { apply sample_reachable. vm_compute. reflexivity. }
  destruct (block_intervals_add_up _ _ _ 0 2%nat _ Hr
              ltac:(vm_compute; reflexivity) ltac:(vm_compute; reflexivity))
    as (wl & ts & t0 & tn & H1 & H2 & H3 & H4 & _ & H5 & _).
  exists wl, ts, t0, tn. split; [vm_compute; reflexivity|]. by split_and!.
Defined.

(** X9: a block of [self.blocks] made of a single step line has
    [n_steps = 0] and no interval: its core-hours are a zero duration,
    its mean and its standard deviation, normalised or not, are [nan],
    and its row in the data frame says so. *)
Theorem single_step_block (args : Args) (pre : list string) (st : State)
    (k : Z) (l : loc) (b : Block.t) :
  reachable args pre st ->
  blocks (self st) !! k = Some l -> heap st !! l = Some (OBlock b) ->
  Block.start_line b = Block.end_line b ->
  Block.n_steps b = 0 /\ Block.core_hours b = VTimedelta 0 /\
  Block.end_date b = Block.start_date b /\
  Block.avg_wall_time_diff b = VFloat FNan /\ Block.std_wall_time_diff b = VFloat FNan /\
  exists t0, Block.start_date b = VDatetime t0 /\
    block_row b = OK [VStr "block"; VInt k; VFloat (FNum 0); VInt 0; VFloat FNan;
                      VFloat FNan; VFloat FNan; VDatetime t0].
Proof.
  intros Hr Hk Hl Hn. destruct (reachable_inv _ _ _ Hr) as [sf HInv].
  pose proof (ib_stored _ _ _ _ (inv_blk _ _ _ _ HInv) _ _ Hk) as Hst.
  destruct (stored_block_of _ _ _ _ _ _ Hst Hl)
    as (wl & dl & ts & ds & t0 & tn & n & pb & s & _ & _ & Hhd & Hlast & _ & _ & _ & _ & _ & F).
  destruct F as [Fid Fsl Fel Fn Fs Fe Fc _ _ Fa Fsd Fan Fsn].
  assert (ts = [t0]) as ->.
  { destruct ts as [|a [|a' ts]]; [done | cbn in Hhd; congruence |].
    rewrite Fsl, Fel in Hn. cbn [length] in Hn. lia. }
  cbn in Hlast. assert (tn = t0) as -> by congruence. cbn in Fn, Fa, Fsd, Fan, Fsn, Fc.
  replace ((t0 - t0) * n) with 0 in Fc by lia.
  split_and!; [done | done | congruence | done | done |].
  exists t0. split; [done|]. unfold block_row, block_core_hrs.
  rewrite Fc, Fan, Fsn, Fs, Fa, Fid, Fn. cbn.
  assert (np_quotient FNan pb = FNan) as -> by (unfold np_quotient; by destruct (pb =? 0)).
  reflexivity.
Qed.

Lemma single_step_block_witness :
  exists b,
    heap (Sample.after [Sample.step1; Sample.other]) !! 2%nat = Some (OBlock b) /\
    Block.avg_wall_time_diff b = VFloat FNan.
Proof.
  eexists. split; [vm_compute; reflexivity|].
  assert (reachable Sample.both [Sample.step1; Sample.other]
            (Sample.after [Sample.step1; Sample.other])) as Hr.
  { apply sample_reachable. vm_compute. reflexivity. }
  apply (single_step_block _ _ _ 0 2%nat _ Hr); vm_compute; reflexivity.
Defined.

(** X10: the parameter scan is done once.  On an object that a scan has
    populated, [compute_sim_parameters] reads the lines of any file
    without taking anything from them and returns the object as it is,
    and [deconstruct_log_file] goes to its loop without a scan. *)
Theorem scan_once (s s1 : FLASHLogStats) (lines : list string) :
  compute_sim_parameters s lines = OK s1 ->
  forall (args : Args) (lines' : list string),
    compute_sim_parameters s1 lines' = OK s1 /\
    deconstruct_log_file args s1 lines' = loop args (enter s1) lines'.
Proof.
  intros H args lines'.
  destruct (compute_sim_parameters_spec _ _ _ H) as (s0 & x & y & z & n & _ & Hx & Hy & Hz & Hn & ->).
  split; [|done]. unfold compute_sim_parameters.
  erewrite scan_lines_populated, bind_ret by done.
  cbn [set_n_cells nxb nyb nzb n_cores]. rewrite Hx, Hy, Hz, Hn. done.
Qed.

Lemma scan_once_witness :
  compute_sim_parameters Sample.stats [Sample.step1; "Number x zones: 8"%string]
    = OK Sample.stats.
Proof.
  eapply (proj1 (scan_once (FLASHLogStats_init "Turb.log" false "superMUC-NG") Sample.stats
                   Sample.header _ Sample.both _)).
  Unshelve. vm_compute. reflexivity.
Defined.

Lemma scan_line_no_site s cnt line s' :
  n_cores_per_node s = None -> n_cores s = None -> scan_line s cnt line = OK s' ->
  n_cores_per_node s' = None /\ n_cores s' = None.
Proof.
  intros Hp Hn H. unfold scan_line in H.
  bind_inv H as s1 E1. bind_inv H as s2 E2. bind_inv H as s3 E3.
  assert (s1 = s) as ->.
  { rewrite Hn in E1. unfold search_core_count in E1.
    destruct (Re.found (Re.lit "Number of MPI tasks:") line); [|by injection E1].
    bind_inv E1 as m Em. bind_inv E1 as n0 En. by rewrite Hp in E1. }
  assert (n_cores_per_node s2 = n_cores_per_node s /\ n_cores s2 = n_cores s) as [P2 N2].
  { destruct (nxb s); [by injection E2 as <-|]. bind_inv E2 as v Ev. by injection E2 as <-. }
  assert (n_cores_per_node s3 = n_cores_per_node s2 /\ n_cores s3 = n_cores s2) as [P3 N3].
  { destruct (nyb s2); [by injection E3 as <-|]. bind_inv E3 as v Ev. by injection E3 as <-. }
  assert (n_cores_per_node s' = n_cores_per_node s3 /\ n_cores s' = n_cores s3) as [P4 N4].
  { destruct (nzb s3); [by injection H as <-|]. bind_inv H as v Ev. by injection H as <-. }
  split; congruence.
Qed.

Lemma scan_lines_no_site lines : forall s cnt s',
  n_cores_per_node s = None -> n_cores s = None -> scan_lines s cnt lines = OK s' ->
  n_cores s' = None.
Proof.
  induction lines as [|line rest IH]; intros s cnt s' Hp Hn H.
  - by injection H as <-.
  - cbn [scan_lines] in H. bind_inv H as s1 E1.
    destruct (scan_line_no_site _ _ _ _ Hp Hn E1). by eapply IH.
Qed.

(** X11: [__init__] sets [n_cores_per_node] for the sites superMUC-NG
    and Gadi only.  For an object of any other site the parameter scan
    fails on every file: the number of cores cannot be set, since the
    line that carries it needs [n_cores_per_node]. *)
Theorem unknown_site_scan_fails (file : string) (dbg : bool) (site : string)
    (lines : list string) :
  String.eqb site "superMUC-NG" = false -> String.eqb site "Gadi" = false ->
  exists e, compute_sim_parameters (FLASHLogStats_init file dbg site) lines = Raise e.
Proof.
  intros H1 H2. unfold compute_sim_parameters.
  destruct (scan_lines (FLASHLogStats_init file dbg site) 1 lines) as [s1|e] eqn:E;
    [|by exists e].
  apply scan_lines_no_site in E; [| by cbn; rewrite H1, H2 | done].
  rewrite bind_ret, E. exists TypeError. unfold mul_attr.
  by destruct (nxb s1), (nyb s1), (nzb s1).
Qed.

Lemma unknown_site_scan_fails_witness :
  exists e, compute_sim_parameters (FLASHLogStats_init "Turb.log" false "Setonix")
              Sample.header = Raise e.
Proof. apply unknown_site_scan_fails; reflexivity. Defined.

(** X12: the failures of the parameter scan of a new object of the site
    superMUC-NG on a file of ASCII text.  Its exception is [IndexError],
    [ValueError], [OverflowError] or [TypeError]: [IndexError] only when
    a line has no number, [ValueError] only when a line is longer than
    4300 characters (a number of more digits than [int] converts) and
    [OverflowError] only when a line is longer than 308 characters (a
    number of cores whose quotient by 48 has no float).  And a line is
    not skipped in favour of a later one: when the scan gets through the
    lines before the first line that carries a label, and that line has
    no digit, the scan raises [IndexError]. *)
Theorem scan_failures (file : string) (dbg : bool) (lines : list string) :
  Forall (fun line => is_ascii line = true) lines ->
  (forall e, compute_sim_parameters (FLASHLogStats_init file dbg "superMUC-NG") lines = Raise e ->
     (e = IndexError \/ e = ValueError \/ e = OverflowError \/ e = TypeError) /\
     (e = IndexError -> Exists (fun line => Re.findall re_digits line = []) lines) /\
     (e = ValueError -> Exists (fun line => int_max_str_digits < strlen line) lines) /\
     (e = OverflowError -> Exists (fun line => 308 < strlen line) lines)) /\
  (forall label pre line suf s1,
     In label ["Number of MPI tasks:"; "Number x zones:"; "Number y zones:";
               "Number z zones:"]%string ->
     lines = pre ++ line :: suf ->
     scan_lines (FLASHLogStats_init file dbg "superMUC-NG") 1 pre = OK s1 ->
     never_appears label pre ->
     Re.found (Re.lit label) line = true -> Re.findall re_digits line = [] ->
     compute_sim_parameters (FLASHLogStats_init file dbg "superMUC-NG") lines
       = Raise IndexError).
Proof.
  intros _. set (s := FLASHLogStats_init file dbg "superMUC-NG").
  assert (forall get label,
            (forall s0 cnt line s', scan_line s0 cnt line = OK s' ->
               retained label line (get s0) (get s')) ->
            (forall s1 pre, scan_lines s 1 pre = OK s1 ->
               get s1 = first_extraction label pre) ->
            forall pre line suf s1, scan_lines s 1 pre = OK s1 -> never_appears label pre ->
              Re.found (Re.lit label) line = true -> Re.findall re_digits line = [] ->
              compute_sim_parameters s (pre ++ line :: suf) = Raise IndexError) as Hno.
  { intros get label Hret Hget pre line suf s1 Hpre Hnever Hf Hd. unfold compute_sim_parameters.
    rewrite scan_lines_app, Hpre, bind_ret. cbn [scan_lines].
    assert (get s1 = None) as Hg.
    { rewrite (Hget _ _ Hpre). by apply first_extraction_never. }
    destruct (scan_line s1 (1 + Z.of_nat (length pre)) line) as [s2|e] eqn:E.
    - exfalso. apply Hret in E. unfold retained in E. rewrite Hg, Hf in E.
      destruct E as (m & Hm & _). by rewrite Hd in Hm.
    - assert (n_cores_per_node s1 = Some 48) as Hp.
      { destruct (scan_lines_spec _ _ _ _ Hpre) as (_ & _ & _ & _ & _ & _ & _ & Hnode).
        by rewrite Hnode. }
      destruct (scan_line_raise _ _ _ 48 _ Hp ltac:(lia) E) as [[-> _] | (m & Hm & _)]; [done|].
      by rewrite Hd in Hm. }
  split.
  - intros e H. unfold compute_sim_parameters in H.
    destruct (scan_lines s 1 lines) as [s1|e1] eqn:E.
    + assert (e = TypeError) as ->.
      { rewrite bind_ret in H. unfold mul_attr in H.
        destruct (nxb s1), (nyb s1), (nzb s1), (n_cores s1); cbn in H; congruence. }
      split_and!; [tauto | done..].
    + injection H as <-.
      pose proof (scan_lines_raise lines s 1 48 e1 eq_refl ltac:(lia) E) as Hex.
      split_and!.
      * apply Exists_exists in Hex as (line & _ & [[-> _] | (m & _ & [[-> _] | [-> _]])]); tauto.
      * intros ->. eapply Exists_impl; [exact Hex|]. cbn.
        intros line [[_ Hd] | (m & _ & [[? _] | [? _]])]; done.
      * intros ->. eapply Exists_impl; [exact Hex|]. cbn.
        intros line [[? _] | (m & Hm & [[_ Hlen] | [? _]])]; [done| |done].
        destruct (first_number_len _ _ Hm). lia.
      * intros ->. eapply Exists_impl; [exact Hex|]. cbn.
        intros line [[? _] | (m & Hm & [[? _] | [_ Hlen]])]; [done|done|].
        destruct (first_number_len _ _ Hm). lia.
  - intros label pre line suf s1 Hin -> Hpre Hnever Hf Hd. cbn in Hin.
    destruct Hin as [<- | [<- | [<- | [<- | []]]]].
    + apply (Hno n_cores "Number of MPI tasks:"%string) with s1; [| |done..].
      * intros ? ? ? ? Hs. by destruct (scan_line_spec _ _ _ _ Hs) as (? & ? & ? & ? & ?).
      * intros ? ? Hs. by destruct (scan_lines_spec _ _ _ _ Hs) as (? & ? & ? & ? & ?).
    + apply (Hno nxb "Number x zones:"%string) with s1; [| |done..].
      * intros ? ? ? ? Hs. by destruct (scan_line_spec _ _ _ _ Hs) as (? & ? & ? & ? & ?).
      * intros ? ? Hs. by destruct (scan_lines_spec _ _ _ _ Hs) as (? & ? & ? & ? & ?).
    + apply (Hno nyb "Number y zones:"%string) with s1; [| |done..].
      * intros ? ? ? ? Hs. by destruct (scan_line_spec _ _ _ _ Hs) as (? & ? & ? & ? & ?).
      * intros ? ? Hs. by destruct (scan_lines_spec _ _ _ _ Hs) as (? & ? & ? & ? & ?).
    + apply (Hno nzb "Number z zones:"%string) with s1; [| |done..].
      * intros ? ? ? ? Hs. by destruct (scan_line_spec _ _ _ _ Hs) as (? & ? & ? & ? & ?).
      * intros ? ? Hs. by destruct (scan_lines_spec _ _ _ _ Hs) as (? & ? & ? & ? & ?).
Qed.

Lemma scan_failures_witness :
  compute_sim_parameters (FLASHLogStats_init "Turb.log" false "superMUC-NG")
    (take 1 Sample.header ++ "Number x zones: sixteen"%string :: drop 1 Sample.header)
  = Raise IndexError /\
  Exists (fun line => Re.findall re_digits line = [])
    (take 1 Sample.header ++ "Number x zones: sixteen"%string :: drop 1 Sample.header).
Proof.
  assert (Forall (fun line => is_ascii line = true)
            (take 1 Sample.header ++ "Number x zones: sixteen"%string :: drop 1 Sample.header))
    as Hascii.
  { repeat (apply Forall_cons; split; [vm_compute; reflexivity|]). by apply Forall_nil. }
  destruct (scan_failures "Turb.log" false _ Hascii) as [Hset Hfirst].
  assert (compute_sim_parameters (FLASHLogStats_init "Turb.log" false "superMUC-NG")
            (take 1 Sample.header ++ "Number x zones: sixteen"%string :: drop 1 Sample.header)
          = Raise IndexError) as Hraise.
  { eapply (Hfirst "Number x zones:"%string (take 1 Sample.header) _ (drop 1 Sample.header)).
    - right; left; reflexivity.
    - reflexivity.
    - vm_compute; reflexivity.
    - repeat (apply Forall_cons; split; [vm_compute; reflexivity|]). by apply Forall_nil.
    - vm_compute; reflexivity.
    - vm_compute; reflexivity. }
  split; [exact Hraise|].
  destruct (Hset IndexError Hraise) as (_ & Hindex & _). exact (Hindex eq_refl).
Defined.

(** X13: what a successful parameter scan leaves in a new object: four
    counts that are not negative, the cell count of a block and the
    total cell count as their products, and [nodes] as the number of
    cores divided by the 48 cores of a node. *)
Theorem scan_counts (file : string) (dbg : bool) (lines : list string) (s : FLASHLogStats) :
  compute_sim_parameters (FLASHLogStats_init file dbg "superMUC-NG") lines = OK s ->
  exists n x y z q,
    n_cores s = Some n /\ nxb s = Some x /\ nyb s = Some y /\ nzb s = Some z /\
    0 <= n /\ 0 <= x /\ 0 <= y /\ 0 <= z /\
    n_cells_per_block s = Some (x * y * z) /\ n_cells s = Some (x * y * z * n) /\
    0 <= x * y * z /\
    nodes s = Some (FNum q) /\ (q == n # 48)%Q.
Proof.
  intros H.
  destruct (compute_sim_parameters_spec _ _ _ H) as (s0 & x & y & z & n & E & Hx & Hy & Hz & Hn & ->).
  destruct (scan_lines_spec _ _ _ _ E) as (N & X & Y & Z & _).
  cbn [FLASHLogStats_init n_cores nxb nyb nzb] in N, X, Y, Z.
  rewrite Hn in N. rewrite Hx in X. rewrite Hy in Y. rewrite Hz in Z.
  symmetry in N, X, Y, Z.
  apply first_extraction_nonneg in N, X, Y, Z.
  assert (nodes s0 = Some (FNum (Qred (inject_Z n / inject_Z 48)))) as Hnodes.
  { eapply (scan_lines_nodes lines (FLASHLogStats_init file dbg "superMUC-NG") 1 s0 48);
      [reflexivity | done | done | done]. }
  exists n, x, y, z. eexists. cbn [set_n_cells n_cores nxb nyb nzb n_cells_per_block n_cells nodes].
  split_and!; try done.
  - apply Z.mul_nonneg_nonneg; [apply Z.mul_nonneg_nonneg|]; done.
  - rewrite Qred_correct. unfold Qeq, Qdiv, Qmult, Qinv, inject_Z. cbn. lia.
Qed.

Lemma scan_counts_witness :
  exists n x y z q,
    n_cores Sample.stats = Some n /\ nxb Sample.stats = Some x /\
    nyb Sample.stats = Some y /\ nzb Sample.stats = Some z /\
    0 <= n /\ 0 <= x /\ 0 <= y /\ 0 <= z /\
    n_cells_per_block Sample.stats = Some (x * y * z) /\
    n_cells Sample.stats = Some (x * y * z * n) /\ 0 <= x * y * z /\
    nodes Sample.stats = Some (FNum q) /\ (q == n # 48)%Q.
Proof.
  apply (scan_counts "Turb.log" false Sample.header). vm_compute. reflexivity.
Defined.

(** X14: [create_dataset] after the two passes over a file.  It raises
    [ValueError] when the block tracker is on and no step line of the
    file is directly followed by a line that is not one, or the file-I/O
    tracker is on and the file has no closing marker line: there is
    nothing to concatenate.  Otherwise it writes one file, named by the
    text of the path before its first dot and by the switches, or no
    file when both switches are off; the frame has one row for each
    record, the blocks in the order of their keys and then the events in
    the order of theirs. *)
Theorem export_after_pass (args : Args) (dbg : bool) (file : string) (lines : list string)
    (st : State) :
  main_file args dbg file lines = OK st ->
  if (blocks_flag args && (block_ends false lines =? 0)) ||
     (file_writes args && (count_closes lines =? 0))
  then create_dataset args (self st) (heap st) = Raise ValueError
  else
    exists brows frows,
      create_dataset args (self st) (heap st) =
        OK match blocks_flag args, file_writes args with
           | true, false =>
               [((before_dot file ++ "_block_data.csv")%string, rename_and_transpose brows)]
           | false, true =>
               [((before_dot file ++ "_fileIO_data.csv")%string, rename_and_transpose frows)]
           | true, true =>
               [((before_dot file ++ "_log_data.csv")%string,
                 rename_and_transpose (brows ++ frows))]
           | false, false => []
           end /\
      (blocks_flag args = true ->
         Z.of_nat (length brows) = block_ends false lines /\
         forall k l b, blocks (self st) !! k = Some l -> heap st !! l = Some (OBlock b) ->
           exists row, block_row b = OK row /\ brows !! Z.to_nat k = Some row) /\
      (file_writes args = true ->
         Z.of_nat (length frows) = count_closes lines /\
         forall k l e, fileIOs (self st) !! k = Some l -> heap st !! l = Some (OFileIO e) ->
           exists row, fileIO_row e = OK row /\ frows !! Z.to_nat k = Some row).
Proof.
  intros H. pose proof (main_file_path _ _ _ _ _ H) as Hpath.
  apply main_file_reachable in H.
  pose proof (reachable_tidy _ _ _ H) as [T1 T2 _ T4 T5 _ _ _ _ _].
  destruct (reachable_inv _ _ _ H) as [sf HInv].
  pose proof (ii_counter _ _ _ (inv_io _ _ _ _ HInv)) as Hidc.
  pose proof (ib_counter _ _ _ _ (inv_blk _ _ _ _ HInv)) as Hbdc.
  destruct (frames_dense (blocks (self st)) (block_id_counter st) "block"
              (fun l => b ← get_block (heap st) l; block_row b) T5 Hbdc)
    as (brows & HB1 & HB2 & HB3).
  { intros k l Hk. eapply stored_block_row. by apply (ib_stored _ _ _ _ (inv_blk _ _ _ _ HInv)). }
  destruct (frames_dense (fileIOs (self st)) (IO_id_counter st) "fileIO"
              (fun l => e ← get_fileIO (heap st) l; fileIO_row e) T4 Hidc)
    as (frows & HF1 & HF2 & HF3).
  { intros k l Hk. eapply stored_event_row. by apply (ii_stored _ _ _ (inv_io _ _ _ _ HInv)). }
  assert (block_data_frame (self st) (heap st) =
          match brows with [] => Raise ValueError | _ => OK (rename_and_transpose brows) end)
    as HBF.
  { unfold block_data_frame. rewrite HB1, bind_ret. by destruct brows. }
  assert (fileIO_data_frame (self st) (heap st) =
          match frows with [] => Raise ValueError | _ => OK (rename_and_transpose frows) end)
    as HFF.
  { unfold fileIO_data_frame. rewrite HF1, bind_ret. by destruct frows. }
  assert (forall k l b, blocks (self st) !! k = Some l -> heap st !! l = Some (OBlock b) ->
            exists row, block_row b = OK row /\ brows !! Z.to_nat k = Some row) as HBrows.
  { intros k l b Hk Hl. destruct (HB3 _ _ Hk) as (row & Hrow & Hi).
    rewrite (proj2 (get_block_OK _ _ _) Hl), bind_ret in Hrow. eauto. }
  assert (forall k l e, fileIOs (self st) !! k = Some l -> heap st !! l = Some (OFileIO e) ->
            exists row, fileIO_row e = OK row /\ frows !! Z.to_nat k = Some row) as HFrows.
  { intros k l e Hk Hl. destruct (HF3 _ _ Hk) as (row & Hrow & Hi).
    rewrite (proj2 (get_fileIO_OK _ _ _) Hl), bind_ret in Hrow. eauto. }
  unfold create_dataset. rewrite Hpath, HBF, HFF.
  destruct (blocks_flag args) eqn:Hbf, (file_writes args) eqn:Hfw; cbn [andb orb].
  - rewrite <- T2, <- T1, <- HB2, <- HF2.
    destruct brows as [|r1 brows]; [done|]. destruct frows as [|r2 frows].
    + cbn. done.
    + cbn [length]. replace (Z.of_nat (S (length brows)) =? 0) with false by (symmetry; apply Z.eqb_neq; lia).
      replace (Z.of_nat (S (length frows)) =? 0) with false by (symmetry; apply Z.eqb_neq; lia).
      cbn [orb]. exists (r1 :: brows), (r2 :: frows). split_and!; [done | |].
      * intros _. split; [done | exact HBrows].
      * intros _. split; [done | exact HFrows].
  - rewrite <- T2, <- HB2. rewrite orb_false_r.
    destruct brows as [|r1 brows]; [done|].
    cbn [length]. replace (Z.of_nat (S (length brows)) =? 0) with false by (symmetry; apply Z.eqb_neq; lia).
    exists (r1 :: brows), frows. split_and!; [done | | done].
    intros _. split; [done | exact HBrows].
  - rewrite <- T1, <- HF2.
    destruct frows as [|r2 frows]; [done|].
    cbn [length]. replace (Z.of_nat (S (length frows)) =? 0) with false by (symmetry; apply Z.eqb_neq; lia).
    exists brows, (r2 :: frows). split_and!; [done | done |].
    intros _. split; [done | exact HFrows].
  - exists brows, frows. by split_and!.
Qed.

Lemma export_after_pass_witness :
  exists st,
    main_file Sample.both false "run.1/Turb.log"
      (Sample.header ++ [Sample.step1; Sample.step2]) = OK st /\
    create_dataset Sample.both (self st) (heap st) = Raise ValueError.
Proof.
  eexists. split; [vm_compute; reflexivity|].
  generalize (export_after_pass Sample.both false "run.1/Turb.log"
                (Sample.header ++ [Sample.step1; Sample.step2]) _
                ltac:(vm_compute; reflexivity)).
  vm_compute. intros H. exact H.
Defined.

(** X15: [main] stops at the first file whose iteration raises.  What
    has been written by then is what the files before it gave, and the
    files after it are not read: the result does not depend on them. *)
Theorem main_stops_at_first_exception (args : Args) (dbg : bool)
    (before : list (string * list string)) (file : string) (lines : list string)
    (rest : list (string * list string)) (e : exn) :
  Forall (fun f => exists out, main_iteration args dbg f.1 f.2 = OK out) before ->
  main_iteration args dbg file lines = Raise e ->
  exists written,
    main args dbg before = (written, None) /\
    main args dbg (before ++ (file, lines) :: rest) = (written, Some e).
Proof.
  intros Hbefore Hfail. induction Hbefore as [|[f ls] before [out Hout] _ (written & IH1 & IH2)].
  - exists []. cbn. by rewrite Hfail.
  - exists (out ++ written). cbn [app main]. cbn [fst snd] in Hout. by rewrite Hout, IH1, IH2.
Qed.

Lemma main_stops_at_first_exception_witness :
  exists written,
    main {| file_writes := false; blocks_flag := true |} false
      [("a.log"%string, Sample.header ++ [Sample.step1; Sample.other])] = (written, None) /\
    main {| file_writes := false; blocks_flag := true |} false
      [("a.log"%string, Sample.header ++ [Sample.step1; Sample.other]);
       ("b.log"%string, Sample.header ++ [Sample.step1]);
       ("c.log"%string, Sample.header ++ [Sample.step1; Sample.other])]
    = (written, Some ValueError).
Proof.
  apply (main_stops_at_first_exception {| file_writes := false; blocks_flag := true |} false
           [("a.log"%string, Sample.header ++ [Sample.step1; Sample.other])] "b.log"
           (Sample.header ++ [Sample.step1])
           [("c.log"%string, Sample.header ++ [Sample.step1; Sample.other])] ValueError).
  - apply Forall_cons. split; [|by apply Forall_nil]. eexists. vm_compute. reflexivity.
  - vm_compute. reflexivity.
Defined.

(** The three passes over a file, from the same scan. *)
Lemma three_passes sf lines :
  blocks sf = ∅ -> fileIOs sf = ∅ ->
  match loop both_on (enter sf) lines with
  | OK st =>
      exists st1 st2, loop io_only (enter sf) lines = OK st1 /\
        loop blocks_only (enter sf) lines = OK st2 /\ io_sim st st1 /\ blk_sim st st2
  | Raise _ =>
      (exists e, loop io_only (enter sf) lines = Raise e) \/
      (exists e, loop blocks_only (enter sf) lines = Raise e)
  end.
Proof.
  intros Hb Hf.
  apply (loop_three sf sf sf lines []); try (by apply enter_inv);
    [apply io_sim_refl | apply blk_sim_refl].
Qed.

(** The three passes of [main] over a file. *)
Lemma main_file_three (dbg : bool) (file : string) (lines : list string) :
  match main_file both_on dbg file lines with
  | OK st =>
      exists st1 st2,
        main_file io_only dbg file lines = OK st1 /\
        main_file blocks_only dbg file lines = OK st2 /\
        (forall k, fileIO_at (heap st) (fileIOs (self st) !! k) =
                   fileIO_at (heap st1) (fileIOs (self st1) !! k)) /\
        (forall k, forget_lists <$> block_at (heap st) (blocks (self st) !! k) =
                   forget_lists <$> block_at (heap st2) (blocks (self st2) !! k)) /\
        (forall k, block_lists (heap st) <$> block_at (heap st) (blocks (self st) !! k) =
                   block_lists (heap st2) <$> block_at (heap st2) (blocks (self st2) !! k))
  | Raise _ =>
      (exists e, main_file io_only dbg file lines = Raise e) \/
      (exists e, main_file blocks_only dbg file lines = Raise e)
  end.
Proof.
  rewrite !main_file_loop.
  destruct (compute_sim_parameters (FLASHLogStats_init file dbg "superMUC-NG") lines)
    as [sf|e] eqn:E.
  2:{ cbn. left. by eexists. }
  rewrite !bind_ret.
  destruct (compute_sim_parameters_spec _ _ _ E) as (s0 & x & y & z & n & Es & _ & _ & _ & _ & ->).
  destruct (scan_lines_spec _ _ _ _ Es) as (_ & _ & _ & _ & Hb & Hf & _).
  pose proof (three_passes (set_n_cells (x * y * z) (x * y * z * n) s0) lines Hb Hf) as H.
  destruct (loop both_on (enter (set_n_cells (x * y * z) (x * y * z * n) s0)) lines)
    as [st|e]; [|done].
  destruct H as (st1 & st2 & E1 & E2 & Sio & Sblk). exists st1, st2.
  split_and!; [done | done | apply Sio | apply Sblk | apply Sblk].
Qed.

(** X16: the two trackers do not influence each other.  When the pass
    with both switches on gets through a file, so do the pass with only
    the file-I/O tracker and the pass with only the block tracker, and
    they find the same records: under every key the same event, and the
    same block with the same two lists.  When the pass with both
    switches raises, one of the two others raises. *)
Theorem trackers_independent (dbg : bool) (file : string) (lines : list string) :
  match main_file both_on dbg file lines with
  | OK st =>
      exists st1 st2,
        main_file io_only dbg file lines = OK st1 /\
        main_file blocks_only dbg file lines = OK st2 /\
        (forall k, fileIO_at (heap st) (fileIOs (self st) !! k) =
                   fileIO_at (heap st1) (fileIOs (self st1) !! k)) /\
        (forall k, forget_lists <$> block_at (heap st) (blocks (self st) !! k) =
                   forget_lists <$> block_at (heap st2) (blocks (self st2) !! k)) /\
        (forall k, block_lists (heap st) <$> block_at (heap st) (blocks (self st) !! k) =
                   block_lists (heap st2) <$> block_at (heap st2) (blocks (self st2) !! k))
  | Raise _ =>
      (exists e, main_file io_only dbg file lines = Raise e) \/
      (exists e, main_file blocks_only dbg file lines = Raise e)
  end.
Proof. apply main_file_three. Qed.

(** X17: the file written with both switches on is made of the two
    files written with one switch each.  [main] gets through a file with
    both switches exactly when it does so with only the block tracker
    and with only the file-I/O tracker, and the rows of the frame it
    then writes are the rows of the block frame followed by the rows of
    the event frame. *)
Theorem combined_export (dbg : bool) (file : string) (lines : list string)
    (out : list (string * DataFrame)) :
  main_iteration both_on dbg file lines = OK out <->
  exists block_frame fileIO_frame,
    main_iteration blocks_only dbg file lines =
      OK [((before_dot file ++ "_block_data.csv")%string, block_frame)] /\
    main_iteration io_only dbg file lines =
      OK [((before_dot file ++ "_fileIO_data.csv")%string, fileIO_frame)] /\
    out = [((before_dot file ++ "_log_data.csv")%string,
            {| columns := columns block_frame;
               rows := rows block_frame ++ rows fileIO_frame |})].
Proof.
  unfold main_iteration.
  pose proof (main_file_three dbg file lines) as H3.
  assert (forall st st1 st2,
            main_file both_on dbg file lines = OK st ->
            main_file io_only dbg file lines = OK st1 ->
            main_file blocks_only dbg file lines = OK st2 ->
            turb_log_file_path (self st) = file /\ turb_log_file_path (self st1) = file /\
            turb_log_file_path (self st2) = file /\
            block_data_frame (self st) (heap st) = block_data_frame (self st2) (heap st2) /\
            fileIO_data_frame (self st) (heap st) = fileIO_data_frame (self st1) (heap st1))
    as Hframes.
  { intros st st1 st2 E E1 E2.
    pose proof (main_file_path _ _ _ _ _ E) as Hp. pose proof (main_file_path _ _ _ _ _ E1) as Hp1.
    pose proof (main_file_path _ _ _ _ _ E2) as Hp2.
    pose proof (reachable_tidy _ _ _ (main_file_reachable _ _ _ _ _ E)) as HT.
    pose proof (reachable_tidy _ _ _ (main_file_reachable _ _ _ _ _ E1)) as HT1.
    pose proof (reachable_tidy _ _ _ (main_file_reachable _ _ _ _ _ E2)) as HT2.
    rewrite main_file_loop in E, E1, E2.
    destruct (compute_sim_parameters (FLASHLogStats_init file dbg "superMUC-NG") lines)
      as [sf|e] eqn:Esf; [|done].
    rewrite bind_ret in E, E1, E2.
    destruct (compute_sim_parameters_spec _ _ _ Esf) as (s0 & x & y & z & n & Es & _ & _ & _ & _ & ->).
    destruct (scan_lines_spec _ _ _ _ Es) as (_ & _ & _ & _ & Hb0 & Hf0 & _).
    assert (blocks (set_n_cells (x * y * z) (x * y * z * n) s0) = ∅) as Hb by exact Hb0.
    assert (fileIOs (set_n_cells (x * y * z) (x * y * z * n) s0) = ∅) as Hf by exact Hf0.
    pose proof (run_inv _ _ _ _ Hb Hf E) as HInv.
    pose proof (run_inv _ _ _ _ Hb Hf E1) as HInv1.
    pose proof (run_inv _ _ _ _ Hb Hf E2) as HInv2.
    pose proof (three_passes _ lines Hb Hf) as H3'. rewrite E, E1, E2 in H3'.
    destruct H3' as (st1' & st2' & [= <-] & [= <-] & Sio & Sblk).
    split_and!; [done | done | done | by eapply block_data_frame_sim
                | by eapply fileIO_data_frame_sim]. }
  split.
  - intros H. destruct (main_file both_on dbg file lines) as [st|e] eqn:E; [|done].
    rewrite bind_ret in H. destruct H3 as (st1 & st2 & E1 & E2 & _).
    destruct (Hframes _ _ _ eq_refl E1 E2) as (Hp & Hp1 & Hp2 & Hbf & Hff).
    rewrite E1, E2, !bind_ret. unfold create_dataset in *.
    cbn [both_on io_only blocks_only file_writes blocks_flag] in *.
    rewrite Hp1, Hp2, <- Hbf, <- Hff. rewrite Hp in H.
    destruct (block_data_frame (self st) (heap st)) as [bf|e]; [|done].
    destruct (fileIO_data_frame (self st) (heap st)) as [ff|e]; [|done].
    cbn in H. injection H as <-. exists bf, ff. by split_and!.
  - intros (bf & ff & H2 & H1 & ->).
    destruct (main_file io_only dbg file lines) as [st1|e] eqn:E1; [|done].
    destruct (main_file blocks_only dbg file lines) as [st2|e] eqn:E2; [|done].
    rewrite bind_ret in H1, H2.
    destruct (main_file both_on dbg file lines) as [st|e] eqn:E.
    2:{ destruct H3 as [[e' He] | [e' He]]; discriminate. }
    destruct (Hframes _ _ _ eq_refl eq_refl eq_refl) as (Hp & Hp1 & Hp2 & Hbf & Hff).
    rewrite bind_ret. unfold create_dataset in *.
    cbn [both_on io_only blocks_only file_writes blocks_flag] in *.
    rewrite Hp, Hbf, Hff. rewrite Hp1 in H1. rewrite Hp2 in H2.
    destruct (block_data_frame (self st2) (heap st2)) as [bf'|e]; [|done].
    destruct (fileIO_data_frame (self st1) (heap st1)) as [ff'|e]; [|done].
    cbn in H1, H2. injection H1 as <-. injection H2 as <-. done.
Qed.

Lemma combined_export_witness :
  exists block_frame fileIO_frame,
    main_iteration blocks_only false "Turb.log"
      (Sample.header ++ [Sample.step1; Sample.open1; Sample.close1]) =
      OK [((before_dot "Turb.log" ++ "_block_data.csv")%string, block_frame)] /\
    main_iteration io_only false "Turb.log"
      (Sample.header ++ [Sample.step1; Sample.open1; Sample.close1]) =
      OK [((before_dot "Turb.log" ++ "_fileIO_data.csv")%string, fileIO_frame)].
Proof.
  destruct (proj1 (combined_export false "Turb.log"
                     (Sample.header ++ [Sample.step1; Sample.open1; Sample.close1]) _)
              ltac:(vm_compute; reflexivity))
    as (bf & ff & H1 & H2 & _).
  exists bf, ff. split; [exact H1 | exact H2].
Defined.

(** X18: a time that is read from a line is a [datetime] of the years 1
    to 9999, so the difference of two such times is a [timedelta]: the
    subtractions of the pass cannot overflow. *)
Theorem times_in_range (line line' : string) (t t' : Z) :
  line_wall_time line = OK t -> line_wall_time line' = OK t' ->
  0 <= t <= datetime_max_us /\ timedelta_in_range (t' - t) = true.
Proof.
  intros H H'. pose proof (line_wall_time_range _ _ H). pose proof (line_wall_time_range _ _ H').
  split; [done | by apply timedelta_of_times].
Qed.

Lemma times_in_range_witness :
  0 <= Sample.t0 <= datetime_max_us /\
  timedelta_in_range (Sample.t0 + 1500000 - Sample.t0) = true.
Proof.
  apply (times_in_range Sample.step1 Sample.step2); vm_compute; reflexivity.
Defined.

(** X19: when the two passes of [main] get through a file, for a scan
    that found at most 273 cores and a cell count of a block that has a
    float (below [2^1024 - 2^970]).  They do exactly when, if the block
    tracker is on, every line can be classified ([search_walltime]
    raises on none), and, if the file-I/O tracker is on, the marker
    lines can be tracked: every one has a date and a time that can be
    read, and every closing one follows an opening one, without [debug]
    and with a cell count that is not zero. *)
Theorem pass_gets_through (args : Args) (dbg : bool) (file : string) (lines : list string)
    (sf : FLASHLogStats) (n pb : Z) :
  compute_sim_parameters (FLASHLogStats_init file dbg "superMUC-NG") lines = OK sf ->
  n_cores sf = Some n -> n <= 273 ->
  n_cells_per_block sf = Some pb -> fits_double pb = true ->
  ((exists st, main_file args dbg file lines = OK st) <->
   (blocks_flag args = true -> classified lines) /\
   (file_writes args = true ->
      io_accepts (negb dbg && negb (pb =? 0)) false lines = true)).
Proof.
  intros Hc Hn Hle Hpb Hfit. rewrite main_file_loop, Hc.
  destruct (compute_sim_parameters_spec _ _ _ Hc)
    as (s0 & x & y & z & n' & Es & _ & _ & _ & Hn0 & Hsf).
  destruct (scan_lines_spec _ _ _ _ Es) as (N & _ & _ & _ & Hb0 & Hf0 & Hd0 & _).
  assert (blocks sf = ∅) as Hb by (by rewrite Hsf).
  assert (fileIOs sf = ∅) as Hf by (by rewrite Hsf).
  assert (debug sf = dbg) as Hd by (by rewrite Hsf).
  assert (0 <= n) as Hn_pos.
  { rewrite Hsf in Hn. cbn in Hn. rewrite Hn in N. cbn in N. symmetry in N.
    by apply first_extraction_nonneg in N. }
  clear Es N Hb0 Hf0 Hd0 Hn0 Hsf.
  assert (forall a, Inv a sf [] (enter sf)) as HInv by (intros a; by apply enter_inv).
  assert ((exists st, loop blocks_only (enter sf) lines = OK st) <-> classified lines) as Hblk.
  { split.
    - intros [st H]. by eapply (loop_classified blocks_only).
    - intros H. eapply loop_blocks_only_ok; [apply HInv | done | lia | done | done | done]. }
  assert ((exists st, loop io_only (enter sf) lines = OK st) <->
          io_accepts (negb dbg && negb (pb =? 0)) false lines = true) as Hio.
  { rewrite <- Hd. by apply (loop_io_only_accepts sf pb lines [] (enter sf)). }
  rewrite bind_ret. destruct args as [[] []]; cbn [file_writes blocks_flag].
  - pose proof (three_passes sf lines Hb Hf) as H3.
    change {| file_writes := true; blocks_flag := true |} with both_on.
    split.
    + intros [st E]. rewrite E in H3. destruct H3 as (st1 & st2 & E1 & E2 & _).
      split; intros _; [apply Hblk | apply Hio]; by eexists.
    + intros [H1 H2]. apply Hblk in H1 as [st2 E2]; [|done]. apply Hio in H2 as [st1 E1]; [|done].
      destruct (loop both_on (enter sf) lines) as [st|e]; [by eexists|].
      destruct H3 as [[e' He] | [e' He]]; congruence.
  - change {| file_writes := true; blocks_flag := false |} with io_only. rewrite Hio.
    split; [by intros H; split | intros [_ H]; by apply H].
  - change {| file_writes := false; blocks_flag := true |} with blocks_only. rewrite Hblk.
    split; [by intros H; split | intros [H _]; by apply H].
  - rewrite loop_both_off. split; [by intros _; split | intros _; by eexists].
Qed.

Lemma pass_gets_through_witness :
  exists st, main_file Sample.both false "Turb.log"
               (Sample.header ++ [Sample.step1; Sample.open1; Sample.close1]) = OK st.
Proof.
  assert (compute_sim_parameters (FLASHLogStats_init "Turb.log" false "superMUC-NG")
            (Sample.header ++ [Sample.step1; Sample.open1; Sample.close1]) = OK Sample.stats)
    as H1 by (vm_compute; reflexivity).
  assert (n_cores Sample.stats = Some 96) as H2 by (vm_compute; reflexivity).
  assert (n_cells_per_block Sample.stats = Some 4096) as H4 by (vm_compute; reflexivity).
  assert (fits_double 4096 = true) as H5 by (vm_compute; reflexivity).
  apply (proj2 (pass_gets_through Sample.both false "Turb.log" _ Sample.stats 96 4096
                  H1 H2 ltac:(lia) H4 H5)).
  split; intros _.
  - repeat (apply Forall_cons; split; [eexists; vm_compute; reflexivity|]).
    by apply Forall_nil.
  - vm_compute. reflexivity.
Defined.

(** X20: the searches for a label, for [open:] and [close:] and for the
    names of the two write routines are tests for a part of the line: a
    pattern without metacharacters is found exactly in the lines that
    contain its text.  So a marker line is a line that contains
    [IO_writeCheckpoint] or [IO_writePlotfile], anywhere. *)
Theorem label_search_is_substring :
  (forall label line,
     Re.found (Re.lit label) line = true <->
     exists pre suf, line = (pre ++ label ++ suf)%string) /\
  (forall line,
     is_marker line = true <->
     exists pre suf, line = (pre ++ "IO_writeCheckpoint" ++ suf)%string \/
                     line = (pre ++ "IO_writePlotfile" ++ suf)%string).
Proof.
  split; [apply found_lit_substring|].
  intros line. unfold is_marker. rewrite orb_true_iff, !found_lit_substring. split.
  - intros [(pre & suf & H) | (pre & suf & H)]; exists pre, suf; eauto.
  - intros (pre & suf & [H | H]); [left | right]; by exists pre, suf.
Qed.

(** X21: the count that [search_block_cell_count] reads from a line of
    ASCII text that carries one of the three labels of the script is the
    number written by the first run of digits of the line, wherever in
    the line the label stands, when that run has at most 4300 digits.
    A longer run gives [ValueError], a line without a digit
    [IndexError]; there is no other outcome. *)
Theorem first_number_of_line (cnt : Z) (line label : string) :
  is_ascii line = true ->
  In label ["Number x zones:"; "Number y zones:"; "Number z zones:"]%string ->
  Re.found (Re.lit label) line = true ->
  match search_block_cell_count cnt line label with
  | OK v =>
      exists pre m suf,
        line = (pre ++ m ++ suf)%string /\ no_digits pre = true /\
        m ≠ ""%string /\ all_digits m = true /\ starts_with_digit suf = false /\
        strlen m <= int_max_str_digits /\ v = Some (int_of_digits m)
  | Raise e =>
      (e = IndexError /\ no_digits line = true) \/
      (e = ValueError /\
       exists pre m suf,
         line = (pre ++ m ++ suf)%string /\ no_digits pre = true /\
         all_digits m = true /\ starts_with_digit suf = false /\
         int_max_str_digits < strlen m)
  end.
Proof.
  intros _ _ Hf. unfold search_block_cell_count. rewrite Hf.
  pose proof (first_findall_run line) as H.
  destruct (first (Re.findall re_digits line)) as [m|e]; [|by left].
  rewrite bind_ret. destruct H as (pre & suf & H1 & H2 & H3 & H4 & H5).
  pose proof (py_int_cases m) as Hint. destruct (py_int m) as [v|e].
  - destruct Hint as [-> Hlen]. rewrite bind_ret. exists pre, m, suf. by split_and!.
  - destruct Hint as [-> Hlen]. right. split; [done|]. exists pre, m, suf. by split_and!.
Qed.

Lemma first_number_of_line_witness :
  exists pre m suf,
    " [ 01-01-2022 ] Number x zones: 16"%string = (pre ++ m ++ suf)%string /\
    no_digits pre = true /\ m ≠ ""%string /\ all_digits m = true /\
    starts_with_digit suf = false /\ strlen m <= int_max_str_digits /\
    Some 1 = Some (int_of_digits m).
Proof.
  generalize (first_number_of_line 1 " [ 01-01-2022 ] Number x zones: 16" "Number x zones:"
                ltac:(vm_compute; reflexivity) ltac:(left; reflexivity)
                ltac:(vm_compute; reflexivity)).
  assert (search_block_cell_count 1 " [ 01-01-2022 ] Number x zones: 16" "Number x zones:"
          = OK (Some 1)) as -> by (vm_compute; reflexivity).
  intros H. exact H.
Defined.

Lemma Qsquare_nonneg (q : Q) : (0 <= q * q)%Q.
Proof. unfold Qle, Qmult. cbn. nia. Qed.

Lemma Qsum_squares_nonneg (mu : Q) (l : list Q) :
  (0 <= Qsum (map (fun x => (x - mu) * (x - mu)) l))%Q.
Proof.
  induction l as [|x l IH]; cbn; [done|].
  replace 0%Q with (0 + 0)%Q by done. apply Qplus_le_compat; [apply Qsquare_nonneg | apply IH].
Qed.

(** X22: for a block of [self.blocks] with at least one step, the
    standard deviation [std_wall_time_diff] is the square root of a
    variance that is not negative, and it is zero for a block of one
    step (two step lines). *)
Theorem std_of_block (args : Args) (pre : list string) (st : State)
    (k : Z) (l : loc) (b : Block.t) :
  reachable args pre st ->
  blocks (self st) !! k = Some l -> heap st !! l = Some (OBlock b) ->
  1 <= Block.n_steps b ->
  exists v, Block.std_wall_time_diff b = VFloat (FSqrt false v) /\ (0 <= v)%Q /\
    (Block.n_steps b = 1 -> (v == 0)%Q).
Proof.
  intros Hr Hk Hl Hn. destruct (reachable_inv _ _ _ Hr) as [sf HInv].
  pose proof (ib_stored _ _ _ _ (inv_blk _ _ _ _ HInv) _ _ Hk) as Hst.
  destruct (stored_block_of _ _ _ _ _ _ Hst Hl)
    as (wl & dl & ts & ds & t0 & tn & n & pb & s & _ & _ & Hhd & Hlast & _ & _ & _ & _ & _ & F).
  destruct F as [_ _ _ Fn _ _ _ _ _ _ Fsd _ _].
  pose proof (deltas_length ts) as Hlen. rewrite Fsd, Fn in *.
  destruct (deltas ts) as [|d ds'] eqn:Ed; [cbn in Hlen; lia|].
  eexists. split; [reflexivity|]. split.
  - rewrite Qred_correct. apply Qle_shift_div_l.
    + unfold Qlt. cbn. lia.
    + rewrite Qmult_0_l. apply Qsum_squares_nonneg.
  - intros H1. assert (ds' = []) as -> by (destruct ds'; [done | cbn in Hlen; lia]).
    rewrite Qred_correct. cbn [map length Qsum foldr Z.of_nat Pos.of_succ_nat].
    unfold Qsum. cbn [foldr]. change (inject_Z 1) with 1%Q. field.
Qed.

Lemma std_of_block_witness :
  exists b v,
    heap (Sample.after [Sample.step1; Sample.step2; Sample.other]) !! 2%nat = Some (OBlock b) /\
    Block.std_wall_time_diff b = VFloat (FSqrt false v) /\ (0 <= v)%Q.
Proof.
  assert (reachable Sample.both [Sample.step1; Sample.step2; Sample.other]
            (Sample.after [Sample.step1; Sample.step2; Sample.other])) as Hr.
  { apply sample_reachable. vm_compute. reflexivity. }
  eexists.
  destruct (std_of_block _ _ _ 0 2%nat _ Hr
              ltac:(vm_compute; reflexivity) ltac:(vm_compute; reflexivity)
              ltac:(vm_compute; discriminate))
    as (v & H1 & H2 & _).
  exists v. split; [vm_compute; reflexivity|]. by split.
Defined.


